(** * GrabNthrow: gesture-driven rigid bodies

    A shallow embedding of the physics and interaction core of the
    repository (src/physicsObject.js, src/handTracker.js and the Game class
    of game.js) together with the properties its specification states.

    Number model.  JavaScript numbers are embedded as the real numbers of the
    Standard Library: [+ - * /], [Math.sqrt], [Math.max], [Math.min] and
    [Math.abs] are the exact operations, comparisons are decided by
    [Rlt_dec] and friends.  Rounding, infinities and NaN are outside the
    model.

    Host model.  [Math.random()] and [performance.now()] are answered by a
    [Host.t]: the value returned by the k-th call of each.  The number of
    calls made so far is threaded through the code as [Host.calls].

    three.js.  [THREE.Vector3] is embedded with the semantics of the
    library's methods; methods that mutate their receiver become functions
    returning the new value, and every place where the source keeps using a
    mutated receiver is written out.

    Rendering.  Of the visual side the model keeps the emissive colour of
    the objects' materials; the colours, scale and opacity of the hand
    indicator, its depth ring and its ground shadow are written by
    [Game.update] and read by nothing in the core, and are left out.  The
    camera and the raycaster belong to three.js: what they answer is an
    input of each frame ([Game.Frame]).

    Line numbers of game.js are those of src/unnamed/part_001. *)

From Stdlib Require Import Reals Lra Lia ZArith.
From stdpp Require Import base list.

Open Scope R_scope.

(** ** THREE.Vector2 *)

Module Vector2.

Record t : Type := mk { x : R; y : R }.

End Vector2.

(** ** THREE.Vector3 *)

Module Vector3.

Record t : Type := mk { x : R; y : R; z : R }.

(** [new THREE.Vector3()] *)
Definition zero : t := mk 0 0 0.

Definition setX (v : t) (a : R) : t := mk a (y v) (z v).
Definition setY (v : t) (a : R) : t := mk (x v) a (z v).
Definition setZ (v : t) (a : R) : t := mk (x v) (y v) a.

Definition add (v w : t) : t := mk (x v + x w) (y v + y w) (z v + z w).
Definition sub (v w : t) : t := mk (x v - x w) (y v - y w) (z v - z w).

(** [new THREE.Vector3().subVectors(a, b)] *)
Definition subVectors (a b : t) : t := mk (x a - x b) (y a - y b) (z a - z b).

Definition multiplyScalar (v : t) (s : R) : t := mk (x v * s) (y v * s) (z v * s).
Definition divideScalar (v : t) (s : R) : t := mk (x v / s) (y v / s) (z v / s).

(** [v.addScaledVector(w, s)]: [v += w * s] *)
Definition addScaledVector (v w : t) (s : R) : t :=
  mk (x v + x w * s) (y v + y w * s) (z v + z w * s).

Definition dot (v w : t) : R := x v * x w + y v * y w + z v * z w.

Definition lengthSq (v : t) : R := x v * x v + y v * y v + z v * z v.
Definition length (v : t) : R := sqrt (lengthSq v).

(** [this.divideScalar(this.length() || 1)]: the zero vector stays zero. *)
Definition normalize (v : t) : t :=
  divideScalar v (if Req_dec_T (length v) 0 then 1 else length v).

Definition distanceToSquared (v w : t) : R :=
  let dx := x v - x w in
  let dy := y v - y w in
  let dz := z v - z w in
  dx * dx + dy * dy + dz * dz.
Definition distanceTo (v w : t) : R := sqrt (distanceToSquared v w).

(** [v.lerp(w, alpha)]: [v += (w - v) * alpha] *)
Definition lerp (v w : t) (alpha : R) : t :=
  mk (x v + (x w - x v) * alpha)
     (y v + (y w - y v) * alpha)
     (z v + (z w - z v) * alpha).

End Vector3.

(** ** The host: Math.random and performance.now *)

Module Host.

Record t : Type := mk {
  Math_random : nat -> R;      (* answer to the k-th call of Math.random() *)
  performance_now : nat -> R   (* answer to the k-th call of performance.now() *)
}.

Record calls : Type := mkCalls { randomCalls : nat; nowCalls : nat }.

Definition random (H : t) (c : calls) : R * calls :=
  (Math_random H (randomCalls c), mkCalls (S (randomCalls c)) (nowCalls c)).

Definition now (H : t) (c : calls) : R * calls :=
  (performance_now H (nowCalls c), mkCalls (randomCalls c) (S (nowCalls c))).

(** [new THREE.Vector3((Math.random() - 0.5) * k, (Math.random() - 0.5) * k,
    (Math.random() - 0.5) * k)], the arguments drawn left to right. *)
Definition randomSpin (H : t) (k : R) (c : calls) : Vector3.t * calls :=
  let '(r1, c) := random H c in
  let '(r2, c) := random H c in
  let '(r3, c) := random H c in
  (Vector3.mk ((r1 - 0.5) * k) ((r2 - 0.5) * k) ((r3 - 0.5) * k), c).

End Host.

(** [Math.sign] *)
Definition sign (a : R) : R :=
  if Rlt_dec 0 a then 1 else if Rlt_dec a 0 then -1 else a.

(** ** src/physicsObject.js *)

Module PhysicsObject.

Definition GRAVITY : Vector3.t := Vector3.mk 0 (-9.81) 0.
Definition GROUND_Y : R := 0.001.
Definition DAMPING_FACTOR : R := 0.98.
Definition ANGULAR_DAMPING_FACTOR : R := 0.95.
Definition COLLISION_ELASTICITY : R := 0.7.
Definition BALL_RADIUS : R := 0.25.

(** The object together with the parts of its mesh the code touches:
    [mesh.position], [mesh.rotation], [mesh.material.emissive] (the colour as
    its hex number) and [mesh.material.emissiveIntensity]. *)
Record t : Type := mk {
  position : Vector3.t;
  rotation : Vector3.t;
  emissive : Z;
  emissiveIntensity : R;
  velocity : Vector3.t;
  angularVelocity : Vector3.t;
  isHeld : bool;
  radius : R;
  mass : R;
  lastCollisionTime : R
}.

Definition set_position (p : Vector3.t) (o : t) : t :=
  mk p (rotation o) (emissive o) (emissiveIntensity o) (velocity o)
     (angularVelocity o) (isHeld o) (radius o) (mass o) (lastCollisionTime o).
Definition set_rotation (r : Vector3.t) (o : t) : t :=
  mk (position o) r (emissive o) (emissiveIntensity o) (velocity o)
     (angularVelocity o) (isHeld o) (radius o) (mass o) (lastCollisionTime o).
Definition set_emissive (e : Z) (o : t) : t :=
  mk (position o) (rotation o) e (emissiveIntensity o) (velocity o)
     (angularVelocity o) (isHeld o) (radius o) (mass o) (lastCollisionTime o).
Definition set_emissiveIntensity (e : R) (o : t) : t :=
  mk (position o) (rotation o) (emissive o) e (velocity o)
     (angularVelocity o) (isHeld o) (radius o) (mass o) (lastCollisionTime o).
Definition set_velocity (v : Vector3.t) (o : t) : t :=
  mk (position o) (rotation o) (emissive o) (emissiveIntensity o) v
     (angularVelocity o) (isHeld o) (radius o) (mass o) (lastCollisionTime o).
Definition set_angularVelocity (w : Vector3.t) (o : t) : t :=
  mk (position o) (rotation o) (emissive o) (emissiveIntensity o) (velocity o)
     w (isHeld o) (radius o) (mass o) (lastCollisionTime o).
Definition set_isHeld (h : bool) (o : t) : t :=
  mk (position o) (rotation o) (emissive o) (emissiveIntensity o) (velocity o)
     (angularVelocity o) h (radius o) (mass o) (lastCollisionTime o).
Definition set_lastCollisionTime (s : R) (o : t) : t :=
  mk (position o) (rotation o) (emissive o) (emissiveIntensity o) (velocity o)
     (angularVelocity o) (isHeld o) (radius o) (mass o) s.

(** [new PhysicsObject(mesh, initialPosition)] *)
Definition constructor (initialPosition : Vector3.t) : t :=
  let p :=
    if Rlt_dec (Vector3.y initialPosition) (GROUND_Y + BALL_RADIUS)
    then Vector3.setY initialPosition (GROUND_Y + BALL_RADIUS + 0.02)
    else initialPosition in
  mk p Vector3.zero 0%Z 1 Vector3.zero Vector3.zero false BALL_RADIUS 1 0.

Definition grab (this : t) : t :=
  let this := set_isHeld true this in
  let this := set_velocity (Vector3.mk 0 0 0) this in
  let this := set_angularVelocity (Vector3.mk 0 0 0) this in
  let this := set_emissive 0x333333%Z this in
  set_emissiveIntensity 1.0 this.

Definition release (H : Host.t) (direction : Vector3.t) (force : R)
    (c : Host.calls) (this : t) : t * Host.calls :=
  let this := set_isHeld false this in
  let this :=
    set_velocity (Vector3.multiplyScalar (Vector3.normalize direction) force) this in
  let this := set_emissive 0x000000%Z this in
  let this := set_emissiveIntensity 0 this in
  let '(spin, c) := Host.randomSpin H 4 c in
  (set_angularVelocity spin this, c).

(** Returns the answer and the receiver, on which a positive check records
    the time. *)
Definition checkCollision (H : Host.t) (c : Host.calls) (this other : t)
    : bool * t * Host.calls :=
  if isHeld this || isHeld other then (false, this, c) else
  let minDistance := radius this + radius other in
  let distance := Vector3.distanceTo (position this) (position other) in
  let '(now, c) := Host.now H c in
  if Rlt_dec (now - lastCollisionTime this) 100 then (false, this, c) else
  if Rlt_dec distance minDistance
  then (true, set_lastCollisionTime now this, c)
  else (false, this, c).

(** Returns the receiver and the other object, both mutated by the call. *)
Definition resolveCollision (H : Host.t) (c : Host.calls) (this other : t)
    : t * t * Host.calls :=
  let collisionNormal :=
    Vector3.normalize (Vector3.subVectors (position this) (position other)) in
  let relativeVelocity := Vector3.subVectors (velocity this) (velocity other) in
  let velAlongNormal := Vector3.dot relativeVelocity collisionNormal in
  if Rgt_dec velAlongNormal 0 then (this, other, c) else
  let e := COLLISION_ELASTICITY in
  let j := - (1 + e) * velAlongNormal in
  let j_div_2 := j / 2 in
  let impulse := Vector3.multiplyScalar collisionNormal j_div_2 in
  let this := set_velocity (Vector3.add (velocity this) impulse) this in
  let other := set_velocity (Vector3.sub (velocity other) impulse) other in
  let penetrationDepth :=
    (radius this + radius other)
    - Vector3.distanceTo (position this) (position other) in
  let '(this, other) :=
    if Rgt_dec penetrationDepth 0 then
      let correction :=
        Vector3.multiplyScalar collisionNormal (penetrationDepth * 0.6) in
      (set_position (Vector3.add (position this) correction) this,
       set_position (Vector3.sub (position other) correction) other)
    else (this, other) in
  let '(spinA, c) := Host.randomSpin H 0.8 c in
  let this :=
    set_angularVelocity (Vector3.add (angularVelocity this) spinA) this in
  let '(spinB, c) := Host.randomSpin H 0.8 c in
  let other :=
    set_angularVelocity (Vector3.add (angularVelocity other) spinB) other in
  (this, other, c).

Definition setPosition (p : Vector3.t) (this : t) : t :=
  if isHeld this then set_position p this else this.

(** The ground branch of [update]: lines 162-180. *)
Definition groundBounce (this : t) : t :=
  if Rlt_dec (Vector3.y (position this)) (GROUND_Y + radius this) then
    let this :=
      set_position (Vector3.setY (position this) (GROUND_Y + radius this)) this in
    let this :=
      set_velocity
        (Vector3.setY (velocity this) (Vector3.y (velocity this) * -0.5)) this in
    let this :=
      set_velocity
        (Vector3.setX (velocity this) (Vector3.x (velocity this) * 0.9)) this in
    let this :=
      set_velocity
        (Vector3.setZ (velocity this) (Vector3.z (velocity this) * 0.9)) this in
    let rollAxis :=
      Vector3.normalize
        (Vector3.mk (- Vector3.z (velocity this)) 0 (Vector3.x (velocity this))) in
    let rollSpeed := Vector3.length (velocity this) / radius this in
    if Rgt_dec (Vector3.length rollAxis) 0.01
    then set_angularVelocity (Vector3.multiplyScalar rollAxis rollSpeed) this
    else set_angularVelocity
           (Vector3.multiplyScalar (angularVelocity this) 0.9) this
  else this.

(** The wall across the x axis: lines 186-189. *)
Definition bounceX (BOUND_X : R) (this : t) : t :=
  if Rgt_dec (Rabs (Vector3.x (position this))) (BOUND_X - radius this) then
    let this :=
      set_position
        (Vector3.setX (position this)
           (sign (Vector3.x (position this)) * (BOUND_X - radius this))) this in
    set_velocity
      (Vector3.setX (velocity this) (Vector3.x (velocity this) * -0.5)) this
  else this.

(** The wall across the z axis: lines 191-194. *)
Definition bounceZ (BOUND_Z : R) (this : t) : t :=
  if Rgt_dec (Rabs (Vector3.z (position this))) (BOUND_Z - radius this) then
    let this :=
      set_position
        (Vector3.setZ (position this)
           (sign (Vector3.z (position this)) * (BOUND_Z - radius this))) this in
    set_velocity
      (Vector3.setZ (velocity this) (Vector3.z (velocity this) * -0.5)) this
  else this.

(** The arena walls of [update]: lines 183-194. *)
Definition boundaryBounce (this : t) : t :=
  let BOUND_X := 10 in
  let BOUND_Z := 10 in
  bounceZ BOUND_Z (bounceX BOUND_X this).

(** [update(deltaTime, handPosition = null)]; [None] is the default [null]. *)
Definition update (deltaTime : R) (handPosition : option Vector3.t) (this : t) : t :=
  match isHeld this, handPosition with
  | true, Some hand =>
      let this := set_position (Vector3.lerp (position this) hand 0.8) this in
      let this := set_velocity (Vector3.mk 0 0 0) this in
      set_angularVelocity (Vector3.mk 0 0 0) this
  | false, _ =>
      let this :=
        set_velocity
          (Vector3.addScaledVector (velocity this) GRAVITY deltaTime) this in
      let this :=
        set_position
          (Vector3.addScaledVector (position this) (velocity this) deltaTime)
          this in
      let this :=
        set_rotation
          (Vector3.mk
             (Vector3.x (rotation this)
              + Vector3.x (angularVelocity this) * deltaTime)
             (Vector3.y (rotation this)
              + Vector3.y (angularVelocity this) * deltaTime)
             (Vector3.z (rotation this)
              + Vector3.z (angularVelocity this) * deltaTime)) this in
      let this :=
        set_velocity (Vector3.multiplyScalar (velocity this) DAMPING_FACTOR) this in
      let this :=
        set_angularVelocity
          (Vector3.multiplyScalar (angularVelocity this) ANGULAR_DAMPING_FACTOR)
          this in
      boundaryBounce (groundBounce this)
  | true, None => this
  end.

End PhysicsObject.

(** ** src/handTracker.js: the depth estimate *)

Module HandTracker.

Record Landmark : Type := mkLandmark { x : R; y : R; z : R }.

Definition GRAB_GESTURE_THRESHOLD : R := 0.07.

(** [const points = [0, 5, 9, 13, 17]]: wrist and finger bases. *)
Definition points : list nat := [0; 5; 9; 13; 17]%nat.

(** The index pairs visited by
    [for (i = 0; i < n; i++) for (j = i + 1; j < n; j++)], in order, as the
    entries [(points[i], points[j])]. *)
Fixpoint pairsOf (ps : list nat) : list (nat * nat) :=
  match ps with
  | [] => []
  | p :: rest => map (pair p) rest ++ pairsOf rest
  end.

Definition dist2D (p1 p2 : Landmark) : R :=
  sqrt ((x p1 - x p2) ^ 2 + (y p1 - y p2) ^ 2).

(** One turn of the inner loop body.  Reading a landmark that is not there
    gives [undefined], whose [.x] throws: [None]. *)
Definition accumulate (landmarks : list Landmark)
    (acc : option (R * nat)) (ij : nat * nat) : option (R * nat) :=
  match acc with
  | Some (totalDistance, count) =>
      match landmarks !! fst ij, landmarks !! snd ij with
      | Some p1, Some p2 => Some (totalDistance + dist2D p1 p2, S count)
      | _, _ => None
      end
  | None => None
  end.

(** [avgSize = totalDistance / count] after the two loops. *)
Definition avgSize (landmarks : list Landmark) : option R :=
  match fold_left (accumulate landmarks) (pairsOf points) (Some (0, 0%nat)) with
  | Some (totalDistance, count) => Some (totalDistance / INR count)
  | None => None
  end.

(** [estimateDepth()], reading [this.handData.landmarks]; [None] as the
    argument is [null], [None] as the result is the thrown TypeError. *)
Definition estimateDepth (landmarks : option (list Landmark)) : option R :=
  match landmarks with
  | None => Some 0.5
  | Some lm =>
      if (length lm <? 5)%nat then Some 0.5 else
      match avgSize lm with
      | Some avg =>
          let MIN_SIZE := 0.05 in
          let MAX_SIZE := 0.3 in
          let normalizedDepth := (avg - MIN_SIZE) / (MAX_SIZE - MIN_SIZE) in
          Some (1.0 - Rmax 0 (Rmin 1 normalizedDepth))
      | None => None
      end
  end.

(** [this.handData], without [worldLandmarks] and [handedness], which are
    stored and never read. *)
Record HandData : Type := mkHandData {
  landmarks : option (list Landmark);
  isGrabbing : bool;
  screenPosition : Vector2.t
}.

(** The tracker.  [handLandmarker] tells whether [init()] has set the
    landmarker. *)
Record t : Type := mk {
  handLandmarker : bool;
  lastVideoTime : R;
  handData : HandData;
  prevScreenPosition : Vector2.t;
  handMovement : Vector2.t
}.

(** [new HandTracker()] *)
Definition constructor : t :=
  mk false (-1) (mkHandData None false (Vector2.mk 0.5 0.5))
     (Vector2.mk 0.5 0.5) (Vector2.mk 0 0).

(** [init(threeCamera)] when the landmarker and the webcam are set up
    without an error: the landmarker is there from now on. *)
Definition init (this : t) : t :=
  mk true (lastVideoTime this) (handData this) (prevScreenPosition this)
     (handMovement this).

(** Lines 85-93: thumb tip close to index finger tip. *)
Definition pinchDistance (thumbTip indexTip : Landmark) : R :=
  sqrt ((x thumbTip - x indexTip) ^ 2 + (y thumbTip - y indexTip) ^ 2
        + (z thumbTip - z indexTip) ^ 2).

(** [update()].  [videoTime] is [videoElement.currentTime] and [detected] is
    [results.landmarks], the landmarks of each hand [detectForVideo] found.
    In the guard of line 57, [!readyState === HAVE_ENOUGH_DATA] compares a
    boolean with a number and is always false, so the guard is
    [!this.handLandmarker].  A new video time reads the clock once, for the
    time stamp handed to [detectForVideo].  [None] is the TypeError of
    reading [.x] of a landmark that is not there. *)
Definition update (H : Host.t) (c : Host.calls) (videoTime : R)
    (detected : list (list Landmark)) (this : t) : option (t * Host.calls) :=
  if negb (handLandmarker this) then Some (this, c) else
  if Req_dec_T videoTime (lastVideoTime this) then Some (this, c) else
  let '(_, c) := Host.now H c in
  match detected with
  | hand :: _ =>
      match hand !! 8%nat with
      | Some indexTip =>
          let prev := screenPosition (handData this) in
          let screen := Vector2.mk (1.0 - x indexTip) (y indexTip) in
          let movement :=
            Vector2.mk (Vector2.x screen - Vector2.x prev)
                       (Vector2.y screen - Vector2.y prev) in
          match hand !! 4%nat with
          | Some thumbTip =>
              let distance := pinchDistance thumbTip indexTip in
              let grabbing :=
                if Rlt_dec distance GRAB_GESTURE_THRESHOLD then true else false in
              Some (mk (handLandmarker this) videoTime
                       (mkHandData (Some hand) grabbing screen) prev movement, c)
          | None => None
          end
      | None => None
      end
  | [] =>
      Some (mk (handLandmarker this) videoTime
               (mkHandData None false (screenPosition (handData this)))
               (prevScreenPosition this) (Vector2.mk 0 0), c)
  end.

Definition getHandData (this : t) : HandData := handData this.
Definition getHandMovement (this : t) : Vector2.t := handMovement this.

End HandTracker.

(** ** src/sceneManager.js: from the screen to the world *)

Module SceneManager.

(** What the core uses of the three.js camera: its position, its
    unprojection of a point in normalised device coordinates, and its
    viewing direction. *)
Record Camera : Type := mkCamera {
  position : Vector3.t;
  unproject : Vector3.t -> Vector3.t;
  worldDirection : Vector3.t
}.

(** [updateWorldPositionFromScreen(object, screenPosition, distance,
    depthFactor)]; the result is the position written to [object]. *)
Definition updateWorldPositionFromScreen (camera : Camera)
    (screenPosition : Vector2.t) (distance : R) (depthFactor : R) : Vector3.t :=
  let vec :=
    Vector3.mk (Vector2.x screenPosition * 2 - 1)
               (- (Vector2.y screenPosition * 2 - 1)) 0.5 in
  let vec := unproject camera vec in
  let vec := Vector3.normalize (Vector3.sub vec (position camera)) in
  let nearDistance := 2 in
  let farDistance := 7 in
  let adjustedDistance := nearDistance + depthFactor * (farDistance - nearDistance) in
  let worldPos :=
    Vector3.add (position camera) (Vector3.multiplyScalar vec adjustedDistance) in
  worldPos.

End SceneManager.

(** ** game.js: the Game class *)

Module Game.

Definition GRAB_THRESHOLD : R := 1.2.
Definition THROW_FORCE : R := 15.
Definition THROW_HISTORY_LENGTH : nat := 5.

(** What one call of [update()] reads from outside the core: the clock, the
    hand tracker's [handData] and the render surface.
    - [hand] is [None] when [handData.landmarks] is [null]; otherwise it is
      the world position [updateWorldPositionFromScreen] writes into
      [handIndicator.position] for this frame's screen position and depth
      estimate;
    - [intersects] is the answer of [raycaster.intersectObjects(meshes)] for
      the ray through the hand: per hit the index of the mesh among
      [meshes] and the hit distance, nearest first;
    - [cameraDirection] is the answer of [camera.getWorldDirection]. *)
Record Frame : Type := mkFrame {
  deltaTime : R;
  hand : option Vector3.t;
  isGrabbing : bool;
  intersects : list (nat * R);
  cameraDirection : Vector3.t
}.

(** The fields of [Game] the core uses.  [heldObject] refers to one of
    [physicsObjects]: it is kept as that object's index, so that a mutation
    through either name is seen through the other. *)
Record t : Type := mk {
  physicsObjects : list PhysicsObject.t;
  heldObject : option nat;
  handIndicatorPosition : Vector3.t;
  handIndicatorVisible : bool;
  handPositionHistory : list Vector3.t;
  lastGrabPosition : option Vector3.t;
  calls : Host.calls
}.

(** The state after [init()]: one object per start position, nothing held.
    The random choice of the start positions is left to the caller. *)
Definition create (positions : list Vector3.t) (c : Host.calls) : t :=
  mk (PhysicsObject.constructor <$> positions) None Vector3.zero false [] None c.

(** Line 143-148: no earlier position is nearer than 0.8. *)
Definition farFromAll (position : Vector3.t) (existingPositions : list Vector3.t)
    : bool :=
  forallb (fun existingPos =>
             if Rlt_dec (Vector3.distanceTo position existingPos) 0.8
             then false else true) existingPositions.

(** Lines 134-151: the [while] loop with [attempts] turns left; [None] when
    it ends without a valid position. *)
Fixpoint tryPositions (H : Host.t) (attempts : nat)
    (existingPositions : list Vector3.t) (c : Host.calls)
    : option Vector3.t * Host.calls :=
  match attempts with
  | O => (None, c)
  | S attempts =>
      let '(r1, c) := Host.random H c in
      let '(r2, c) := Host.random H c in
      let '(r3, c) := Host.random H c in
      let position :=
        Vector3.mk ((r1 - 0.5) * 4) (0.5 + r2 * 1.5) ((r3 - 0.5) * 2 - 1) in
      if farFromAll position existingPositions then (Some position, c)
      else tryPositions H attempts existingPositions c
  end.

(** Lines 154-160: the place in the line-up of object [i]. *)
Definition fallbackPosition (i : nat) : Vector3.t :=
  Vector3.mk (INR i * 0.8 - 2) (0.5 + INR i * 0.2) (-1).

(** Lines 122-167: the start positions of the objects [i], [i + 1], ...;
    [count] objects are still to be placed. *)
Fixpoint placeObjects (H : Host.t) (i count : nat)
    (existingPositions : list Vector3.t) (c : Host.calls)
    : list Vector3.t * Host.calls :=
  match count with
  | O => (existingPositions, c)
  | S count =>
      let '(found, c) := tryPositions H 20 existingPositions c in
      let position :=
        match found with
        | Some position => position
        | None => fallbackPosition i
        end in
      placeObjects H (S i) count (existingPositions ++ [position]) c
  end.

(** [_createThrowableObjects()] on the new game: six objects. *)
Definition createThrowableObjects (H : Host.t) (c : Host.calls) : t :=
  let '(positions, c) := placeObjects H 0 6 [] c in
  create positions c.

(** Lines 175-214 and 258-262: the frame [update()] sees, from the clock's
    [deltaTime], the tracker's hand data, the camera and the ray hits.
    [None] is the TypeError of [estimateDepth]. *)
Definition frameOf (camera : SceneManager.Camera) (deltaTime : R)
    (handData : HandTracker.HandData) (intersects : list (nat * R))
    : option Frame :=
  match HandTracker.landmarks handData with
  | Some _ =>
      match HandTracker.estimateDepth (HandTracker.landmarks handData) with
      | Some depthEstimate =>
          let screenPos :=
            Vector2.mk (Vector2.x (HandTracker.screenPosition handData))
                       (Vector2.y (HandTracker.screenPosition handData)) in
          Some (mkFrame deltaTime
                  (Some (SceneManager.updateWorldPositionFromScreen camera
                           screenPos 5 depthEstimate))
                  (HandTracker.isGrabbing handData) intersects
                  (SceneManager.worldDirection camera))
      | None => None
      end
  | None =>
      Some (mkFrame deltaTime None (HandTracker.isGrabbing handData) intersects
              (SceneManager.worldDirection camera))
  end.

(** [history.push(p); if (history.length > THROW_HISTORY_LENGTH) history.shift()] *)
Definition pushHistory (history : list Vector3.t) (p : Vector3.t) : list Vector3.t :=
  let history := history ++ [p] in
  if (THROW_HISTORY_LENGTH <? length history)%nat then tail history else history.

(** Lines 181-240: the hand indicator follows the hand, and its position is
    stored in the history. *)
Definition trackHand (f : Frame) (g : t) : t :=
  match hand f with
  | Some p =>
      mk (physicsObjects g) (heldObject g) p true
         (pushHistory (handPositionHistory g) p) (lastGrabPosition g) (calls g)
  | None =>
      mk (physicsObjects g) (heldObject g) (handIndicatorPosition g) false
         (handPositionHistory g) (lastGrabPosition g) (calls g)
  end.

Definition highlightIfFree (e : Z) (obj : PhysicsObject.t) : PhysicsObject.t :=
  if negb (PhysicsObject.isHeld obj) then PhysicsObject.set_emissive e obj else obj.

(** Lines 243-284: visual feedback for objects that can be grabbed. *)
Definition highlight (f : Frame) (g : t) : t :=
  match hand f, handIndicatorVisible g, heldObject g with
  | Some _, true, None =>
      let objs := highlightIfFree 0x000000%Z <$> physicsObjects g in
      let objs :=
        match intersects f with
        | (objIndex, _) :: _ => alter (highlightIfFree 0x222222%Z) objIndex objs
        | [] => objs
        end in
      let objs :=
        (fun obj =>
           if negb (PhysicsObject.isHeld obj) then
             if Rlt_dec (Vector3.distanceTo (PhysicsObject.position obj)
                           (handIndicatorPosition g)) (GRAB_THRESHOLD * 1.5)
             then PhysicsObject.set_emissive 0x222222%Z obj else obj
           else obj) <$> objs in
      mk objs (heldObject g) (handIndicatorPosition g) (handIndicatorVisible g)
         (handPositionHistory g) (lastGrabPosition g) (calls g)
  | _, _, _ => g
  end.

(** An entry of [grabCandidates]; [object] is the index of the object. *)
Record Candidate : Type := mkCandidate { object : nat; distance : R }.

(** Lines 320-329: the ray hits whose mesh belongs to a physics object. *)
Fixpoint rayCandidates (objs : list PhysicsObject.t) (hits : list (nat * R))
    : list Candidate :=
  match hits with
  | [] => []
  | (objIndex, d) :: rest =>
      match objs !! objIndex with
      | Some _ => mkCandidate objIndex d :: rayCandidates objs rest
      | None => rayCandidates objs rest
      end
  end.

(** Lines 332-346, for the objects from index [k] on. *)
Fixpoint nearCandidates (handPos : Vector3.t) (k : nat)
    (objs : list PhysicsObject.t) (grabCandidates : list Candidate)
    : list Candidate :=
  match objs with
  | [] => grabCandidates
  | obj :: rest =>
      let grabCandidates :=
        if negb (PhysicsObject.isHeld obj) then
          let distance := Vector3.distanceTo (PhysicsObject.position obj) handPos in
          if Rlt_dec distance GRAB_THRESHOLD then
            if existsb (fun c => Nat.eqb (object c) k) grabCandidates
            then grabCandidates
            else grabCandidates ++ [mkCandidate k distance]
          else grabCandidates
        else grabCandidates in
      nearCandidates handPos (S k) rest grabCandidates
  end.

(** [grabCandidates.sort((a, b) => a.distance - b.distance)]: a stable sort. *)
Fixpoint insertCandidate (c : Candidate) (sorted : list Candidate) : list Candidate :=
  match sorted with
  | [] => [c]
  | d :: rest =>
      if Rle_dec (distance c) (distance d) then c :: d :: rest
      else d :: insertCandidate c rest
  end.

Definition sortCandidates (cs : list Candidate) : list Candidate :=
  foldr insertCandidate [] cs.

(** Lines 295-356: a pinch with nothing held. *)
Definition startGrab (f : Frame) (g : t) : t :=
  let lastGrab := Some (handIndicatorPosition g) in
  let history : list Vector3.t := [] in
  let grabCandidates := rayCandidates (physicsObjects g) (intersects f) in
  let grabCandidates :=
    nearCandidates (handIndicatorPosition g) 0 (physicsObjects g) grabCandidates in
  match sortCandidates grabCandidates with
  | c :: _ =>
      let objs :=
        alter (fun obj => PhysicsObject.set_emissive 0x333333%Z (PhysicsObject.grab obj))
              (object c) (physicsObjects g) in
      mk objs (Some (object c)) (handIndicatorPosition g) (handIndicatorVisible g)
         history lastGrab (calls g)
  | [] =>
      mk (physicsObjects g) None (handIndicatorPosition g) (handIndicatorVisible g)
         history lastGrab (calls g)
  end.

(** Lines 358-368: a pinch while an object is held. *)
Definition keepHolding (g : t) : t :=
  match last (handPositionHistory g) with
  | Some lastPos =>
      if Rgt_dec (Vector3.distanceTo lastPos (handIndicatorPosition g)) 0.01
      then mk (physicsObjects g) (heldObject g) (handIndicatorPosition g)
              (handIndicatorVisible g)
              (pushHistory (handPositionHistory g) (handIndicatorPosition g))
              (lastGrabPosition g) (calls g)
      else g
  | None => g
  end.

(** Lines 385-416: direction and force of the throw.  [throwVector.normalize()]
    normalises [throwVector] itself and [throwDirection] is that same object,
    so the [throwVector.length()] of the hand speed reads the normalised
    vector. *)
Definition throwOf (history : list Vector3.t) (deltaTime : R)
    (cameraDirection : Vector3.t) : Vector3.t * R :=
  let throwDirection := Vector3.normalize (Vector3.mk 0 0.3 (-1)) in
  let throwForce := THROW_FORCE in
  let '(throwDirection, throwForce) :=
    if (2 <=? length history)%nat then
      match head history, last history with
      | Some startPos, Some endPos =>
          let throwVector := Vector3.subVectors endPos startPos in
          if Rgt_dec (Vector3.length throwVector) 0.05 then
            let throwVector :=
              Vector3.setZ throwVector (Vector3.z throwVector * 2.5) in
            let throwVector :=
              Vector3.setX throwVector (Vector3.x throwVector * 2.5) in
            let throwVector :=
              Vector3.setY throwVector (Rmax 0.2 (Vector3.y throwVector)) in
            let throwVector := Vector3.normalize throwVector in
            let throwDirection := throwVector in
            let handSpeed :=
              Vector3.length throwVector / (INR (length history) * deltaTime) in
            (throwDirection,
             Rmin (THROW_FORCE * 1.5) (Rmax (THROW_FORCE * 0.7) (handSpeed * 5)))
          else (throwDirection, throwForce)
      | _, _ => (throwDirection, throwForce)
      end
    else (throwDirection, throwForce) in
  let throwDirection :=
    if Rlt_dec (Vector3.length throwDirection) 0.1 then
      Vector3.setY cameraDirection (Rmax 0.2 (Vector3.y cameraDirection + 0.2))
    else throwDirection in
  (throwDirection, throwForce).

(** Lines 380-425: the pinch has ended while object [k] is held. *)
Definition throwHeld (H : Host.t) (f : Frame) (k : nat) (g : t) : t :=
  let objs := alter (PhysicsObject.set_emissive 0x000000%Z) k (physicsObjects g) in
  let '(throwDirection, throwForce) :=
    throwOf (handPositionHistory g) (deltaTime f) (cameraDirection f) in
  match objs !! k with
  | Some obj =>
      let '(obj, c) :=
        PhysicsObject.release H throwDirection throwForce (calls g) obj in
      mk (<[k := obj]> objs) None (handIndicatorPosition g)
         (handIndicatorVisible g) [] None c
  | None =>
      mk objs None (handIndicatorPosition g) (handIndicatorVisible g) [] None
         (calls g)
  end.

(** Lines 287-426: the grab, hold and throw transitions. *)
Definition interact (H : Host.t) (f : Frame) (g : t) : t :=
  if isGrabbing f then
    match heldObject g with
    | None => startGrab f g
    | Some _ => keepHolding g
    end
  else
    match heldObject g with
    | Some k => throwHeld H f k g
    | None => g
    end.

(** Lines 429-438: the held object follows the hand, every other object
    takes a physics step. *)
Definition stepObjects (f : Frame) (g : t) : t :=
  let objs :=
    match heldObject g with
    | Some k =>
        alter (PhysicsObject.update (deltaTime f) (Some (handIndicatorPosition g)))
              k (physicsObjects g)
    | None => physicsObjects g
    end in
  let objs :=
    imap (fun i obj =>
            if bool_decide (heldObject g = Some i) then obj
            else PhysicsObject.update (deltaTime f) None obj) objs in
  mk objs (heldObject g) (handIndicatorPosition g) (handIndicatorVisible g)
     (handPositionHistory g) (lastGrabPosition g) (calls g).

(** A run of [resolveCollision]: the pair, and the time [checkCollision]
    recorded on the first object when it answered [true]. *)
Record Collision : Type := mkCollision { objA : nat; objB : nat; time : R }.

(** The index pairs [(i, j)] of
    [for (i = 0; i < n; i++) for (j = i + 1; j < n; j++)], in order. *)
Definition pairs (n : nat) : list (nat * nat) :=
  flat_map (fun i => map (pair i) (seq (S i) (n - S i))) (seq 0 n).

(** Lines 443-453: the body of the inner loop.  The state is the objects,
    the host calls made and the collisions resolved so far. *)
Definition collidePair (H : Host.t) (held : option nat)
    (st : list PhysicsObject.t * Host.calls * list Collision) (ij : nat * nat)
    : list PhysicsObject.t * Host.calls * list Collision :=
  let '(objs, c, log) := st in
  let '(i, j) := ij in
  match objs !! i, objs !! j with
  | Some a, Some b =>
      if bool_decide (held = Some i) || bool_decide (held = Some j) then st else
      let '(hit, a, c) := PhysicsObject.checkCollision H c a b in
      let objs := <[i := a]> objs in
      if hit then
        let '(a', b', c) := PhysicsObject.resolveCollision H c a b in
        (<[j := b']> (<[i := a']> objs), c,
         log ++ [mkCollision i j (PhysicsObject.lastCollisionTime a)])
      else (objs, c, log)
  | _, _ => st
  end.

(** Lines 441-455: object-to-object collisions. *)
Definition collide (H : Host.t) (g : t) : t * list Collision :=
  let '(objs, c, log) :=
    fold_left (collidePair H (heldObject g))
              (pairs (length (physicsObjects g)))
              (physicsObjects g, calls g, []) in
  (mk objs (heldObject g) (handIndicatorPosition g) (handIndicatorVisible g)
      (handPositionHistory g) (lastGrabPosition g) c, log).

(** [update()]: one frame.  The second component lists the collisions the
    frame resolved. *)
Definition update (H : Host.t) (f : Frame) (g : t) : t * list Collision :=
  collide H (stepObjects f (interact H f (highlight f (trackHand f g)))).

(** Frame after frame, with all the collisions resolved on the way. *)
Fixpoint run (H : Host.t) (fs : list Frame) (g : t) : t * list Collision :=
  match fs with
  | [] => (g, [])
  | f :: rest =>
      let '(g, log) := update H f g in
      let '(g, log') := run H rest g in
      (g, log ++ log')
  end.

End Game.

(** * Properties *)

(** ** Predicates of the specification *)

(** The invariant of the held flag. *)
Definition pinned (o : PhysicsObject.t) : Prop :=
  PhysicsObject.isHeld o = true ->
  PhysicsObject.velocity o = Vector3.mk 0 0 0
  /\ PhysicsObject.angularVelocity o = Vector3.mk 0 0 0.

(** The states of the game: the one [init()] builds, and every state a
    call of [update()] leads to. *)
Inductive reachable (H : Host.t) : Game.t -> Prop :=
  | reachable_create (positions : list Vector3.t) (c : Host.calls) :
      reachable H (Game.create positions c)
  | reachable_update (f : Game.Frame) (g : Game.t) :
      reachable H g -> reachable H (fst (Game.update H f g)).

(** The throw vector after lines 400-402. *)
Definition amplified (throwVector : Vector3.t) : Vector3.t :=
  Vector3.mk (Vector3.x throwVector * 2.5) (Rmax 0.2 (Vector3.y throwVector))
    (Vector3.z throwVector * 2.5).

(** What the steps of a frame other than the collision pass may do to an
    object: the time of its last collision stays, and the invariant of the
    held flag is kept. *)
Definition evolves (o o' : PhysicsObject.t) : Prop :=
  PhysicsObject.lastCollisionTime o' = PhysicsObject.lastCollisionTime o
  /\ (pinned o -> pinned o').

(** Two resolutions with the same first object lie at least 100 ms apart:
    the later entry of the log has the later time. *)
Definition spaced (log : list Game.Collision) : Prop :=
  forall (m n : nat) (e1 e2 : Game.Collision),
    (m < n)%nat -> log !! m = Some e1 -> log !! n = Some e2 ->
    Game.objA e1 = Game.objA e2 -> 100 <= Game.time e2 - Game.time e1.

(** The first object of every logged collision still carries a collision
    time that is not before the logged one. *)
Definition stamped (objs : list PhysicsObject.t) (log : list Game.Collision) : Prop :=
  forall e : Game.Collision, e ∈ log ->
    exists o, objs !! Game.objA e = Some o
              /\ Game.time e <= PhysicsObject.lastCollisionTime o.

(** The collision pass after its first [n] pairs. *)
Definition collideUpTo (H : Host.t) (g : Game.t) (n : nat)
    : list PhysicsObject.t * Host.calls * list Game.Collision :=
  fold_left (Game.collidePair H (Game.heldObject g))
            (take n (Game.pairs (length (Game.physicsObjects g))))
            (Game.physicsObjects g, Game.calls g, []).

(** Two objects that move alike: same place, same velocity, same radius. *)
Definition sameMotion (a b : PhysicsObject.t) : Prop :=
  PhysicsObject.position a = PhysicsObject.position b
  /\ PhysicsObject.velocity a = PhysicsObject.velocity b
  /\ PhysicsObject.radius a = PhysicsObject.radius b.

(** A scene for the collision pass: two objects made at the same place, a
    hand that never shows, and a clock that reads 100, 250, 400, ... *)
Definition twinsHost : Host.t :=
  Host.mk (fun _ => 0.5) (fun k => 100 + 150 * INR k).
Definition twins : Game.t :=
  Game.create [Vector3.mk 0 1 0; Vector3.mk 0 1 0] (Host.mkCalls 0 0).
Definition idleFrame : Game.Frame :=
  Game.mkFrame 0.016 None false [] (Vector3.mk 0 0 (-1)).

(** Case analysis on every decision the goal takes. *)
Ltac case_decisions :=
  repeat match goal with
         | |- context [if ?d then _ else _] => destruct d
         end.

(** A free ball of the standard radius at [p] with velocity [v]. *)
Definition ballAt (p v : Vector3.t) : PhysicsObject.t :=
  PhysicsObject.mk p Vector3.zero 0 1 v Vector3.zero false
    PhysicsObject.BALL_RADIUS 1 0.

(** The states of a hand tracker: made, set up, and updated with whatever
    video times and detections arrive. *)
Inductive tracking (H : Host.t) : HandTracker.t -> Prop :=
  | tracking_new : tracking H HandTracker.constructor
  | tracking_init (s : HandTracker.t) :
      tracking H s -> tracking H (HandTracker.init s)
  | tracking_update (s s' : HandTracker.t) (c c' : Host.calls) (videoTime : R)
      (detected : list (list HandTracker.Landmark)) :
      tracking H s ->
      HandTracker.update H c videoTime detected s = Some (s', c') ->
      tracking H s'.

(** Landmarks moved by [(dx, dy)] in the image, with any new depth. *)
Definition moved (dx dy : R) (newZ : HandTracker.Landmark -> R)
    (p : HandTracker.Landmark) : HandTracker.Landmark :=
  HandTracker.mkLandmark (HandTracker.x p + dx) (HandTracker.y p + dy) (newZ p).

(** The held flag is the same before and after. *)
Definition sameHeld (o o' : PhysicsObject.t) : Prop :=
  PhysicsObject.isHeld o' = PhysicsObject.isHeld o.

(** [heldObject] and the [isHeld] flags tell the same story: an object is
    flagged exactly when it is the held object. *)
Definition heldConsistent (g : Game.t) : Prop :=
  forall (i : nat) (o : PhysicsObject.t),
    Game.physicsObjects g !! i = Some o ->
    (PhysicsObject.isHeld o = true <-> Game.heldObject g = Some i).


(** The candidates of a grab: lines 313-346. *)
Definition grabCandidates (f : Game.Frame) (g : Game.t) : list Game.Candidate :=
  Game.nearCandidates (Game.handIndicatorPosition g) 0 (Game.physicsObjects g)
    (Game.rayCandidates (Game.physicsObjects g) (Game.intersects f)).

(** The sum of a vector quantity over the objects. *)
Definition total (quantity : PhysicsObject.t -> Vector3.t)
    (objs : list PhysicsObject.t) : Vector3.t :=
  foldr (fun o acc => Vector3.add (quantity o) acc) (Vector3.mk 0 0 0) objs.

(** A position the loop of [_createThrowableObjects] may draw. *)
Definition drawn (H : Host.t) (p : Vector3.t) : Prop :=
  exists k1 k2 k3 : nat,
    p = Vector3.mk ((Host.Math_random H k1 - 0.5) * 4)
                   (0.5 + Host.Math_random H k2 * 1.5)
                   ((Host.Math_random H k3 - 0.5) * 2 - 1).

(** The start position [j] of [positions]: drawn at 0.8 or more from every
    earlier one, or the place [j] of the line-up. *)
Definition placed (H : Host.t) (positions : list Vector3.t) (j : nat)
    (p : Vector3.t) : Prop :=
  p = Game.fallbackPosition j
  \/ (drawn H p
      /\ forall k q, (k < j)%nat -> positions !! k = Some q ->
                     ~ Vector3.distanceTo p q < 0.8).

(** ** The loops and the history on small inputs *)

Example pairs_of_three : Game.pairs 3 = [(0, 1); (0, 2); (1, 2)]%nat.
Proof. reflexivity. Qed.

Example pairs_of_points :
  HandTracker.pairsOf HandTracker.points
  = [(0, 5); (0, 9); (0, 13); (0, 17); (5, 9); (5, 13); (5, 17);
     (9, 13); (9, 17); (13, 17)]%nat.
Proof. reflexivity. Qed.

Example pushHistory_room (a b p : Vector3.t) :
  Game.pushHistory [a; b] p = [a; b; p].
Proof. reflexivity. Qed.

Example pushHistory_full (a b c d e p : Vector3.t) :
  Game.pushHistory [a; b; c; d; e] p = [b; c; d; e; p].
Proof. reflexivity. Qed.

(** The history never holds more than [THROW_HISTORY_LENGTH] samples, and a
    full one gives up its oldest sample. *)
Lemma pushHistory_capacity (history : list Vector3.t) (p : Vector3.t) :
  (length history <= Game.THROW_HISTORY_LENGTH)%nat ->
  (length (Game.pushHistory history p) <= Game.THROW_HISTORY_LENGTH)%nat
  /\ (length history = Game.THROW_HISTORY_LENGTH ->
      Game.pushHistory history p = tail history ++ [p]).
Proof.
  intros Hlen. unfold Game.pushHistory. rewrite length_app. simpl.
  destruct (_ <? _)%nat eqn:Hfull.
  - apply Nat.ltb_lt in Hfull. destruct history as [|q history]; simpl in *.
    + unfold Game.THROW_HISTORY_LENGTH in Hfull. lia.
    + rewrite length_app. simpl. split; [lia|reflexivity].
  - apply Nat.ltb_ge in Hfull. rewrite length_app. simpl.
    split; [lia|]. intros Heq. lia.
Qed.


(** ** Vectors *)

Lemma vector3_eq (a b c a' b' c' : R) :
  a = a' -> b = b' -> c = c' -> Vector3.mk a b c = Vector3.mk a' b' c'.
Proof. intros -> -> ->. reflexivity. Qed.

Lemma lengthSq_nonneg (v : Vector3.t) : 0 <= Vector3.lengthSq v.
Proof. destruct v as [a b c]. unfold Vector3.lengthSq. simpl. nra. Qed.

Lemma length_nonneg (v : Vector3.t) : 0 <= Vector3.length v.
Proof. apply sqrt_pos. Qed.

Lemma length_zero_inv (v : Vector3.t) :
  Vector3.length v = 0 -> v = Vector3.mk 0 0 0.
Proof.
  intros Hlen. apply sqrt_eq_0 in Hlen; [|apply lengthSq_nonneg].
  destruct v as [a b c]. unfold Vector3.lengthSq in Hlen. simpl in Hlen.
  apply vector3_eq; nra.
Qed.

Lemma length_zero : Vector3.length (Vector3.mk 0 0 0) = 0.
Proof.
  unfold Vector3.length, Vector3.lengthSq. simpl.
  replace (0 * 0 + 0 * 0 + 0 * 0) with 0 by ring. apply sqrt_0.
Qed.

Lemma normalize_zero : Vector3.normalize (Vector3.mk 0 0 0) = Vector3.mk 0 0 0.
Proof.
  unfold Vector3.normalize. rewrite length_zero.
  destruct (Req_dec_T 0 0) as [_|Hne]; [|contradiction].
  unfold Vector3.divideScalar. simpl. apply vector3_eq; lra.
Qed.

Lemma normalize_nonzero (v : Vector3.t) :
  Vector3.length v <> 0 ->
  Vector3.normalize v = Vector3.divideScalar v (Vector3.length v).
Proof.
  intros Hne. unfold Vector3.normalize.
  destruct (Req_dec_T (Vector3.length v) 0); [contradiction|reflexivity].
Qed.

Lemma length_divideScalar (v : Vector3.t) (s : R) :
  0 < s -> Vector3.length (Vector3.divideScalar v s) = Vector3.length v / s.
Proof.
  intros Hs. unfold Vector3.length.
  replace (Vector3.lengthSq (Vector3.divideScalar v s))
    with (Vector3.lengthSq v / (s * s)).
  - rewrite sqrt_div_alt by nra. rewrite sqrt_square by lra. reflexivity.
  - destruct v as [a b c]. unfold Vector3.lengthSq, Vector3.divideScalar. simpl.
    field. lra.
Qed.

Lemma length_normalize (v : Vector3.t) :
  Vector3.length v <> 0 -> Vector3.length (Vector3.normalize v) = 1.
Proof.
  intros Hne. rewrite normalize_nonzero by assumption.
  pose proof (length_nonneg v) as Hpos.
  rewrite length_divideScalar by lra. field. assumption.
Qed.

Lemma normalize_unit (v : Vector3.t) :
  Vector3.length v = 1 -> Vector3.normalize v = v.
Proof.
  intros Hlen. rewrite normalize_nonzero by lra. rewrite Hlen.
  destruct v as [a b c]. unfold Vector3.divideScalar. simpl.
  apply vector3_eq; field.
Qed.

Lemma normalize_idempotent (v : Vector3.t) :
  Vector3.normalize (Vector3.normalize v) = Vector3.normalize v.
Proof.
  destruct (Req_dec_T (Vector3.length v) 0) as [Hz|Hnz].
  - apply length_zero_inv in Hz. subst v. rewrite !normalize_zero. reflexivity.
  - apply normalize_unit. apply length_normalize. assumption.
Qed.

(** [sqrt] of a concrete square: [sqrt_of_square r a] with [0 <= r] and
    [r * r = a]. *)
Lemma sqrt_of_square (r a : R) : 0 <= r -> r * r = a -> sqrt a = r.
Proof. intros Hr <-. apply sqrt_square. assumption. Qed.

(** ** PhysicsObject: single operations *)

Lemma pinned_free (o : PhysicsObject.t) :
  PhysicsObject.isHeld o = false -> pinned o.
Proof. intros Hfree Hheld. congruence. Qed.

Lemma pinned_constructor (p : Vector3.t) : pinned (PhysicsObject.constructor p).
Proof. apply pinned_free. reflexivity. Qed.

Lemma pinned_set_emissive (e : Z) (o : PhysicsObject.t) :
  pinned o -> pinned (PhysicsObject.set_emissive e o).
Proof. intros Hp. exact Hp. Qed.

Lemma pinned_grab (o : PhysicsObject.t) : pinned (PhysicsObject.grab o).
Proof. intros _. split; reflexivity. Qed.

Lemma isHeld_release H d force c o :
  PhysicsObject.isHeld (fst (PhysicsObject.release H d force c o)) = false.
Proof. reflexivity. Qed.

Lemma pinned_release H d force c o :
  pinned (fst (PhysicsObject.release H d force c o)).
Proof. apply pinned_free, isHeld_release. Qed.

Lemma isHeld_groundBounce o :
  PhysicsObject.isHeld (PhysicsObject.groundBounce o) = PhysicsObject.isHeld o.
Proof.
  unfold PhysicsObject.groundBounce.
  case_decisions; reflexivity.
Qed.

Lemma isHeld_boundaryBounce o :
  PhysicsObject.isHeld (PhysicsObject.boundaryBounce o) = PhysicsObject.isHeld o.
Proof.
  unfold PhysicsObject.boundaryBounce, PhysicsObject.bounceZ, PhysicsObject.bounceX.
  case_decisions; reflexivity.
Qed.

Lemma isHeld_update dt hand o :
  PhysicsObject.isHeld (PhysicsObject.update dt hand o) = PhysicsObject.isHeld o.
Proof.
  unfold PhysicsObject.update.
  destruct (PhysicsObject.isHeld o) eqn:Hh, hand; simpl; try assumption.
  - rewrite isHeld_boundaryBounce, isHeld_groundBounce. exact Hh.
  - rewrite isHeld_boundaryBounce, isHeld_groundBounce. exact Hh.
Qed.

Lemma pinned_update dt hand o :
  pinned o -> pinned (PhysicsObject.update dt hand o).
Proof.
  intros Hp. destruct (PhysicsObject.isHeld o) eqn:Hh.
  - unfold PhysicsObject.update. rewrite Hh. destruct hand.
    + intros _. split; reflexivity.
    + exact Hp.
  - apply pinned_free. rewrite isHeld_update. exact Hh.
Qed.

Lemma checkCollision_true H c this other this' c' :
  PhysicsObject.checkCollision H c this other = (true, this', c') ->
  PhysicsObject.isHeld this = false /\ PhysicsObject.isHeld other = false
  /\ this' = PhysicsObject.set_lastCollisionTime
               (Host.performance_now H (Host.nowCalls c)) this
  /\ 100 <= Host.performance_now H (Host.nowCalls c)
            - PhysicsObject.lastCollisionTime this
  /\ Vector3.distanceTo (PhysicsObject.position this) (PhysicsObject.position other)
     < PhysicsObject.radius this + PhysicsObject.radius other.
Proof.
  unfold PhysicsObject.checkCollision.
  destruct (PhysicsObject.isHeld this); simpl; [discriminate|].
  destruct (PhysicsObject.isHeld other); simpl; [discriminate|].
  destruct (Rlt_dec _ 100) as [|Hlate]; [discriminate|].
  destruct (Rlt_dec _ _) as [Hnear|]; [|discriminate].
  intros [= <- <-]. repeat split; try assumption. lra.
Qed.

Lemma checkCollision_false H c this other this' c' :
  PhysicsObject.checkCollision H c this other = (false, this', c') ->
  this' = this.
Proof.
  unfold PhysicsObject.checkCollision.
  destruct (PhysicsObject.isHeld this || PhysicsObject.isHeld other);
    [intros [= <- <-]; reflexivity|].
  simpl. destruct (Rlt_dec _ 100); [intros [= <- <-]; reflexivity|].
  destruct (Rlt_dec _ _); [discriminate|intros [= <- <-]; reflexivity].
Qed.

(** What [resolveCollision] never touches. *)
Lemma resolveCollision_frame H c this other this' other' c' :
  PhysicsObject.resolveCollision H c this other = (this', other', c') ->
  PhysicsObject.isHeld this' = PhysicsObject.isHeld this
  /\ PhysicsObject.isHeld other' = PhysicsObject.isHeld other
  /\ PhysicsObject.lastCollisionTime this' = PhysicsObject.lastCollisionTime this
  /\ PhysicsObject.lastCollisionTime other' = PhysicsObject.lastCollisionTime other.
Proof.
  unfold PhysicsObject.resolveCollision.
  destruct (Rgt_dec _ 0); [intros [= <- <- <-]; auto|].
  destruct (Rgt_dec _ 0); simpl; intros [= <- <- <-]; auto.
Qed.

Lemma radius_groundBounce o :
  PhysicsObject.radius (PhysicsObject.groundBounce o) = PhysicsObject.radius o.
Proof.
  unfold PhysicsObject.groundBounce.
  case_decisions; reflexivity.
Qed.

Lemma groundBounce_above o :
  PhysicsObject.GROUND_Y + PhysicsObject.radius o
  <= Vector3.y (PhysicsObject.position (PhysicsObject.groundBounce o)).
Proof.
  unfold PhysicsObject.groundBounce.
  destruct (Rlt_dec _ _) as [Hlow|Hhigh].
  - destruct (Rgt_dec _ _); simpl; lra.
  - lra.
Qed.

Lemma boundaryBounce_vertical o :
  PhysicsObject.radius (PhysicsObject.boundaryBounce o) = PhysicsObject.radius o
  /\ Vector3.y (PhysicsObject.position (PhysicsObject.boundaryBounce o))
     = Vector3.y (PhysicsObject.position o).
Proof.
  unfold PhysicsObject.boundaryBounce, PhysicsObject.bounceZ, PhysicsObject.bounceX.
  case_decisions; split; reflexivity.
Qed.

Lemma subVectors_self (p : Vector3.t) : Vector3.subVectors p p = Vector3.mk 0 0 0.
Proof. unfold Vector3.subVectors. apply vector3_eq; ring. Qed.

Lemma distanceTo_self (p : Vector3.t) : Vector3.distanceTo p p = 0.
Proof.
  unfold Vector3.distanceTo, Vector3.distanceToSquared. cbv zeta.
  apply sqrt_of_square; [lra|ring].
Qed.

(** With coincident centres the collision normal is the zero vector: the
    impulse and the position correction vanish, the spin does not. *)
Lemma resolveCollision_coincident H c this other :
  PhysicsObject.position this = PhysicsObject.position other ->
  PhysicsObject.resolveCollision H c this other
  = (PhysicsObject.set_angularVelocity
       (Vector3.add (PhysicsObject.angularVelocity this)
          (fst (Host.randomSpin H 0.8 c))) this,
     PhysicsObject.set_angularVelocity
       (Vector3.add (PhysicsObject.angularVelocity other)
          (fst (Host.randomSpin H 0.8 (snd (Host.randomSpin H 0.8 c))))) other,
     snd (Host.randomSpin H 0.8 (snd (Host.randomSpin H 0.8 c)))).
Proof.
  intros Hpos. unfold PhysicsObject.resolveCollision.
  rewrite Hpos, subVectors_self, normalize_zero.
  destruct (Rgt_dec _ 0) as [Hgt|_].
  { exfalso. unfold Vector3.dot in Hgt. simpl in Hgt. lra. }
  assert (Hv : forall (v : Vector3.t) (s : R),
             Vector3.add v (Vector3.multiplyScalar (Vector3.mk 0 0 0) s) = v
             /\ Vector3.sub v (Vector3.multiplyScalar (Vector3.mk 0 0 0) s) = v).
  { intros [a b d] s. unfold Vector3.add, Vector3.sub, Vector3.multiplyScalar.
    simpl. split; apply vector3_eq; ring. }
  destruct this as [p1 r1 e1 i1 v1 w1 h1 rad1 m1 l1].
  destruct other as [p2 r2 e2 i2 v2 w2 h2 rad2 m2 l2].
  simpl in Hpos. subst p2. simpl.
  destruct (Rgt_dec _ 0); simpl;
    unfold PhysicsObject.set_angularVelocity, PhysicsObject.set_position,
      PhysicsObject.set_velocity; simpl;
    rewrite ?(proj1 (Hv _ _)), ?(proj2 (Hv _ _)); reflexivity.
Qed.

(** ** The claims about a single object *)

(** C9: [update] on a held object without a hand position changes nothing:
    position, rotation, velocity and angular velocity (indeed the whole
    object) are as before. *)
Theorem C9_update_held_without_hand (deltaTime : R) (o : PhysicsObject.t) :
  PhysicsObject.isHeld o = true ->
  PhysicsObject.update deltaTime None o = o.
Proof. intros Hheld. unfold PhysicsObject.update. rewrite Hheld. reflexivity. Qed.

Lemma C9_witness :
  let o := PhysicsObject.grab (PhysicsObject.constructor (Vector3.mk 0 1 0)) in
  PhysicsObject.isHeld o = true /\ PhysicsObject.update 0.016 None o = o.
Proof.
  split; [reflexivity|].
  apply C9_update_held_without_hand. reflexivity.
Defined.

(** C10: [release] with a direction of length zero still clears [isHeld] and
    still assigns the spin drawn from three fresh random numbers; the linear
    velocity is the zero vector. *)
Theorem C10_release_zero_direction (H : Host.t) (direction : Vector3.t)
    (force : R) (c : Host.calls) (o : PhysicsObject.t) :
  Vector3.length direction = 0 ->
  let o' := fst (PhysicsObject.release H direction force c o) in
  let r := fun k => Host.Math_random H (k + Host.randomCalls c) in
  PhysicsObject.isHeld o' = false
  /\ PhysicsObject.velocity o' = Vector3.mk 0 0 0
  /\ PhysicsObject.angularVelocity o'
     = Vector3.mk ((r 0%nat - 0.5) * 4) ((r 1%nat - 0.5) * 4) ((r 2%nat - 0.5) * 4).
Proof.
  intros Hlen. apply length_zero_inv in Hlen. subst direction.
  simpl. split; [reflexivity|]. split; [|reflexivity].
  rewrite normalize_zero. unfold Vector3.multiplyScalar. simpl.
  apply vector3_eq; ring.
Qed.

Lemma C10_witness :
  let H := Host.mk (fun _ => 0.75) (fun _ => 0) in
  let o := PhysicsObject.grab (PhysicsObject.constructor (Vector3.mk 0 1 0)) in
  let o' := fst (PhysicsObject.release H (Vector3.mk 0 0 0) 15 (Host.mkCalls 0 0) o) in
  Vector3.length (Vector3.mk 0 0 0) = 0
  /\ PhysicsObject.isHeld o' = false
  /\ PhysicsObject.velocity o' = Vector3.mk 0 0 0.
Proof.
  intros H o o'. split; [apply length_zero|].
  destruct (C10_release_zero_direction H (Vector3.mk 0 0 0) 15 (Host.mkCalls 0 0) o
              length_zero) as (Hh & Hv & _).
  split; assumption.
Defined.

(** C3, as stated, fails on the hand-follow branch: a held object follows a
    hand that is below the ground. *)
Lemma C3_counterexample :
  let o := PhysicsObject.grab (PhysicsObject.constructor (Vector3.mk 0 1 0)) in
  let o' := PhysicsObject.update 0.016 (Some (Vector3.mk 0 (-1) 0)) o in
  Vector3.y (PhysicsObject.position o')
  < PhysicsObject.GROUND_Y + PhysicsObject.radius o'.
Proof.
  unfold PhysicsObject.constructor.
  destruct (Rlt_dec _ _) as [Hlow|_].
  { exfalso. unfold PhysicsObject.GROUND_Y, PhysicsObject.BALL_RADIUS in Hlow.
    simpl in Hlow. lra. }
  simpl. unfold PhysicsObject.GROUND_Y, PhysicsObject.BALL_RADIUS. lra.
Qed.

(** C3 (amended): after the integration step of an object that is not held,
    [position.y] is at least [GROUND_Y + radius]. *)
Theorem C3_free_object_above_ground (deltaTime : R) (hand : option Vector3.t)
    (o : PhysicsObject.t) :
  PhysicsObject.isHeld o = false ->
  let o' := PhysicsObject.update deltaTime hand o in
  PhysicsObject.GROUND_Y + PhysicsObject.radius o'
  <= Vector3.y (PhysicsObject.position o').
Proof.
  intros Hfree. unfold PhysicsObject.update. rewrite Hfree. cbv zeta.
  match goal with |- context [PhysicsObject.groundBounce ?b] => set (o1 := b) end.
  destruct (boundaryBounce_vertical (PhysicsObject.groundBounce o1)) as [-> ->].
  rewrite radius_groundBounce. apply groundBounce_above.
Qed.

Lemma C3_witness :
  let o := PhysicsObject.constructor (Vector3.mk 0 1 0) in
  let o' := PhysicsObject.update 0.016 None o in
  PhysicsObject.isHeld o = false
  /\ PhysicsObject.GROUND_Y + PhysicsObject.radius o'
     <= Vector3.y (PhysicsObject.position o').
Proof.
  split; [reflexivity|].
  apply C3_free_object_above_ground. reflexivity.
Defined.

(** C7, as stated, fails: with coincident centres [resolveCollision] is not
    skipped, it changes the angular velocity. *)
Lemma C7_counterexample :
  let H := Host.mk (fun _ => 0.75) (fun _ => 0) in
  let a := PhysicsObject.constructor (Vector3.mk 0 1 0) in
  let b := PhysicsObject.constructor (Vector3.mk 0 1 0) in
  let a' := fst (fst (PhysicsObject.resolveCollision H (Host.mkCalls 0 0) a b)) in
  PhysicsObject.position a = PhysicsObject.position b
  /\ PhysicsObject.angularVelocity a' <> PhysicsObject.angularVelocity a.
Proof.
  intros H a b a'. split; [reflexivity|].
  unfold a'. rewrite resolveCollision_coincident by reflexivity.
  simpl. intros Heq. apply (f_equal Vector3.x) in Heq. simpl in Heq. lra.
Qed.

(** C7 (amended): for a pair with coincident centres [resolveCollision]
    leaves positions and linear velocities of both objects unchanged, and
    adds a random spin, each component [(Math.random() - 0.5) * 0.8], to
    both angular velocities. *)
Theorem C7_coincident_centres (H : Host.t) (c : Host.calls)
    (this other : PhysicsObject.t) :
  PhysicsObject.position this = PhysicsObject.position other ->
  let '(this', other', _) := PhysicsObject.resolveCollision H c this other in
  let r := fun k => Host.Math_random H (k + Host.randomCalls c) in
  PhysicsObject.position this' = PhysicsObject.position this
  /\ PhysicsObject.position other' = PhysicsObject.position other
  /\ PhysicsObject.velocity this' = PhysicsObject.velocity this
  /\ PhysicsObject.velocity other' = PhysicsObject.velocity other
  /\ PhysicsObject.angularVelocity this'
     = Vector3.add (PhysicsObject.angularVelocity this)
         (Vector3.mk ((r 0%nat - 0.5) * 0.8) ((r 1%nat - 0.5) * 0.8)
            ((r 2%nat - 0.5) * 0.8))
  /\ PhysicsObject.angularVelocity other'
     = Vector3.add (PhysicsObject.angularVelocity other)
         (Vector3.mk ((r 3%nat - 0.5) * 0.8) ((r 4%nat - 0.5) * 0.8)
            ((r 5%nat - 0.5) * 0.8)).
Proof.
  intros Hpos. rewrite resolveCollision_coincident by assumption.
  simpl. repeat split; reflexivity.
Qed.

Lemma C7_witness :
  let H := Host.mk (fun _ => 0.75) (fun _ => 0) in
  let a := PhysicsObject.constructor (Vector3.mk 0 1 0) in
  let b := PhysicsObject.constructor (Vector3.mk 0 1 0) in
  let a' := fst (fst (PhysicsObject.resolveCollision H (Host.mkCalls 0 0) a b)) in
  PhysicsObject.position a = PhysicsObject.position b
  /\ PhysicsObject.velocity a' = PhysicsObject.velocity a.
Proof.
  intros H a b a'. split; [reflexivity|].
  pose proof (C7_coincident_centres H (Host.mkCalls 0 0) a b eq_refl) as Hc.
  unfold a'. destruct (PhysicsObject.resolveCollision _ _ a b) as [[x y] z].
  cbv beta iota in Hc. simpl. apply Hc.
Defined.

(** ** The depth estimate *)

Lemma accumulate_failed lm ps : fold_left (HandTracker.accumulate lm) ps None = None.
Proof. induction ps as [|ij ps IH]; [reflexivity|exact IH]. Qed.

Lemma accumulate_reads lm ps acc r :
  fold_left (HandTracker.accumulate lm) ps acc = Some r ->
  Forall (fun ij => is_Some (lm !! fst ij) /\ is_Some (lm !! snd ij)) ps.
Proof.
  revert acc. induction ps as [|ij ps IH]; intros acc Hfold; [constructor|].
  simpl in Hfold. destruct acc as [[total count]|]; simpl in Hfold.
  - destruct (lm !! fst ij) as [p1|] eqn:E1;
      [|rewrite accumulate_failed in Hfold; discriminate].
    destruct (lm !! snd ij) as [p2|] eqn:E2;
      [|rewrite accumulate_failed in Hfold; discriminate].
    constructor; [split; eauto|]. eapply IH, Hfold.
  - rewrite accumulate_failed in Hfold. discriminate.
Qed.

Lemma avgSize_length lm a : HandTracker.avgSize lm = Some a -> (18 <= length lm)%nat.
Proof.
  unfold HandTracker.avgSize. intros Havg.
  destruct (fold_left _ _ _) as [r|] eqn:Hfold; [|discriminate].
  apply accumulate_reads in Hfold.
  assert (Hin : (0%nat, 17%nat) ∈ HandTracker.pairsOf HandTracker.points).
  { simpl. do 3 apply list_elem_of_further. apply list_elem_of_here. }
  rewrite Forall_forall in Hfold. destruct (Hfold _ Hin) as [_ [p Hp]].
  apply lookup_lt_Some in Hp. simpl in Hp. lia.
Qed.

(** [avgSize] is the mean of the ten pairwise distances of the five
    reference landmarks. *)
Lemma avgSize_mean lm p0 p5 p9 p13 p17 :
  lm !! 0%nat = Some p0 -> lm !! 5%nat = Some p5 -> lm !! 9%nat = Some p9 ->
  lm !! 13%nat = Some p13 -> lm !! 17%nat = Some p17 ->
  HandTracker.avgSize lm
  = Some ((HandTracker.dist2D p0 p5 + HandTracker.dist2D p0 p9
           + HandTracker.dist2D p0 p13 + HandTracker.dist2D p0 p17
           + HandTracker.dist2D p5 p9 + HandTracker.dist2D p5 p13
           + HandTracker.dist2D p5 p17 + HandTracker.dist2D p9 p13
           + HandTracker.dist2D p9 p17 + HandTracker.dist2D p13 p17) / 10).
Proof.
  intros H0 H5 H9 H13 H17. unfold HandTracker.avgSize. simpl.
  repeat (first [rewrite H0|rewrite H5|rewrite H9|rewrite H13|rewrite H17]; simpl).
  f_equal. field.
Qed.

Lemma clamp_monotone (a b : R) :
  a <= b -> Rmax 0 (Rmin 1 a) <= Rmax 0 (Rmin 1 b).
Proof.
  intros Hab. unfold Rmin.
  destruct (Rle_dec 1 a), (Rle_dec 1 b); unfold Rmax;
    repeat (match goal with |- context [Rle_dec ?u ?v] => destruct (Rle_dec u v) end);
    lra.
Qed.

(** ** The throw *)

Lemma default_direction_length :
  Vector3.length (Vector3.normalize (Vector3.mk 0 0.3 (-1))) = 1.
Proof.
  apply length_normalize. unfold Vector3.length, Vector3.lengthSq. simpl.
  intros Hz. apply sqrt_eq_0 in Hz; lra.
Qed.

(** Too little history: the default direction at the base force. *)
Lemma throwOf_short history deltaTime cameraDirection :
  (length history < 2)%nat ->
  Game.throwOf history deltaTime cameraDirection
  = (Vector3.normalize (Vector3.mk 0 0.3 (-1)), Game.THROW_FORCE).
Proof.
  intros Hlen. unfold Game.throwOf.
  replace (2 <=? length history)%nat with false
    by (symmetry; apply Nat.leb_gt; exact Hlen).
  rewrite default_direction_length.
  destruct (Rlt_dec 1 0.1); [lra|reflexivity].
Qed.

Lemma amplified_length (v : Vector3.t) : Vector3.length (amplified v) <> 0.
Proof.
  intros Hz. apply length_zero_inv in Hz. apply (f_equal Vector3.y) in Hz.
  simpl in Hz. pose proof (Rmax_l 0.2 (Vector3.y v)). lra.
Qed.

(** A history with a significant movement.  The force reads the length of
    the vector after [normalize()], which is 1. *)
Lemma throwOf_significant history deltaTime cameraDirection startPos endPos :
  (2 <= length history)%nat ->
  head history = Some startPos -> last history = Some endPos ->
  Vector3.length (Vector3.subVectors endPos startPos) > 0.05 ->
  Game.throwOf history deltaTime cameraDirection
  = (Vector3.normalize (amplified (Vector3.subVectors endPos startPos)),
     Rmin (Game.THROW_FORCE * 1.5)
       (Rmax (Game.THROW_FORCE * 0.7)
          (1 / (INR (length history) * deltaTime) * 5))).
Proof.
  intros Hlen Hhead Hlast Hbig. unfold Game.throwOf.
  replace (2 <=? length history)%nat with true
    by (symmetry; apply Nat.leb_le; exact Hlen).
  rewrite Hhead, Hlast.
  destruct (Rgt_dec _ 0.05) as [_|Hsmall]; [|contradiction].
  cbv zeta.
  change (Vector3.setY (Vector3.setX _ _) _)
    with (amplified (Vector3.subVectors endPos startPos)).
  rewrite (length_normalize _ (amplified_length _)).
  destruct (Rlt_dec 1 0.1); [lra|reflexivity].
Qed.

Lemma dist2D_unit :
  HandTracker.dist2D (HandTracker.mkLandmark 1 0 0) (HandTracker.mkLandmark 0 0 0) = 1.
Proof. unfold HandTracker.dist2D. simpl. apply sqrt_of_square; lra. Qed.

Lemma dist2D_same (p : HandTracker.Landmark) : HandTracker.dist2D p p = 0.
Proof. unfold HandTracker.dist2D. apply sqrt_of_square; [lra|ring]. Qed.

(** ** The claims about the depth estimate and the throw *)

(** C5: the depth estimate is monotone in the landmark spread: of two
    landmark sets, the one with the smaller mean pairwise distance of the
    five reference landmarks gets the greater or equal depth estimate. *)
Theorem C5_depth_monotone (first second : list HandTracker.Landmark)
    (spread1 spread2 : R) :
  HandTracker.avgSize first = Some spread1 ->
  HandTracker.avgSize second = Some spread2 ->
  spread2 < spread1 ->
  exists depth1 depth2 : R,
    HandTracker.estimateDepth (Some first) = Some depth1
    /\ HandTracker.estimateDepth (Some second) = Some depth2
    /\ depth1 <= depth2.
Proof.
  intros H1 H2 Hlt.
  pose proof (avgSize_length _ _ H1) as Hlen1.
  pose proof (avgSize_length _ _ H2) as Hlen2.
  unfold HandTracker.estimateDepth. rewrite H1, H2.
  replace (length first <? 5)%nat with false by (symmetry; apply Nat.ltb_ge; lia).
  replace (length second <? 5)%nat with false by (symmetry; apply Nat.ltb_ge; lia).
  eexists _, _. split; [reflexivity|]. split; [reflexivity|].
  cbv zeta.
  assert (Hmono : Rmax 0 (Rmin 1 ((spread2 - 0.05) / (0.3 - 0.05)))
                  <= Rmax 0 (Rmin 1 ((spread1 - 0.05) / (0.3 - 0.05)))).
  { apply clamp_monotone. replace (0.3 - 0.05) with 0.25 by lra. lra. }
  lra.
Qed.

Lemma C5_witness :
  let origin := HandTracker.mkLandmark 0 0 0 in
  let first := HandTracker.mkLandmark 1 0 0 :: replicate 17 origin in
  let second := replicate 18 origin in
  HandTracker.avgSize first = Some 0.4
  /\ HandTracker.avgSize second = Some 0
  /\ 0 < 0.4
  /\ exists depth1 depth2 : R,
       HandTracker.estimateDepth (Some first) = Some depth1
       /\ HandTracker.estimateDepth (Some second) = Some depth2
       /\ depth1 <= depth2.
Proof.
  intros origin first second.
  assert (H1 : HandTracker.avgSize first = Some 0.4).
  { rewrite (avgSize_mean first (HandTracker.mkLandmark 1 0 0) origin origin
               origin origin) by reflexivity.
    unfold origin. rewrite dist2D_unit, !dist2D_same. f_equal. lra. }
  assert (H2 : HandTracker.avgSize second = Some 0).
  { rewrite (avgSize_mean second origin origin origin origin origin)
      by reflexivity.
    rewrite !dist2D_same. f_equal. lra. }
  assert (Hlt : 0 < 0.4) by lra.
  split; [exact H1|]. split; [exact H2|]. split; [exact Hlt|].
  exact (C5_depth_monotone first second 0.4 0 H1 H2 Hlt).
Defined.

(** ** The steps of a frame, object by object *)

Lemma evolves_refl o : evolves o o.
Proof. split; [reflexivity|tauto]. Qed.

Lemma evolves_trans o1 o2 o3 : evolves o1 o2 -> evolves o2 o3 -> evolves o1 o3.
Proof. intros [H1 P1] [H2 P2]. split; [congruence|tauto]. Qed.

Lemma evolves_list_refl (l : list PhysicsObject.t) : Forall2 evolves l l.
Proof. induction l; constructor; auto using evolves_refl. Qed.

Lemma evolves_list_trans (l1 l2 l3 : list PhysicsObject.t) :
  Forall2 evolves l1 l2 -> Forall2 evolves l2 l3 -> Forall2 evolves l1 l3.
Proof.
  intros H12. revert l3. induction H12; intros l3 H23; inversion H23; subst;
    constructor; eauto using evolves_trans.
Qed.

Lemma evolves_list_fmap (f : PhysicsObject.t -> PhysicsObject.t)
    (l : list PhysicsObject.t) :
  (forall o, evolves o (f o)) -> Forall2 evolves l (f <$> l).
Proof. intros Hf. induction l; simpl; constructor; auto. Qed.

Lemma evolves_list_alter (f : PhysicsObject.t -> PhysicsObject.t) (k : nat)
    (l : list PhysicsObject.t) :
  (forall o, evolves o (f o)) -> Forall2 evolves l (alter f k l).
Proof.
  intros Hf. apply Forall2_alter_r; [apply evolves_list_refl|].
  intros x y Hx Hy _. assert (x = y) by congruence. subst. apply Hf.
Qed.

Lemma evolves_list_imap (f : nat -> PhysicsObject.t -> PhysicsObject.t)
    (l : list PhysicsObject.t) :
  (forall i o, evolves o (f i o)) -> Forall2 evolves l (imap f l).
Proof.
  intros Hf. apply Forall2_same_length_lookup_2; [by rewrite length_imap|].
  intros i x y Hx. rewrite list_lookup_imap, Hx. simpl. intros [= <-]. apply Hf.
Qed.

Lemma evolves_list_insert (k : nat) (o o' : PhysicsObject.t)
    (l : list PhysicsObject.t) :
  l !! k = Some o -> evolves o o' -> Forall2 evolves l (<[k := o']> l).
Proof.
  intros Hk Ho. rewrite list_insert_alter.
  apply Forall2_alter_r; [apply evolves_list_refl|].
  intros x y Hx _ _. assert (x = o) by congruence. subst. exact Ho.
Qed.

Lemma evolves_list_pinned (l l' : list PhysicsObject.t) :
  Forall2 evolves l l' -> Forall pinned l -> Forall pinned l'.
Proof.
  induction 1 as [|o o' l l' [_ Ho] _ IH]; intros Hl; inversion Hl; subst;
    constructor; auto.
Qed.

Lemma evolves_list_stamp (l l' : list PhysicsObject.t) (k : nat)
    (o' : PhysicsObject.t) :
  Forall2 evolves l l' -> l' !! k = Some o' ->
  exists o, l !! k = Some o
            /\ PhysicsObject.lastCollisionTime o = PhysicsObject.lastCollisionTime o'.
Proof.
  intros Hl Hk. destruct (Forall2_lookup_r _ _ _ _ _ Hl Hk) as (o & Ho & Hs & _).
  exists o. split; [assumption|congruence].
Qed.

Lemma evolves_set_emissive e o : evolves o (PhysicsObject.set_emissive e o).
Proof. split; [reflexivity|apply pinned_set_emissive]. Qed.

Lemma evolves_highlightIfFree e o : evolves o (Game.highlightIfFree e o).
Proof.
  unfold Game.highlightIfFree. destruct (negb _);
    [apply evolves_set_emissive|apply evolves_refl].
Qed.

Lemma evolves_grab o : evolves o (PhysicsObject.grab o).
Proof. split; [reflexivity|intros _; apply pinned_grab]. Qed.

Lemma evolves_release H d force c o :
  evolves o (fst (PhysicsObject.release H d force c o)).
Proof. split; [reflexivity|intros _; apply pinned_release]. Qed.

Lemma lastCollisionTime_groundBounce o :
  PhysicsObject.lastCollisionTime (PhysicsObject.groundBounce o)
  = PhysicsObject.lastCollisionTime o.
Proof.
  unfold PhysicsObject.groundBounce.
  case_decisions; reflexivity.
Qed.

Lemma lastCollisionTime_boundaryBounce o :
  PhysicsObject.lastCollisionTime (PhysicsObject.boundaryBounce o)
  = PhysicsObject.lastCollisionTime o.
Proof.
  unfold PhysicsObject.boundaryBounce, PhysicsObject.bounceZ, PhysicsObject.bounceX.
  case_decisions; reflexivity.
Qed.

Lemma evolves_update dt hand o : evolves o (PhysicsObject.update dt hand o).
Proof.
  split; [|apply pinned_update].
  unfold PhysicsObject.update.
  destruct (PhysicsObject.isHeld o), hand; try reflexivity;
    rewrite lastCollisionTime_boundaryBounce, lastCollisionTime_groundBounce;
    reflexivity.
Qed.

(** ** The steps of a frame, on the game *)

Lemma trackHand_frame f g :
  Game.physicsObjects (Game.trackHand f g) = Game.physicsObjects g
  /\ Game.heldObject (Game.trackHand f g) = Game.heldObject g
  /\ Game.calls (Game.trackHand f g) = Game.calls g.
Proof. unfold Game.trackHand. destruct (Game.hand f); repeat split. Qed.

Lemma highlight_frame f g :
  Game.heldObject (Game.highlight f g) = Game.heldObject g
  /\ Game.handPositionHistory (Game.highlight f g) = Game.handPositionHistory g
  /\ Game.handIndicatorPosition (Game.highlight f g) = Game.handIndicatorPosition g
  /\ Game.calls (Game.highlight f g) = Game.calls g.
Proof.
  destruct g as [objs held pos visible history lastGrab c].
  unfold Game.highlight. simpl.
  destruct (Game.hand f), visible, held; repeat split; reflexivity.
Qed.

Lemma highlight_evolves f g :
  Forall2 evolves (Game.physicsObjects g) (Game.physicsObjects (Game.highlight f g)).
Proof.
  unfold Game.highlight.
  destruct (Game.hand f), (Game.handIndicatorVisible g), (Game.heldObject g);
    try apply evolves_list_refl.
  simpl.
  eapply evolves_list_trans; [|apply evolves_list_fmap].
  - eapply evolves_list_trans;
      [apply (evolves_list_fmap (Game.highlightIfFree 0)), evolves_highlightIfFree|].
    destruct (Game.intersects f) as [|[objIndex d] rest];
      [apply evolves_list_refl|].
    apply evolves_list_alter, evolves_highlightIfFree.
  - intros o. destruct (negb _); [|apply evolves_refl].
    destruct (Rlt_dec _ _); [apply evolves_set_emissive|apply evolves_refl].
Qed.

Lemma throwHeld_evolves H f k g :
  Forall2 evolves (Game.physicsObjects g)
    (Game.physicsObjects (Game.throwHeld H f k g)).
Proof.
  unfold Game.throwHeld.
  destruct (Game.throwOf _ _ _) as [throwDirection throwForce].
  destruct (_ !! k) as [obj|] eqn:Hk.
  - destruct (PhysicsObject.release _ _ _ _ obj) as [obj' c] eqn:Hrel. simpl.
    eapply evolves_list_trans;
      [apply (evolves_list_alter (PhysicsObject.set_emissive 0) k),
         evolves_set_emissive|].
    apply (evolves_list_insert _ obj); [exact Hk|].
    replace obj' with (fst (PhysicsObject.release H throwDirection throwForce
                              (Game.calls g) obj)) by (rewrite Hrel; reflexivity).
    apply evolves_release.
  - simpl. apply evolves_list_alter, evolves_set_emissive.
Qed.

Lemma interact_evolves H f g :
  Forall2 evolves (Game.physicsObjects g)
    (Game.physicsObjects (Game.interact H f g)).
Proof.
  unfold Game.interact.
  destruct (Game.isGrabbing f), (Game.heldObject g) as [k|];
    try apply evolves_list_refl.
  - unfold Game.keepHolding. destruct (last _); [|apply evolves_list_refl].
    destruct (Rgt_dec _ _); apply evolves_list_refl.
  - unfold Game.startGrab. destruct (Game.sortCandidates _) as [|c rest];
      [apply evolves_list_refl|].
    simpl. apply evolves_list_alter. intros o.
    eapply evolves_trans; [apply evolves_grab|apply evolves_set_emissive].
  - apply throwHeld_evolves.
Qed.

Lemma stepObjects_frame f g :
  Game.heldObject (Game.stepObjects f g) = Game.heldObject g
  /\ Game.handPositionHistory (Game.stepObjects f g) = Game.handPositionHistory g
  /\ Game.handIndicatorPosition (Game.stepObjects f g) = Game.handIndicatorPosition g
  /\ Game.calls (Game.stepObjects f g) = Game.calls g.
Proof. repeat split. Qed.

Lemma stepObjects_evolves f g :
  Forall2 evolves (Game.physicsObjects g)
    (Game.physicsObjects (Game.stepObjects f g)).
Proof.
  unfold Game.stepObjects. simpl.
  eapply evolves_list_trans; [|apply evolves_list_imap].
  - destruct (Game.heldObject g); [|apply evolves_list_refl].
    apply evolves_list_alter. intros o. apply evolves_update.
  - intros i o. destruct (bool_decide _);
      [apply evolves_refl|apply evolves_update].
Qed.

(** Everything [update()] does before the collision pass. *)
Lemma beforeCollide_evolves H f g :
  Forall2 evolves (Game.physicsObjects g)
    (Game.physicsObjects
       (Game.stepObjects f
          (Game.interact H f (Game.highlight f (Game.trackHand f g))))).
Proof.
  eapply evolves_list_trans; [|apply stepObjects_evolves].
  eapply evolves_list_trans; [|apply interact_evolves].
  eapply evolves_list_trans; [|apply highlight_evolves].
  destruct (trackHand_frame f g) as [-> _]. apply evolves_list_refl.
Qed.

(** ** The collision pass *)

Section CollisionPass.

Context (H : Host.t).

Lemma fold_left_invariant {A B : Type} (f : A -> B -> A) (I : A -> Prop)
    (P : B -> Prop) (l : list B) (a : A) :
  (forall a b, P b -> I a -> I (f a b)) ->
  Forall P l -> I a -> I (fold_left f l a).
Proof.
  intros Hstep Hl. revert a. induction Hl as [|b l Hb _ IH]; intros a Ha;
    simpl; auto.
Qed.

Lemma pairs_ordered (n : nat) :
  Forall (fun ij => (fst ij < snd ij)%nat) (Game.pairs n).
Proof.
  apply Forall_forall. intros [i j] Hin. apply list_elem_of_In in Hin.
  unfold Game.pairs in Hin. apply in_flat_map in Hin as (i' & _ & Hin).
  apply in_map_iff in Hin as (j' & [= <- <-] & Hj). apply in_seq in Hj.
  simpl. lia.
Qed.

(** One pair: either nothing happens to objects and log, or the pair
    collides at a time [now] at least 100 ms after the first object's last
    collision, and that object carries [now] afterwards. *)
Lemma collidePair_cases held objs c log i j :
  let '(objs', _, log') := Game.collidePair H held (objs, c, log) (i, j) in
  (objs' = objs /\ log' = log)
  \/ exists a b a' b' now,
       objs !! i = Some a /\ objs !! j = Some b
       /\ PhysicsObject.isHeld a' = false /\ PhysicsObject.isHeld b' = false
       /\ 100 <= now - PhysicsObject.lastCollisionTime a
       /\ PhysicsObject.lastCollisionTime a' = now
       /\ PhysicsObject.lastCollisionTime b' = PhysicsObject.lastCollisionTime b
       /\ objs' = <[j := b']> (<[i := a']> objs)
       /\ log' = log ++ [Game.mkCollision i j now].
Proof.
  unfold Game.collidePair.
  destruct (objs !! i) as [a|] eqn:Hi; [|left; auto].
  destruct (objs !! j) as [b|] eqn:Hj; [|left; auto].
  destruct (_ || _); [left; auto|].
  destruct (PhysicsObject.checkCollision H c a b) as [[hit a1] c1] eqn:Hcheck.
  destruct hit.
  - apply checkCollision_true in Hcheck as (Hfa & Hfb & -> & Hlate & _).
    destruct (PhysicsObject.resolveCollision _ _ _ _) as [[a' b'] c2] eqn:Hres.
    apply resolveCollision_frame in Hres as (Ha' & Hb' & Hsa & Hsb).
    right. exists a, b, a', b', (Host.performance_now H (Host.nowCalls c)).
    simpl in *. rewrite list_insert_insert_eq.
    repeat split; try assumption; congruence.
  - apply checkCollision_false in Hcheck as ->.
    left. split; [apply list_insert_id; assumption|reflexivity].
Qed.

Lemma collidePair_pinned held st ij :
  Forall pinned (fst (fst st)) ->
  Forall pinned (fst (fst (Game.collidePair H held st ij))).
Proof.
  intros Hobjs. destruct st as [[objs c] log], ij as [i j]. simpl in Hobjs.
  pose proof (collidePair_cases held objs c log i j) as Hcases.
  destruct (Game.collidePair _ _ _ _) as [[objs' c'] log']. simpl.
  destruct Hcases as [[-> _]|(a & b & a' & b' & now & _ & _ & Ha' & Hb' & _ & _ & _ & -> & _)];
    [assumption|].
  apply Forall_insert; [apply Forall_insert|]; auto using pinned_free.
Qed.

Lemma spaced_snoc (log : list Game.Collision) (e : Game.Collision) :
  spaced log ->
  (forall e1, e1 ∈ log -> Game.objA e1 = Game.objA e ->
              100 <= Game.time e - Game.time e1) ->
  spaced (log ++ [e]).
Proof.
  intros Hlog Hnew m n e1 e2 Hmn H1 H2 Hsame.
  apply lookup_snoc_Some in H2 as [[Hn H2]|[-> <-]].
  - apply lookup_snoc_Some in H1 as [[_ H1]|[-> _]]; [|lia].
    exact (Hlog m n e1 e2 Hmn H1 H2 Hsame).
  - apply lookup_snoc_Some in H1 as [[_ H1]|[? _]]; [|lia].
    apply Hnew; [|assumption]. eapply list_elem_of_lookup_2, H1.
Qed.

(** The pass keeps the log of a run spaced, [past] being the collisions of
    the earlier frames. *)
Lemma collidePair_spaced held past st ij :
  fst ij <> snd ij ->
  spaced (past ++ snd st) /\ stamped (fst (fst st)) (past ++ snd st) ->
  let st' := Game.collidePair H held st ij in
  spaced (past ++ snd st') /\ stamped (fst (fst st')) (past ++ snd st').
Proof.
  intros Hij [Hspaced Hstamped]. cbv zeta.
  destruct st as [[objs c] log], ij as [i j]. simpl in Hij, Hspaced, Hstamped.
  pose proof (collidePair_cases held objs c log i j) as Hcases.
  destruct (Game.collidePair _ _ _ _) as [[objs' c'] log']. simpl.
  destruct Hcases as [[-> ->]|(a & b & a' & b' & now & Hi & Hj & _ & _ & Hlate & Ha' & Hb' & -> & ->)];
    [split; assumption|].
  pose proof (lookup_lt_Some _ _ _ Hi) as Hilt.
  pose proof (lookup_lt_Some _ _ _ Hj) as Hjlt.
  rewrite app_assoc. split.
  - apply spaced_snoc; [assumption|]. intros e1 He1 Hsame. simpl in *.
    destruct (Hstamped e1 He1) as (o & Ho & Hle).
    rewrite Hsame, Hi in Ho. injection Ho as <-. lra.
  - intros e He. apply elem_of_app in He as [He|He].
    + destruct (Hstamped e He) as (o & Ho & Hle).
      destruct (decide (Game.objA e = j)) as [Hej|Hej].
      * exists b'. rewrite Hej in *. rewrite list_lookup_insert_eq
          by (rewrite length_insert; assumption).
        split; [reflexivity|]. assert (o = b) by congruence. subst o. lra.
      * rewrite list_lookup_insert_ne by congruence.
        destruct (decide (Game.objA e = i)) as [Hei|Hei].
        -- exists a'. rewrite Hei in *. rewrite list_lookup_insert_eq by assumption.
           split; [reflexivity|]. assert (o = a) by congruence. subst o. lra.
        -- exists o. rewrite list_lookup_insert_ne by congruence. auto.
    + apply list_elem_of_singleton in He as ->. simpl. exists a'.
      rewrite list_lookup_insert_ne by congruence.
      rewrite list_lookup_insert_eq by assumption. split; [reflexivity|lra].
Qed.

Lemma stamped_evolves (objs objs' : list PhysicsObject.t)
    (log : list Game.Collision) :
  Forall2 evolves objs objs' -> stamped objs log -> stamped objs' log.
Proof.
  intros Hev Hst e He. destruct (Hst e He) as (o & Ho & Hle).
  destruct (Forall2_lookup_l _ _ _ _ _ Hev Ho) as (o' & Ho' & Hs & _).
  exists o'. split; [assumption|]. rewrite Hs. assumption.
Qed.

Lemma update_spaced f g past :
  spaced past /\ stamped (Game.physicsObjects g) past ->
  spaced (past ++ snd (Game.update H f g))
  /\ stamped (Game.physicsObjects (fst (Game.update H f g)))
       (past ++ snd (Game.update H f g)).
Proof.
  intros [Hspaced Hstamped]. unfold Game.update, Game.collide.
  set (g' := Game.stepObjects f _).
  pose proof (fold_left_invariant (Game.collidePair H (Game.heldObject g'))
                (fun st => spaced (past ++ snd st)
                           /\ stamped (fst (fst st)) (past ++ snd st))
                (fun ij => fst ij <> snd ij)
                (Game.pairs (length (Game.physicsObjects g')))
                (Game.physicsObjects g', Game.calls g', [])) as Hfold.
  destruct (fold_left _ _ _) as [[objs c] log]. simpl in *. apply Hfold.
  - intros st ij Hij Hst. apply collidePair_spaced; assumption.
  - eapply Forall_impl; [apply pairs_ordered|]. simpl. intros ij Hlt. lia.
  - rewrite app_nil_r. split; [assumption|].
    eapply stamped_evolves; [apply beforeCollide_evolves|assumption].
Qed.

Lemma run_spaced fs : forall g past,
  spaced past /\ stamped (Game.physicsObjects g) past ->
  spaced (past ++ snd (Game.run H fs g)).
Proof.
  induction fs as [|f fs IH]; intros g past Hinv; simpl.
  - rewrite app_nil_r. apply Hinv.
  - pose proof (update_spaced f g past Hinv) as Hstep.
    destruct (Game.update H f g) as [g1 log]. simpl in Hstep.
    specialize (IH g1 (past ++ log) Hstep).
    destruct (Game.run H fs g1) as [g2 log']. simpl in *.
    rewrite app_assoc. exact IH.
Qed.

(** ** Reachable states *)

Lemma collideUpTo_pinned g n :
  Forall pinned (Game.physicsObjects g) ->
  Forall pinned (fst (fst (collideUpTo H g n))).
Proof.
  intros Hg. unfold collideUpTo.
  apply (fold_left_invariant _ (fun st => Forall pinned (fst (fst st)))
           (fun _ => True)).
  - intros st ij _. apply collidePair_pinned.
  - apply Forall_true. auto.
  - exact Hg.
Qed.

Lemma collide_collideUpTo g :
  Game.physicsObjects (fst (Game.collide H g))
  = fst (fst (collideUpTo H g (length (Game.pairs (length (Game.physicsObjects g)))))).
Proof.
  unfold Game.collide, collideUpTo. rewrite firstn_all.
  destruct (fold_left _ _ _) as [[objs c] log]. reflexivity.
Qed.

Lemma update_pinned f g :
  Forall pinned (Game.physicsObjects g) ->
  Forall pinned (Game.physicsObjects (fst (Game.update H f g))).
Proof.
  intros Hg. unfold Game.update. rewrite collide_collideUpTo.
  apply collideUpTo_pinned.
  eapply evolves_list_pinned; [apply beforeCollide_evolves|exact Hg].
Qed.

Lemma reachable_pinned g :
  reachable H g -> Forall pinned (Game.physicsObjects g).
Proof.
  induction 1 as [positions c|f g _ IH].
  - simpl. apply Forall_fmap, Forall_true. intros p. apply pinned_constructor.
  - apply update_pinned, IH.
Qed.

End CollisionPass.

(** ** The claims about the game *)

(** C2: in every state the game reaches, and after every step of a frame
    (the hand is tracked, candidates are highlighted, an object is grabbed,
    held on or thrown, the objects are stepped, and after each pair of the
    collision pass), every object with [isHeld = true] has velocity and
    angular velocity [(0, 0, 0)]; so a held object never takes up gravity. *)
Theorem C2_held_objects_are_pinned (H : Host.t) (g : Game.t) (f : Game.Frame) :
  reachable H g ->
  let g1 := Game.trackHand f g in
  let g2 := Game.highlight f g1 in
  let g3 := Game.interact H f g2 in
  let g4 := Game.stepObjects f g3 in
  Forall pinned (Game.physicsObjects g)
  /\ Forall pinned (Game.physicsObjects g1)
  /\ Forall pinned (Game.physicsObjects g2)
  /\ Forall pinned (Game.physicsObjects g3)
  /\ Forall pinned (Game.physicsObjects g4)
  /\ (forall n, Forall pinned (fst (fst (collideUpTo H g4 n))))
  /\ Forall pinned (Game.physicsObjects (fst (Game.update H f g))).
Proof.
  intros Hreach g1 g2 g3 g4. apply reachable_pinned in Hreach as Hg.
  assert (Hg1 : Forall pinned (Game.physicsObjects g1)).
  { unfold g1. destruct (trackHand_frame f g) as [-> _]. exact Hg. }
  assert (Hg2 : Forall pinned (Game.physicsObjects g2)).
  { eapply evolves_list_pinned; [apply highlight_evolves|exact Hg1]. }
  assert (Hg3 : Forall pinned (Game.physicsObjects g3)).
  { eapply evolves_list_pinned; [apply interact_evolves|exact Hg2]. }
  assert (Hg4 : Forall pinned (Game.physicsObjects g4)).
  { eapply evolves_list_pinned; [apply stepObjects_evolves|exact Hg3]. }
  repeat split; try assumption.
  - intros n. apply collideUpTo_pinned, Hg4.
  - apply update_pinned, Hg.
Qed.

Lemma C2_witness :
  let H := Host.mk (fun _ => 0.75) (fun _ => 0) in
  let g := Game.create [Vector3.mk 0 1 0; Vector3.mk 1 1 0] (Host.mkCalls 0 0) in
  let f := Game.mkFrame 0.016 (Some (Vector3.mk 0 1 0)) true [] (Vector3.mk 0 0 (-1)) in
  reachable H g
  /\ Forall pinned (Game.physicsObjects (fst (Game.update H f g))).
Proof.
  intros H g f. split; [apply reachable_create|].
  apply (C2_held_objects_are_pinned H g f (reachable_create H _ _)).
Defined.

(** C4: in the collisions resolved over any sequence of frames, two
    resolutions of the same pair are at least 100 ms apart, whatever the
    positions of the objects; and a positive [checkCollision] records the
    current time on the object it was called on. *)
Theorem C4_collision_debounce (H : Host.t) :
  (forall (fs : list Game.Frame) (g : Game.t) (m n : nat)
          (e1 e2 : Game.Collision),
      (m < n)%nat ->
      snd (Game.run H fs g) !! m = Some e1 ->
      snd (Game.run H fs g) !! n = Some e2 ->
      Game.objA e1 = Game.objA e2 -> Game.objB e1 = Game.objB e2 ->
      100 <= Game.time e2 - Game.time e1)
  /\ (forall (c c' : Host.calls) (this other this' : PhysicsObject.t),
        PhysicsObject.checkCollision H c this other = (true, this', c') ->
        PhysicsObject.lastCollisionTime this'
        = Host.performance_now H (Host.nowCalls c)).
Proof.
  split.
  - intros fs g m n e1 e2 Hmn H1 H2 HA _.
    assert (Hrun : spaced ([] ++ snd (Game.run H fs g))).
    { apply run_spaced. split.
      - intros m' n' e1' e2' _ Hnil. rewrite lookup_nil in Hnil. discriminate.
      - intros e He. apply elem_of_nil in He. contradiction. }
    exact (Hrun m n e1 e2 Hmn H1 H2 HA).
  - intros c c' this other this' Hcheck.
    apply checkCollision_true in Hcheck as (_ & _ & -> & _). reflexivity.
Qed.

(** ** Grabbing and holding *)

Lemma rayCandidates_valid objs hits :
  Forall (fun c => (Game.object c < length objs)%nat) (Game.rayCandidates objs hits).
Proof.
  induction hits as [|[objIndex d] rest IH]; simpl; [constructor|].
  destruct (objs !! objIndex) eqn:Hk; [|exact IH].
  constructor; [|exact IH]. simpl. eapply lookup_lt_Some, Hk.
Qed.

Lemma nearCandidates_valid handPos objs : forall (k n : nat) acc,
  (k + length objs <= n)%nat ->
  Forall (fun c => (Game.object c < n)%nat) acc ->
  Forall (fun c => (Game.object c < n)%nat) (Game.nearCandidates handPos k objs acc).
Proof.
  induction objs as [|obj rest IH]; intros k n acc Hk Hacc; simpl; [exact Hacc|].
  simpl in Hk. apply IH; [lia|].
  destruct (negb _); [|exact Hacc].
  destruct (Rlt_dec _ _); [|exact Hacc].
  destruct (existsb _ _); [exact Hacc|].
  apply Forall_app. split; [exact Hacc|]. repeat constructor. simpl. lia.
Qed.

Lemma sortCandidates_Forall (P : Game.Candidate -> Prop) cs :
  Forall P cs -> Forall P (Game.sortCandidates cs).
Proof.
  assert (Hins : forall c l, P c -> Forall P l -> Forall P (Game.insertCandidate c l)).
  { intros c l Hc. induction 1 as [|d l Hd Hl IH]; simpl; [repeat constructor; auto|].
    destruct (Rle_dec _ _); repeat constructor; auto. }
  induction 1; simpl; auto.
Qed.

(** A grab picks an object of the game and empties the history. *)
Lemma startGrab_held f g k :
  Game.heldObject (Game.startGrab f g) = Some k ->
  (k < length (Game.physicsObjects g))%nat.
Proof.
  unfold Game.startGrab.
  pose proof (sortCandidates_Forall _ _
                (nearCandidates_valid (Game.handIndicatorPosition g)
                   (Game.physicsObjects g) 0 (length (Game.physicsObjects g))
                   _ (le_n _) (rayCandidates_valid (Game.physicsObjects g)
                                 (Game.intersects f)))) as Hvalid.
  destruct (Game.sortCandidates _) as [|c rest]; simpl; [discriminate|].
  intros [= <-]. inversion Hvalid; assumption.
Qed.

Lemma startGrab_history f g : Game.handPositionHistory (Game.startGrab f g) = [].
Proof. unfold Game.startGrab. destruct (Game.sortCandidates _); reflexivity. Qed.

Lemma collide_frame H g :
  Game.heldObject (fst (Game.collide H g)) = Game.heldObject g
  /\ Game.handPositionHistory (fst (Game.collide H g)) = Game.handPositionHistory g
  /\ Game.handIndicatorPosition (fst (Game.collide H g)) = Game.handIndicatorPosition g.
Proof.
  unfold Game.collide. destruct (fold_left _ _ _) as [[objs c] log].
  repeat split.
Qed.

Lemma collidePair_length H held st ij :
  length (fst (fst (Game.collidePair H held st ij))) = length (fst (fst st)).
Proof.
  destruct st as [[objs c] log], ij as [i j].
  pose proof (collidePair_cases H held objs c log i j) as Hcases.
  destruct (Game.collidePair _ _ _ _) as [[objs' c'] log']. simpl.
  destruct Hcases as [[-> _]|(a & b & a' & b' & now & _ & _ & _ & _ & _ & _ & _ & -> & _)];
    [reflexivity|].
  rewrite !length_insert. reflexivity.
Qed.

Lemma update_length H f g :
  length (Game.physicsObjects (fst (Game.update H f g)))
  = length (Game.physicsObjects g).
Proof.
  unfold Game.update. rewrite collide_collideUpTo.
  rewrite (Forall2_length _ _ _ (beforeCollide_evolves H f g)).
  unfold collideUpTo.
  apply (fold_left_invariant _
           (fun st => length (fst (fst st)) = _) (fun _ => True)).
  - intros st ij _ Hst. rewrite collidePair_length. exact Hst.
  - apply Forall_true. auto.
  - reflexivity.
Qed.

(** What a frame leaves in [heldObject] and in the history is decided
    before the objects are stepped. *)
Lemma update_interaction H f g :
  let g3 := Game.interact H f (Game.highlight f (Game.trackHand f g)) in
  Game.heldObject (fst (Game.update H f g)) = Game.heldObject g3
  /\ Game.handPositionHistory (fst (Game.update H f g))
     = Game.handPositionHistory g3.
Proof.
  intros g3. unfold Game.update. fold g3.
  destruct (collide_frame H (Game.stepObjects f g3)) as (-> & -> & _).
  split; reflexivity.
Qed.

Lemma pushHistory_last history p : last (Game.pushHistory history p) = Some p.
Proof.
  unfold Game.pushHistory. destruct (_ <? _)%nat eqn:Hlong.
  - apply Nat.ltb_lt in Hlong. rewrite length_app in Hlong. simpl in Hlong.
    destruct history as [|q history]; simpl in *; [unfold Game.THROW_HISTORY_LENGTH in Hlong; lia|].
    apply last_snoc.
  - apply last_snoc.
Qed.

(** While an object is held, a frame that sees the hand stores its position,
    however near it is to the position stored last. *)
Lemma holding_history H f g k p :
  Game.heldObject g = Some k ->
  Game.hand f = Some p -> Game.isGrabbing f = true ->
  let g3 := Game.interact H f (Game.highlight f (Game.trackHand f g)) in
  Game.heldObject g3 = Some k
  /\ Game.handPositionHistory g3 = Game.pushHistory (Game.handPositionHistory g) p.
Proof.
  intros Hheld Hhand Hgrab.
  destruct g as [objs held pos visible history lastGrab c]. simpl in Hheld.
  subst held. unfold Game.trackHand. rewrite Hhand.
  unfold Game.highlight. rewrite Hhand. simpl.
  unfold Game.interact. rewrite Hgrab. simpl.
  unfold Game.keepHolding. simpl. rewrite pushHistory_last, distanceTo_self.
  destruct (Rgt_dec 0 0.01); [lra|]. simpl. split; reflexivity.
Qed.

Lemma constructor_above (p : Vector3.t) :
  PhysicsObject.GROUND_Y + PhysicsObject.BALL_RADIUS <= Vector3.y p ->
  PhysicsObject.constructor p
  = PhysicsObject.mk p Vector3.zero 0 1 Vector3.zero Vector3.zero false
      PhysicsObject.BALL_RADIUS 1 0.
Proof.
  intros Hy. unfold PhysicsObject.constructor.
  destruct (Rlt_dec _ _); [lra|reflexivity].
Qed.

(** A pinch at the centre of the only object grabs it. *)
Lemma grab_single H f p c :
  Game.hand f = Some p -> Game.isGrabbing f = true -> Game.intersects f = [] ->
  PhysicsObject.GROUND_Y + PhysicsObject.BALL_RADIUS <= Vector3.y p ->
  Game.heldObject (fst (Game.update H f (Game.create [p] c))) = Some 0%nat
  /\ Game.handPositionHistory (fst (Game.update H f (Game.create [p] c))) = [].
Proof.
  intros Hhand Hgrab Hrays Hy.
  destruct (update_interaction H f (Game.create [p] c)) as [-> ->].
  unfold Game.create. simpl. rewrite (constructor_above p Hy).
  unfold Game.trackHand. rewrite Hhand.
  unfold Game.highlight. rewrite Hhand, Hrays. simpl.
  unfold Game.interact. rewrite Hgrab. simpl.
  split; [|apply startGrab_history].
  unfold Game.startGrab. rewrite Hrays. simpl.
  rewrite distanceTo_self.
  destruct (Rlt_dec 0 (Game.GRAB_THRESHOLD * 1.5)); simpl;
    rewrite ?distanceTo_self;
    (destruct (Rlt_dec 0 Game.GRAB_THRESHOLD) as [|Hfar];
     [reflexivity|unfold Game.GRAB_THRESHOLD in Hfar; lra]).
Qed.

(** The history of scenario 2: two samples, half a unit apart in depth. *)
Lemma scenario2_throw (cameraDirection : Vector3.t) :
  Game.throwOf [Vector3.mk 0 0 0; Vector3.mk 0 0 0.5] 0.016 cameraDirection
  = (Vector3.normalize (Vector3.mk 0 0.2 1.25), 22.5).
Proof.
  rewrite (throwOf_significant _ _ _ (Vector3.mk 0 0 0) (Vector3.mk 0 0 0.5));
    try reflexivity; try (simpl; lia).
  - f_equal.
    + f_equal. unfold amplified. simpl. apply vector3_eq; try lra.
      apply Rmax_left. lra.
    + simpl. unfold Game.THROW_FORCE.
      replace (1 / ((1 + 1) * 0.016) * 5) with 156.25 by lra.
      rewrite Rmax_right by lra. rewrite Rmin_left by lra. lra.
  - unfold Vector3.length, Vector3.lengthSq. simpl.
    rewrite (sqrt_of_square 0.5) by lra. lra.
Qed.

Lemma run_nil_fst H g : fst (Game.run H [] g) = g.
Proof. reflexivity. Qed.

Lemma run_cons_fst H f fs g :
  fst (Game.run H (f :: fs) g) = fst (Game.run H fs (fst (Game.update H f g))).
Proof.
  simpl. destruct (Game.update H f g) as [g1 log]. simpl.
  destruct (Game.run H fs g1) as [g2 log']. reflexivity.
Qed.

(** A throw with fewer than two samples in the history. *)
Lemma throwHeld_short H f k g o :
  Game.physicsObjects g !! k = Some o ->
  (length (Game.handPositionHistory g) < 2)%nat ->
  Game.heldObject (Game.throwHeld H f k g) = None
  /\ exists o', Game.physicsObjects (Game.throwHeld H f k g) !! k = Some o'
       /\ PhysicsObject.isHeld o' = false
       /\ PhysicsObject.velocity o'
          = Vector3.multiplyScalar (Vector3.normalize (Vector3.mk 0 0.3 (-1)))
              Game.THROW_FORCE.
Proof.
  intros Hk Hshort. unfold Game.throwHeld.
  rewrite throwOf_short by assumption.
  rewrite list_lookup_alter_eq, Hk. simpl.
  split; [reflexivity|]. eexists. split.
  - apply list_lookup_insert_eq. rewrite length_alter. eapply lookup_lt_Some, Hk.
  - simpl. rewrite normalize_idempotent. split; reflexivity.
Qed.

(** Two more frames of a pinch with the hand at rest at [p], after a grab
    that left the history empty. *)
Lemma resting_hand H f p g1 :
  Game.hand f = Some p -> Game.isGrabbing f = true ->
  Game.heldObject g1 = Some 0%nat -> Game.handPositionHistory g1 = [] ->
  Game.handPositionHistory (fst (Game.update H f g1)) = [p]
  /\ Game.handPositionHistory (fst (Game.update H f (fst (Game.update H f g1))))
     = [p; p].
Proof.
  intros Hhand Hgrab Hheld1 Hhist1.
  destruct (update_interaction H f g1) as [Hheld2 Hhist2].
  destruct (holding_history H f g1 0%nat p Hheld1 Hhand Hgrab) as [Hh2 Hp2].
  rewrite Hh2 in Hheld2. rewrite Hp2, Hhist1 in Hhist2.
  destruct (update_interaction H f (fst (Game.update H f g1))) as [_ Hhist3].
  destruct (holding_history H f _ 0%nat p Hheld2 Hhand Hgrab) as [_ Hp3].
  rewrite Hp3, Hhist2 in Hhist3.
  split; assumption.
Qed.

(** C1, as stated, fails: the force of scenario 2 is not the hand speed
    [0.5 / (2 * 0.016)], nor 15.6. *)
Lemma C1_counterexample :
  let throwForce :=
    snd (Game.throwOf [Vector3.mk 0 0 0; Vector3.mk 0 0 0.5] 0.016
           (Vector3.mk 0 0 (-1))) in
  throwForce <> 0.5 / (2 * 0.016) /\ throwForce <> 15.6.
Proof. rewrite scenario2_throw. simpl. split; lra. Qed.

(** C1 (amended): for the history [(0,0,0), (0,0,0.5)] and [dt = 0.016] the
    throw vector is [(0, 0, 0.5)] of length [0.5 > 0.05]; the direction is
    the vector with depth and horizontal components times 2.5 and the
    vertical component raised to 0.2, normalised; the force is five times a
    speed term, clamped into [[10.5, 22.5]], which here gives the upper
    bound 22.5. *)
Theorem C1_throw_scenario (cameraDirection : Vector3.t) :
  let startPos := Vector3.mk 0 0 0 in
  let endPos := Vector3.mk 0 0 0.5 in
  let throwVector := Vector3.subVectors endPos startPos in
  throwVector = Vector3.mk 0 0 0.5
  /\ Vector3.length throwVector = 0.5
  /\ Vector3.length throwVector > 0.05
  /\ Game.throwOf [startPos; endPos] 0.016 cameraDirection
     = (Vector3.normalize (Vector3.mk (0 * 2.5) (Rmax 0.2 0) (0.5 * 2.5)),
        Game.THROW_FORCE * 1.5)
  /\ Game.THROW_FORCE * 0.7 = 10.5 /\ Game.THROW_FORCE * 1.5 = 22.5.
Proof.
  intros startPos endPos throwVector.
  assert (Hvec : throwVector = Vector3.mk 0 0 0.5).
  { unfold throwVector, Vector3.subVectors. simpl. apply vector3_eq; lra. }
  assert (Hlen : Vector3.length throwVector = 0.5).
  { rewrite Hvec. unfold Vector3.length, Vector3.lengthSq. simpl.
    apply sqrt_of_square; lra. }
  split; [exact Hvec|]. split; [exact Hlen|]. split; [lra|].
  split; [|unfold Game.THROW_FORCE; split; lra].
  unfold startPos, endPos. rewrite scenario2_throw. f_equal.
  - f_equal. apply vector3_eq; try lra. rewrite Rmax_left; lra.
  - unfold Game.THROW_FORCE. lra.
Qed.

(** C6: a grab followed at once, in the next frame, by a release: the
    history then holds fewer than two samples, and the released object gets
    the velocity [normalize (0, 0.3, -1) * 15]. *)
Theorem C6_grab_then_release (H : Host.t) (f1 f2 : Game.Frame) (g : Game.t)
    (k : nat) :
  Game.heldObject g = None ->
  Game.isGrabbing f1 = true ->
  Game.heldObject (fst (Game.update H f1 g)) = Some k ->
  Game.isGrabbing f2 = false ->
  let g1 := Game.trackHand f2 (fst (Game.update H f1 g)) in
  let g2 := Game.interact H f2 (Game.highlight f2 g1) in
  (length (Game.handPositionHistory g1) < 2)%nat
  /\ Game.heldObject g2 = None
  /\ exists o, Game.physicsObjects g2 !! k = Some o
       /\ PhysicsObject.isHeld o = false
       /\ PhysicsObject.velocity o
          = Vector3.multiplyScalar (Vector3.normalize (Vector3.mk 0 0.3 (-1))) 15.
Proof.
  intros Hfree Hgrab Hheld Hrelease g1 g2.
  pose proof (update_length H f1 g) as Hlen.
  destruct (update_interaction H f1 g) as [Hh Hhist].
  rewrite Hheld in Hh. symmetry in Hh.
  unfold Game.interact in Hh, Hhist. rewrite Hgrab in Hh, Hhist.
  destruct (highlight_frame f1 (Game.trackHand f1 g)) as (Hh0 & _).
  destruct (trackHand_frame f1 g) as (_ & Hh1 & _).
  rewrite Hh0, Hh1, Hfree in Hh, Hhist.
  rewrite startGrab_history in Hhist.
  apply startGrab_held in Hh.
  rewrite <- (Forall2_length _ _ _ (highlight_evolves f1 (Game.trackHand f1 g))) in Hh.
  destruct (trackHand_frame f1 g) as (Hobjs & _). rewrite Hobjs, <- Hlen in Hh.
  apply lookup_lt_is_Some_2 in Hh as [o1 Ho1].
  destruct (Game.update H f1 g) as [[objs held pos visible history lastGrab c] log].
  simpl in Hheld, Hhist, Ho1. subst held history.
  assert (Hshort : (length (Game.handPositionHistory g1) < 2)%nat).
  { unfold g1, Game.trackHand. simpl. destruct (Game.hand f2); simpl; lia. }
  split; [exact Hshort|].
  assert (Hg2 : g2 = Game.throwHeld H f2 k g1).
  { unfold g2, g1, Game.trackHand, Game.highlight, Game.interact. simpl.
    rewrite Hrelease. destruct (Game.hand f2); reflexivity. }
  rewrite Hg2. apply (throwHeld_short H f2 k g1 o1); [|exact Hshort].
  unfold g1, Game.trackHand. simpl. destruct (Game.hand f2); exact Ho1.
Qed.

Lemma C6_witness :
  let H := Host.mk (fun _ => 0.5) (fun _ => 0) in
  let p := Vector3.mk 0 1 0 in
  let g := Game.create [p] (Host.mkCalls 0 0) in
  let f1 := Game.mkFrame 0.016 (Some p) true [] (Vector3.mk 0 0 (-1)) in
  let f2 := Game.mkFrame 0.016 (Some p) false [] (Vector3.mk 0 0 (-1)) in
  let g2 :=
    Game.interact H f2
      (Game.highlight f2 (Game.trackHand f2 (fst (Game.update H f1 g)))) in
  Game.heldObject g = None
  /\ Game.heldObject (fst (Game.update H f1 g)) = Some 0%nat
  /\ Game.heldObject g2 = None.
Proof.
  intros H p g f1 f2 g2.
  assert (Hy : PhysicsObject.GROUND_Y + PhysicsObject.BALL_RADIUS <= Vector3.y p).
  { unfold PhysicsObject.GROUND_Y, PhysicsObject.BALL_RADIUS. simpl. lra. }
  pose proof (grab_single H f1 p (Host.mkCalls 0 0) eq_refl eq_refl eq_refl Hy)
    as [Hheld _].
  split; [reflexivity|]. split; [exact Hheld|].
  destruct (C6_grab_then_release H f1 f2 g 0%nat eq_refl eq_refl Hheld eq_refl)
    as (_ & Hnone & _).
  exact Hnone.
Defined.

(** C8: the hand of the player rests at [p] for three frames of a pinch on
    the object at [p].  The first frame grabs the object and empties the
    history; the second and the third each store [p], although the third
    finds [p] already stored last, at distance 0. *)
Theorem C8_history_grows_while_hand_rests :
  let H := Host.mk (fun _ => 0.5) (fun _ => 0) in
  let p := Vector3.mk 0 1 0 in
  let f := Game.mkFrame 0.016 (Some p) true [] (Vector3.mk 0 0 (-1)) in
  let g := Game.create [p] (Host.mkCalls 0 0) in
  Game.heldObject (fst (Game.run H [f] g)) = Some 0%nat
  /\ Game.handPositionHistory (fst (Game.run H [f] g)) = []
  /\ Game.handPositionHistory (fst (Game.run H [f; f] g)) = [p]
  /\ Game.handPositionHistory (fst (Game.run H [f; f; f] g)) = [p; p]
  /\ ~ Vector3.distanceTo p p > 0.01.
Proof.
  intros H p f g.
  assert (Hy : PhysicsObject.GROUND_Y + PhysicsObject.BALL_RADIUS <= Vector3.y p).
  { unfold PhysicsObject.GROUND_Y, PhysicsObject.BALL_RADIUS. simpl. lra. }
  destruct (grab_single H f p (Host.mkCalls 0 0) eq_refl eq_refl eq_refl Hy)
    as [Hheld1 Hhist1].
  destruct (resting_hand H f p _ eq_refl eq_refl Hheld1 Hhist1) as [Hhist2 Hhist3].
  rewrite !run_cons_fst, !run_nil_fst.
  split; [exact Hheld1|]. split; [exact Hhist1|].
  split; [exact Hhist2|]. split; [exact Hhist3|].
  rewrite distanceTo_self. lra.
Qed.

(** ** Two objects at one place *)

Lemma sameMotion_groundBounce a b :
  sameMotion a b ->
  sameMotion (PhysicsObject.groundBounce a) (PhysicsObject.groundBounce b).
Proof.
  intros (Hp & Hv & Hr). unfold PhysicsObject.groundBounce.
  rewrite Hp, Hr. destruct (Rlt_dec _ _); [|repeat split; assumption].
  cbn [PhysicsObject.velocity PhysicsObject.set_velocity PhysicsObject.set_position
       PhysicsObject.radius].
  rewrite Hv, Hr. destruct (Rgt_dec _ _);
    (split; [|split]; cbn; rewrite ?Hp, ?Hv, ?Hr; reflexivity).
Qed.

Lemma sameMotion_bounceX bound a b :
  sameMotion a b ->
  sameMotion (PhysicsObject.bounceX bound a) (PhysicsObject.bounceX bound b).
Proof.
  intros (Hp & Hv & Hr). unfold PhysicsObject.bounceX.
  rewrite Hp, Hr. destruct (Rgt_dec _ _); [|repeat split; assumption].
  split; [|split]; cbn; rewrite ?Hp, ?Hv, ?Hr; reflexivity.
Qed.

Lemma sameMotion_bounceZ bound a b :
  sameMotion a b ->
  sameMotion (PhysicsObject.bounceZ bound a) (PhysicsObject.bounceZ bound b).
Proof.
  intros (Hp & Hv & Hr). unfold PhysicsObject.bounceZ.
  rewrite Hp, Hr. destruct (Rgt_dec _ _); [|repeat split; assumption].
  split; [|split]; cbn; rewrite ?Hp, ?Hv, ?Hr; reflexivity.
Qed.

Lemma sameMotion_boundaryBounce a b :
  sameMotion a b ->
  sameMotion (PhysicsObject.boundaryBounce a) (PhysicsObject.boundaryBounce b).
Proof.
  intros Hsame. unfold PhysicsObject.boundaryBounce.
  apply sameMotion_bounceZ, sameMotion_bounceX, Hsame.
Qed.

(** The motion of a free object does not depend on its spin. *)
Lemma update_same_motion dt a b :
  PhysicsObject.isHeld a = false -> PhysicsObject.isHeld b = false ->
  sameMotion a b ->
  sameMotion (PhysicsObject.update dt None a) (PhysicsObject.update dt None b).
Proof.
  intros Ha Hb (Hp & Hv & Hr). unfold PhysicsObject.update. rewrite Ha, Hb.
  cbv zeta. apply sameMotion_boundaryBounce, sameMotion_groundBounce.
  split; [|split]; cbn; rewrite ?Hp, ?Hv, ?Hr; reflexivity.
Qed.

Lemma radius_update dt hand o :
  PhysicsObject.radius (PhysicsObject.update dt hand o) = PhysicsObject.radius o.
Proof.
  unfold PhysicsObject.update.
  destruct (PhysicsObject.isHeld o), hand; try reflexivity; cbv zeta;
    rewrite (proj1 (boundaryBounce_vertical _)), radius_groundBounce; reflexivity.
Qed.

Lemma run_two_log H f1 f2 g :
  snd (Game.run H [f1; f2] g)
  = snd (Game.update H f1 g) ++ snd (Game.update H f2 (fst (Game.update H f1 g))).
Proof.
  simpl. destruct (Game.update H f1 g) as [g1 log1]. simpl.
  destruct (Game.update H f2 g1) as [g2 log2]. simpl.
  rewrite app_nil_r. reflexivity.
Qed.

(** A frame without a hand on two free objects of the same place, velocity
    and radius, the first one not having collided for 100 ms: the pair
    collides, and the two are again at the same place. *)
Lemma idle_pair_collides H f a b pos visible history lastGrab c :
  Game.hand f = None -> Game.isGrabbing f = false ->
  PhysicsObject.isHeld a = false -> PhysicsObject.isHeld b = false ->
  PhysicsObject.position a = PhysicsObject.position b ->
  PhysicsObject.velocity a = PhysicsObject.velocity b ->
  PhysicsObject.radius a = PhysicsObject.BALL_RADIUS ->
  PhysicsObject.radius b = PhysicsObject.BALL_RADIUS ->
  100 <= Host.performance_now H (Host.nowCalls c) - PhysicsObject.lastCollisionTime a ->
  exists a' b' c',
    Game.update H f (Game.mk [a; b] None pos visible history lastGrab c)
    = (Game.mk [a'; b'] None pos false history lastGrab c',
       [Game.mkCollision 0 1 (Host.performance_now H (Host.nowCalls c))])
    /\ PhysicsObject.isHeld a' = false /\ PhysicsObject.isHeld b' = false
    /\ PhysicsObject.position a' = PhysicsObject.position b'
    /\ PhysicsObject.velocity a' = PhysicsObject.velocity b'
    /\ PhysicsObject.radius a' = PhysicsObject.BALL_RADIUS
    /\ PhysicsObject.radius b' = PhysicsObject.BALL_RADIUS
    /\ PhysicsObject.lastCollisionTime a' = Host.performance_now H (Host.nowCalls c)
    /\ Host.nowCalls c' = S (Host.nowCalls c).
Proof.
  intros Hhand Hgrab Ha Hb Hpos Hvel Hra Hrb Hlate.
  destruct (update_same_motion (Game.deltaTime f) a b Ha Hb
              ltac:(repeat split; congruence)) as (Hpos' & Hvel' & _).
  pose proof (radius_update (Game.deltaTime f) None a) as Hra'.
  pose proof (radius_update (Game.deltaTime f) None b) as Hrb'.
  unfold Game.update, Game.trackHand. rewrite Hhand.
  unfold Game.highlight. rewrite Hhand. simpl.
  unfold Game.interact. rewrite Hgrab. simpl.
  unfold Game.stepObjects, Game.collide. simpl.
  set (a1 := PhysicsObject.update (Game.deltaTime f) None a) in *.
  set (b1 := PhysicsObject.update (Game.deltaTime f) None b) in *.
  assert (Ha1 : PhysicsObject.isHeld a1 = false)
    by (unfold a1; rewrite isHeld_update; exact Ha).
  assert (Hb1 : PhysicsObject.isHeld b1 = false)
    by (unfold b1; rewrite isHeld_update; exact Hb).
  assert (Hs1 : PhysicsObject.lastCollisionTime a1 = PhysicsObject.lastCollisionTime a)
    by apply evolves_update.
  unfold PhysicsObject.checkCollision. rewrite Ha1, Hb1. simpl.
  rewrite Hs1, Hpos', distanceTo_self.
  destruct (Rlt_dec _ 100) as [Hearly|_]; [lra|].
  destruct (Rlt_dec 0 _) as [_|Hfar];
    [|exfalso; apply Hfar; rewrite Hra', Hrb', Hra, Hrb;
      unfold PhysicsObject.BALL_RADIUS; lra].
  rewrite resolveCollision_coincident by (simpl; exact Hpos').
  simpl. eexists _, _, _. split; [reflexivity|]. simpl.
  repeat split; try assumption; congruence.
Qed.

(** The twins collide in the first frame, at time 100, and again in the
    second, at time 250. *)
Lemma twins_collide_twice :
  snd (Game.run twinsHost [idleFrame; idleFrame] twins)
  = [Game.mkCollision 0 1 100; Game.mkCollision 0 1 250].
Proof.
  rewrite run_two_log. unfold twins, Game.create.
  change (PhysicsObject.constructor <$> [Vector3.mk 0 1 0; Vector3.mk 0 1 0])
    with [PhysicsObject.constructor (Vector3.mk 0 1 0);
          PhysicsObject.constructor (Vector3.mk 0 1 0)].
  assert (Hlate : 100 <= Host.performance_now twinsHost (Host.nowCalls (Host.mkCalls 0 0))
                         - PhysicsObject.lastCollisionTime
                             (PhysicsObject.constructor (Vector3.mk 0 1 0))).
  { simpl. lra. }
  destruct (idle_pair_collides twinsHost idleFrame
              (PhysicsObject.constructor (Vector3.mk 0 1 0))
              (PhysicsObject.constructor (Vector3.mk 0 1 0))
              Vector3.zero false [] None (Host.mkCalls 0 0)
              eq_refl eq_refl eq_refl eq_refl eq_refl eq_refl eq_refl eq_refl Hlate)
    as (a1 & b1 & c1 & -> & Ha1 & Hb1 & Hpos1 & Hvel1 & Hra1 & Hrb1 & Hs1 & Hc1).
  cbn [fst snd].
  assert (Hlate' : 100 <= Host.performance_now twinsHost (Host.nowCalls c1)
                          - PhysicsObject.lastCollisionTime a1).
  { rewrite Hs1, Hc1. simpl. lra. }
  destruct (idle_pair_collides twinsHost idleFrame a1 b1 Vector3.zero false [] None c1
              eq_refl eq_refl Ha1 Hb1 Hpos1 Hvel1 Hra1 Hrb1 Hlate')
    as (a2 & b2 & c2 & -> & _).
  cbn [fst snd app]. rewrite Hc1.
  f_equal; [|f_equal]; f_equal; simpl; lra.
Qed.

Lemma C4_witness :
  let log := snd (Game.run twinsHost [idleFrame; idleFrame] twins) in
  (0 < 1)%nat
  /\ log !! 0%nat = Some (Game.mkCollision 0 1 100)
  /\ log !! 1%nat = Some (Game.mkCollision 0 1 250)
  /\ 100 <= 250 - 100.
Proof.
  intros log.
  assert (H0 : log !! 0%nat = Some (Game.mkCollision 0 1 100))
    by (unfold log; rewrite twins_collide_twice; reflexivity).
  assert (H1 : log !! 1%nat = Some (Game.mkCollision 0 1 250))
    by (unfold log; rewrite twins_collide_twice; reflexivity).
  split; [lia|]. split; [exact H0|]. split; [exact H1|].
  exact (proj1 (C4_collision_debounce twinsHost)
           [idleFrame; idleFrame] twins 0%nat 1%nat _ _
           (Nat.lt_0_succ 0) H0 H1 eq_refl eq_refl).
Defined.

(** * Further properties of the code *)

(** ** PhysicsObject *)

(** A new object is free and at rest, keeps the horizontal place it was
    given and starts at or above the resting height [GROUND_Y + radius]; a
    start position at or above that height is kept as it is. *)
Lemma constructor_at_rest_above_ground (initialPosition : Vector3.t) :
  let o := PhysicsObject.constructor initialPosition in
  PhysicsObject.isHeld o = false
  /\ PhysicsObject.velocity o = Vector3.mk 0 0 0
  /\ PhysicsObject.angularVelocity o = Vector3.mk 0 0 0
  /\ Vector3.x (PhysicsObject.position o) = Vector3.x initialPosition
  /\ Vector3.z (PhysicsObject.position o) = Vector3.z initialPosition
  /\ PhysicsObject.GROUND_Y + PhysicsObject.radius o
     <= Vector3.y (PhysicsObject.position o)
  /\ (PhysicsObject.GROUND_Y + PhysicsObject.BALL_RADIUS <= Vector3.y initialPosition ->
      PhysicsObject.position o = initialPosition).
Proof.
  unfold PhysicsObject.constructor. cbv zeta.
  destruct (Rlt_dec _ _) as [Hlow|Hhigh]; simpl;
    repeat split; try reflexivity; try lra.
Qed.

Lemma normal_is_unit (v : Vector3.t) :
  Vector3.length v <> 0 ->
  Vector3.dot (Vector3.normalize v) (Vector3.normalize v) = 1.
Proof.
  intros Hne. pose proof (length_normalize v Hne) as Hlen.
  unfold Vector3.length in Hlen.
  change (Vector3.dot (Vector3.normalize v) (Vector3.normalize v))
    with (Vector3.lengthSq (Vector3.normalize v)).
  rewrite <- (sqrt_sqrt _ (lengthSq_nonneg (Vector3.normalize v))).
  rewrite Hlen. ring.
Qed.

Lemma distinct_centres (p q : Vector3.t) :
  p <> q -> Vector3.length (Vector3.subVectors p q) <> 0.
Proof.
  intros Hpq Hz. apply length_zero_inv in Hz. apply Hpq.
  destruct p as [a b c], q as [a' b' c']. unfold Vector3.subVectors in Hz.
  simpl in Hz. injection Hz as Ha Hb Hc. apply vector3_eq; lra.
Qed.

Lemma resolveCollision_sums (H : Host.t) (c : Host.calls)
    (this other : PhysicsObject.t) :
  let '(this', other', _) := PhysicsObject.resolveCollision H c this other in
  Vector3.add (PhysicsObject.velocity this') (PhysicsObject.velocity other')
  = Vector3.add (PhysicsObject.velocity this) (PhysicsObject.velocity other)
  /\ Vector3.add (PhysicsObject.position this') (PhysicsObject.position other')
     = Vector3.add (PhysicsObject.position this) (PhysicsObject.position other).
Proof.
  unfold PhysicsObject.resolveCollision.
  destruct (Rgt_dec _ 0); [split; reflexivity|].
  destruct (Rgt_dec _ 0); cbn;
    (split; unfold Vector3.add; apply vector3_eq; cbn; ring).
Qed.

(** [resolveCollision] conserves the momentum of the pair (the masses are
    equal) and the midpoint of the two centres, whatever it does. *)
Theorem resolveCollision_conserves (H : Host.t) (c : Host.calls)
    (this other : PhysicsObject.t) :
  let '(this', other', _) := PhysicsObject.resolveCollision H c this other in
  Vector3.add (PhysicsObject.velocity this') (PhysicsObject.velocity other')
  = Vector3.add (PhysicsObject.velocity this) (PhysicsObject.velocity other)
  /\ Vector3.add (PhysicsObject.position this') (PhysicsObject.position other')
     = Vector3.add (PhysicsObject.position this) (PhysicsObject.position other).
Proof. exact (resolveCollision_sums H c this other). Qed.

(** Objects that move apart along the line of their centres are left alone:
    nothing changes and no random number is drawn. *)
Lemma resolveCollision_separating (H : Host.t) (c : Host.calls)
    (this other : PhysicsObject.t) :
  Vector3.dot
    (Vector3.subVectors (PhysicsObject.velocity this) (PhysicsObject.velocity other))
    (Vector3.normalize
       (Vector3.subVectors (PhysicsObject.position this)
          (PhysicsObject.position other))) > 0 ->
  PhysicsObject.resolveCollision H c this other = (this, other, c).
Proof.
  intros Hapart. unfold PhysicsObject.resolveCollision.
  destruct (Rgt_dec _ 0); [reflexivity|contradiction].
Qed.

(** What [resolveCollision] does to two approaching objects with distinct
    centres, [n] being the unit normal from [other] to [this]. *)
Lemma resolveCollision_approaching H c this other :
  PhysicsObject.position this <> PhysicsObject.position other ->
  let n :=
    Vector3.normalize
      (Vector3.subVectors (PhysicsObject.position this)
         (PhysicsObject.position other)) in
  let velAlongNormal :=
    Vector3.dot
      (Vector3.subVectors (PhysicsObject.velocity this)
         (PhysicsObject.velocity other)) n in
  velAlongNormal <= 0 ->
  let impulse :=
    Vector3.multiplyScalar n
      (- (1 + PhysicsObject.COLLISION_ELASTICITY) * velAlongNormal / 2) in
  let depth :=
    PhysicsObject.radius this + PhysicsObject.radius other
    - Vector3.distanceTo (PhysicsObject.position this)
        (PhysicsObject.position other) in
  let correction :=
    if Rgt_dec depth 0 then Vector3.multiplyScalar n (depth * 0.6)
    else Vector3.mk 0 0 0 in
  let '(this', other', _) := PhysicsObject.resolveCollision H c this other in
  PhysicsObject.velocity this' = Vector3.add (PhysicsObject.velocity this) impulse
  /\ PhysicsObject.velocity other' = Vector3.sub (PhysicsObject.velocity other) impulse
  /\ PhysicsObject.position this'
     = Vector3.add (PhysicsObject.position this) correction
  /\ PhysicsObject.position other'
     = Vector3.sub (PhysicsObject.position other) correction.
Proof.
  intros Hdistinct n velAlongNormal Hnear impulse depth correction.
  unfold PhysicsObject.resolveCollision. fold n. fold velAlongNormal.
  destruct (Rgt_dec velAlongNormal 0) as [Hgt|_]; [lra|].
  cbn [PhysicsObject.radius PhysicsObject.set_velocity PhysicsObject.position].
  fold depth. unfold correction.
  destruct (Rgt_dec depth 0); cbn; repeat split; try reflexivity.
  - destruct (PhysicsObject.position this) as [a b d].
    unfold Vector3.add. apply vector3_eq; cbn; ring.
  - destruct (PhysicsObject.position other) as [a b d].
    unfold Vector3.sub. apply vector3_eq; cbn; ring.
Qed.

(** Restitution: two approaching objects with distinct centres leave the
    collision with their relative velocity along the normal reversed and
    scaled by [COLLISION_ELASTICITY] = 0.7. *)
Theorem resolveCollision_restitution (H : Host.t) (c : Host.calls)
    (this other : PhysicsObject.t) :
  PhysicsObject.position this <> PhysicsObject.position other ->
  let n :=
    Vector3.normalize
      (Vector3.subVectors (PhysicsObject.position this)
         (PhysicsObject.position other)) in
  let along (a b : PhysicsObject.t) :=
    Vector3.dot
      (Vector3.subVectors (PhysicsObject.velocity a) (PhysicsObject.velocity b)) n in
  along this other <= 0 ->
  let '(this', other', _) := PhysicsObject.resolveCollision H c this other in
  along this' other' = - 0.7 * along this other.
Proof.
  intros Hdistinct n along Hnear.
  pose proof (resolveCollision_approaching H c this other Hdistinct Hnear) as Hres.
  cbv zeta in Hres. fold n in Hres.
  destruct (PhysicsObject.resolveCollision H c this other) as [[this' other'] c'].
  destruct Hres as (Hv & Hv' & _). unfold along at 1. rewrite Hv, Hv'.
  pose proof (normal_is_unit _ (distinct_centres _ _ Hdistinct)) as Hunit.
  fold n in Hunit. unfold along.
  set (rel := Vector3.subVectors (PhysicsObject.velocity this)
                (PhysicsObject.velocity other)).
  assert (Hrel : forall k,
             Vector3.dot
               (Vector3.subVectors
                  (Vector3.add (PhysicsObject.velocity this)
                     (Vector3.multiplyScalar n k))
                  (Vector3.sub (PhysicsObject.velocity other)
                     (Vector3.multiplyScalar n k))) n
             = Vector3.dot rel n + 2 * k * Vector3.dot n n).
  { intros k. unfold rel, Vector3.dot, Vector3.subVectors, Vector3.add,
      Vector3.sub, Vector3.multiplyScalar. cbn. ring. }
  rewrite Hrel, Hunit. fold rel. unfold PhysicsObject.COLLISION_ELASTICITY. lra.
Qed.

Lemma scaled_difference_length (p q : Vector3.t) (k : R) :
  p <> q -> 0 <= k ->
  let n := Vector3.normalize (Vector3.subVectors p q) in
  Vector3.distanceTo (Vector3.add p (Vector3.multiplyScalar n k))
    (Vector3.sub q (Vector3.multiplyScalar n k))
  = Vector3.distanceTo p q + 2 * k.
Proof.
  intros Hpq Hk n.
  pose proof (distinct_centres p q Hpq) as Hne.
  pose proof (length_nonneg (Vector3.subVectors p q)) as Hpos.
  unfold n. rewrite (normalize_nonzero _ Hne).
  change (Vector3.distanceTo p q) with (Vector3.length (Vector3.subVectors p q)).
  set (d := Vector3.length (Vector3.subVectors p q)) in *.
  assert (Hdd : d * d = Vector3.lengthSq (Vector3.subVectors p q)).
  { unfold d, Vector3.length. apply sqrt_sqrt, lengthSq_nonneg. }
  destruct p as [a b c], q as [a' b' c'].
  unfold Vector3.distanceTo, Vector3.distanceToSquared, Vector3.add, Vector3.sub,
    Vector3.multiplyScalar, Vector3.divideScalar, Vector3.subVectors in *.
  cbn in *. unfold Vector3.lengthSq in Hdd. cbn in Hdd.
  apply sqrt_of_square; [lra|].
  transitivity ((1 + 2 * k / d) * (1 + 2 * k / d) * (d * d)); [field; lra|].
  rewrite Hdd. field. lra.
Qed.

(** Separation: after the collision of two approaching, overlapping objects
    with distinct centres the distance of the centres has grown by 1.2 times
    the penetration depth, so the two no longer overlap. *)
Theorem resolveCollision_separates (H : Host.t) (c : Host.calls)
    (this other : PhysicsObject.t) :
  PhysicsObject.position this <> PhysicsObject.position other ->
  Vector3.dot
    (Vector3.subVectors (PhysicsObject.velocity this) (PhysicsObject.velocity other))
    (Vector3.normalize
       (Vector3.subVectors (PhysicsObject.position this)
          (PhysicsObject.position other))) <= 0 ->
  let distance :=
    Vector3.distanceTo (PhysicsObject.position this) (PhysicsObject.position other) in
  let minDistance := PhysicsObject.radius this + PhysicsObject.radius other in
  distance < minDistance ->
  let '(this', other', _) := PhysicsObject.resolveCollision H c this other in
  Vector3.distanceTo (PhysicsObject.position this') (PhysicsObject.position other')
  = distance + 1.2 * (minDistance - distance)
  /\ minDistance
     < Vector3.distanceTo (PhysicsObject.position this')
         (PhysicsObject.position other').
Proof.
  intros Hdistinct Hnear distance minDistance Hoverlap.
  pose proof (resolveCollision_approaching H c this other Hdistinct Hnear) as Hres.
  cbv zeta in Hres.
  destruct (PhysicsObject.resolveCollision H c this other) as [[this' other'] c'].
  destruct Hres as (_ & _ & Hp & Hp'). fold distance minDistance in Hp, Hp'.
  destruct (Rgt_dec (minDistance - distance) 0) as [_|Hno]; [|lra].
  rewrite Hp, Hp'.
  rewrite (scaled_difference_length _ _ _ Hdistinct) by lra.
  fold distance. split; lra.
Qed.

Lemma resolveCollision_witness_pair :
  let this := ballAt (Vector3.mk 0 1 0) (Vector3.mk 1 0 0) in
  let other := ballAt (Vector3.mk 0.4 1 0) (Vector3.mk 0 0 0) in
  PhysicsObject.position this <> PhysicsObject.position other
  /\ Vector3.dot
       (Vector3.subVectors (PhysicsObject.velocity this)
          (PhysicsObject.velocity other))
       (Vector3.normalize
          (Vector3.subVectors (PhysicsObject.position this)
             (PhysicsObject.position other))) <= 0
  /\ Vector3.distanceTo (PhysicsObject.position this) (PhysicsObject.position other)
     < PhysicsObject.radius this + PhysicsObject.radius other.
Proof.
  intros this other.
  assert (Hlen : Vector3.length
                   (Vector3.subVectors (Vector3.mk 0 1 0) (Vector3.mk 0.4 1 0))
                 = 0.4).
  { unfold Vector3.length, Vector3.lengthSq, Vector3.subVectors. cbn.
    apply sqrt_of_square; lra. }
  split; [|split].
  - cbn. intros Heq. apply (f_equal Vector3.x) in Heq. cbn in Heq. lra.
  - cbn [this other ballAt PhysicsObject.position PhysicsObject.velocity].
    rewrite normalize_nonzero by (rewrite Hlen; lra). rewrite Hlen.
    unfold Vector3.dot, Vector3.subVectors, Vector3.divideScalar. cbn. lra.
  - cbn [this other ballAt PhysicsObject.position PhysicsObject.radius].
    change (Vector3.distanceTo (Vector3.mk 0 1 0) (Vector3.mk 0.4 1 0))
      with (Vector3.length
              (Vector3.subVectors (Vector3.mk 0 1 0) (Vector3.mk 0.4 1 0))).
    rewrite Hlen. unfold PhysicsObject.BALL_RADIUS. lra.
Qed.

Lemma resolveCollision_restitution_witness :
  let H := Host.mk (fun _ => 0.5) (fun _ => 0) in
  let this := ballAt (Vector3.mk 0 1 0) (Vector3.mk 1 0 0) in
  let other := ballAt (Vector3.mk 0.4 1 0) (Vector3.mk 0 0 0) in
  let n :=
    Vector3.normalize
      (Vector3.subVectors (PhysicsObject.position this)
         (PhysicsObject.position other)) in
  let along (a b : PhysicsObject.t) :=
    Vector3.dot
      (Vector3.subVectors (PhysicsObject.velocity a) (PhysicsObject.velocity b)) n in
  PhysicsObject.position this <> PhysicsObject.position other
  /\ along this other <= 0
  /\ let '(this', other', _) :=
       PhysicsObject.resolveCollision H (Host.mkCalls 0 0) this other in
     along this' other' = - 0.7 * along this other.
Proof.
  intros H this other n along.
  destruct resolveCollision_witness_pair as (Hdistinct & Hnear & _).
  split; [exact Hdistinct|]. split; [exact Hnear|].
  exact (resolveCollision_restitution H (Host.mkCalls 0 0) this other
           Hdistinct Hnear).
Defined.

Lemma resolveCollision_separates_witness :
  let H := Host.mk (fun _ => 0.5) (fun _ => 0) in
  let this := ballAt (Vector3.mk 0 1 0) (Vector3.mk 1 0 0) in
  let other := ballAt (Vector3.mk 0.4 1 0) (Vector3.mk 0 0 0) in
  PhysicsObject.position this <> PhysicsObject.position other
  /\ Vector3.distanceTo (PhysicsObject.position this) (PhysicsObject.position other)
     < PhysicsObject.radius this + PhysicsObject.radius other
  /\ let '(this', other', _) :=
       PhysicsObject.resolveCollision H (Host.mkCalls 0 0) this other in
     PhysicsObject.radius this + PhysicsObject.radius other
     < Vector3.distanceTo (PhysicsObject.position this')
         (PhysicsObject.position other').
Proof.
  intros H this other.
  destruct resolveCollision_witness_pair as (Hdistinct & Hnear & Hoverlap).
  split; [exact Hdistinct|]. split; [exact Hoverlap|].
  pose proof (resolveCollision_separates H (Host.mkCalls 0 0) this other
                Hdistinct Hnear Hoverlap) as Hsep.
  destruct (PhysicsObject.resolveCollision H (Host.mkCalls 0 0) this other)
    as [[this' other'] c'].
  exact (proj2 Hsep).
Defined.

Lemma sign_magnitude (a bound : R) :
  0 <= bound -> Rabs a > bound -> Rabs (sign a * bound) = bound.
Proof.
  intros Hb Ha. unfold sign.
  destruct (Rlt_dec 0 a) as [Hpos|Hnpos].
  - rewrite Rmult_1_l. apply Rabs_right. lra.
  - destruct (Rlt_dec a 0) as [Hneg|Hnneg].
    + replace (-1 * bound) with (- bound) by ring.
      rewrite Rabs_Ropp. apply Rabs_right. lra.
    + assert (a = 0) by lra. subst a. rewrite Rabs_R0 in Ha. lra.
Qed.

(** The arena: after its physics step a free object with a radius between
    0 and 10 lies within [10 - radius] of the origin along x and along z. *)
Theorem update_inside_arena (deltaTime : R) (hand : option Vector3.t)
    (o : PhysicsObject.t) :
  PhysicsObject.isHeld o = false ->
  0 <= PhysicsObject.radius o <= 10 ->
  let o' := PhysicsObject.update deltaTime hand o in
  Rabs (Vector3.x (PhysicsObject.position o')) <= 10 - PhysicsObject.radius o'
  /\ Rabs (Vector3.z (PhysicsObject.position o')) <= 10 - PhysicsObject.radius o'.
Proof.
  intros Hfree Hr. unfold PhysicsObject.update. rewrite Hfree. cbv zeta.
  match goal with |- context [PhysicsObject.groundBounce ?b] => set (o1 := b) end.
  assert (Hr1 : PhysicsObject.radius (PhysicsObject.groundBounce o1)
                = PhysicsObject.radius o)
    by (rewrite radius_groundBounce; reflexivity).
  set (o2 := PhysicsObject.groundBounce o1) in *. clearbody o2.
  unfold PhysicsObject.boundaryBounce. cbv zeta.
  assert (Hx : Rabs (Vector3.x (PhysicsObject.position (PhysicsObject.bounceX 10 o2)))
               <= 10 - PhysicsObject.radius o2
               /\ PhysicsObject.radius (PhysicsObject.bounceX 10 o2)
                  = PhysicsObject.radius o2).
  { unfold PhysicsObject.bounceX. destruct (Rgt_dec _ _) as [Hout|Hin]; cbn.
    - split; [|reflexivity]. rewrite sign_magnitude; lra.
    - split; [lra|reflexivity]. }
  destruct Hx as [Hx Hr2]. set (o3 := PhysicsObject.bounceX 10 o2) in *.
  clearbody o3. unfold PhysicsObject.bounceZ.
  destruct (Rgt_dec _ _) as [Hout|Hin]; cbn.
  - rewrite sign_magnitude by lra. lra.
  - lra.
Qed.

Lemma update_inside_arena_witness :
  let o := ballAt (Vector3.mk 9.9 1 0) (Vector3.mk 5 0 0) in
  let o' := PhysicsObject.update 0.016 None o in
  PhysicsObject.isHeld o = false
  /\ 0 <= PhysicsObject.radius o <= 10
  /\ Rabs (Vector3.x (PhysicsObject.position o')) <= 10 - PhysicsObject.radius o'.
Proof.
  intros o o'.
  assert (Hr : 0 <= PhysicsObject.radius o <= 10).
  { cbn. unfold PhysicsObject.BALL_RADIUS. lra. }
  split; [reflexivity|]. split; [exact Hr|].
  exact (proj1 (update_inside_arena 0.016 None o eq_refl Hr)).
Defined.

Lemma lerp_distance (p hand : Vector3.t) :
  Vector3.distanceTo (Vector3.lerp p hand 0.8) hand = 0.2 * Vector3.distanceTo p hand.
Proof.
  unfold Vector3.distanceTo.
  replace (Vector3.distanceToSquared (Vector3.lerp p hand 0.8) hand)
    with (0.2 * 0.2 * Vector3.distanceToSquared p hand).
  - rewrite sqrt_mult_alt by lra. rewrite sqrt_square by lra. reflexivity.
  - destruct p as [a b c], hand as [a' b' c'].
    unfold Vector3.distanceToSquared, Vector3.lerp. cbn.
    replace 0.2 with (1 / 5) by lra. replace 0.8 with (4 / 5) by lra. field.
Qed.

(** Following the hand: each step of a held object towards a hand position
    leaves a fifth of its distance, so [n] steps leave [0.2 ^ n] of it;
    velocity and spin stay zero on the way. *)
Theorem held_object_closes_in (deltaTime : R) (hand : Vector3.t) (n : nat)
    (o : PhysicsObject.t) :
  PhysicsObject.isHeld o = true ->
  let o' := Nat.iter n (PhysicsObject.update deltaTime (Some hand)) o in
  PhysicsObject.isHeld o' = true
  /\ Vector3.distanceTo (PhysicsObject.position o') hand
     = 0.2 ^ n * Vector3.distanceTo (PhysicsObject.position o) hand.
Proof.
  intros Hheld. cbv zeta. induction n as [|n [IHh IHd]].
  - split; [exact Hheld|]. cbn. lra.
  - rewrite Nat.iter_succ. split; [rewrite isHeld_update; exact IHh|].
    unfold PhysicsObject.update at 1. rewrite IHh.
    cbn [PhysicsObject.position PhysicsObject.set_position
         PhysicsObject.set_velocity PhysicsObject.set_angularVelocity].
    rewrite lerp_distance, IHd. cbn [pow]. ring.
Qed.

Lemma held_object_closes_in_witness :
  let o := PhysicsObject.grab (ballAt (Vector3.mk 0 1 0) (Vector3.mk 0 0 0)) in
  let hand := Vector3.mk 1 2 3 in
  let o' := Nat.iter 3 (PhysicsObject.update 0.016 (Some hand)) o in
  PhysicsObject.isHeld o = true
  /\ Vector3.distanceTo (PhysicsObject.position o') hand
     = 0.2 ^ 3 * Vector3.distanceTo (PhysicsObject.position o) hand.
Proof.
  intros o hand o'. split; [reflexivity|].
  exact (proj2 (held_object_closes_in 0.016 hand 3 o eq_refl)).
Defined.

Lemma groundBounce_keeps o :
  PhysicsObject.mass (PhysicsObject.groundBounce o) = PhysicsObject.mass o
  /\ PhysicsObject.emissive (PhysicsObject.groundBounce o) = PhysicsObject.emissive o
  /\ PhysicsObject.emissiveIntensity (PhysicsObject.groundBounce o)
     = PhysicsObject.emissiveIntensity o.
Proof.
  unfold PhysicsObject.groundBounce.
  destruct (Rlt_dec _ _); [|repeat split].
  cbv zeta. destruct (Rgt_dec _ _); repeat split.
Qed.

Lemma bounceX_keeps bound o :
  PhysicsObject.mass (PhysicsObject.bounceX bound o) = PhysicsObject.mass o
  /\ PhysicsObject.emissive (PhysicsObject.bounceX bound o) = PhysicsObject.emissive o
  /\ PhysicsObject.emissiveIntensity (PhysicsObject.bounceX bound o)
     = PhysicsObject.emissiveIntensity o.
Proof. unfold PhysicsObject.bounceX. destruct (Rgt_dec _ _); repeat split. Qed.

Lemma bounceZ_keeps bound o :
  PhysicsObject.mass (PhysicsObject.bounceZ bound o) = PhysicsObject.mass o
  /\ PhysicsObject.emissive (PhysicsObject.bounceZ bound o) = PhysicsObject.emissive o
  /\ PhysicsObject.emissiveIntensity (PhysicsObject.bounceZ bound o)
     = PhysicsObject.emissiveIntensity o.
Proof. unfold PhysicsObject.bounceZ. destruct (Rgt_dec _ _); repeat split. Qed.

(** What [update] never touches: the held flag, radius and mass, the time
    of the last collision and the highlight of the material. *)
Lemma update_keeps (deltaTime : R) (hand : option Vector3.t)
    (o : PhysicsObject.t) :
  let o' := PhysicsObject.update deltaTime hand o in
  PhysicsObject.isHeld o' = PhysicsObject.isHeld o
  /\ PhysicsObject.radius o' = PhysicsObject.radius o
  /\ PhysicsObject.lastCollisionTime o' = PhysicsObject.lastCollisionTime o
  /\ PhysicsObject.mass o' = PhysicsObject.mass o
  /\ PhysicsObject.emissive o' = PhysicsObject.emissive o
  /\ PhysicsObject.emissiveIntensity o' = PhysicsObject.emissiveIntensity o.
Proof.
  cbv zeta. split; [apply isHeld_update|]. split; [apply radius_update|].
  split; [apply evolves_update|].
  unfold PhysicsObject.update.
  destruct (PhysicsObject.isHeld o), hand; try (repeat split; reflexivity);
    cbv zeta; unfold PhysicsObject.boundaryBounce; cbv zeta;
    match goal with
    | |- context [PhysicsObject.groundBounce ?b] =>
        destruct (bounceZ_keeps 10 (PhysicsObject.bounceX 10 (PhysicsObject.groundBounce b)))
          as (-> & -> & ->);
        destruct (bounceX_keeps 10 (PhysicsObject.groundBounce b)) as (-> & -> & ->);
        destruct (groundBounce_keeps b) as (-> & -> & ->)
    end; repeat split.
Qed.

Lemma length_multiplyScalar (v : Vector3.t) (k : R) :
  Vector3.length (Vector3.multiplyScalar v k) = Rabs k * Vector3.length v.
Proof.
  unfold Vector3.length.
  replace (Vector3.lengthSq (Vector3.multiplyScalar v k))
    with (k * k * Vector3.lengthSq v)
    by (destruct v; unfold Vector3.lengthSq, Vector3.multiplyScalar; cbn; ring).
  rewrite sqrt_mult_alt by nra.
  replace (k * k) with (Rsqr k) by reflexivity. rewrite sqrt_Rsqr_abs.
  reflexivity.
Qed.

(** A throw has the speed it was given: [release] with a direction of
    non-zero length sets a velocity of length [|force|] along the
    normalised direction. *)
Theorem release_speed (H : Host.t) (direction : Vector3.t) (force : R)
    (c : Host.calls) (o : PhysicsObject.t) :
  Vector3.length direction <> 0 ->
  let o' := fst (PhysicsObject.release H direction force c o) in
  PhysicsObject.velocity o'
  = Vector3.multiplyScalar (Vector3.normalize direction) force
  /\ Vector3.length (PhysicsObject.velocity o') = Rabs force.
Proof.
  intros Hne. cbn. split; [reflexivity|].
  rewrite length_multiplyScalar, (length_normalize _ Hne). ring.
Qed.

Lemma release_speed_witness :
  let H := Host.mk (fun _ => 0.5) (fun _ => 0) in
  let o := PhysicsObject.grab (ballAt (Vector3.mk 0 1 0) (Vector3.mk 0 0 0)) in
  let o' := fst (PhysicsObject.release H (Vector3.mk 0 3 4) 15 (Host.mkCalls 0 0) o) in
  Vector3.length (Vector3.mk 0 3 4) <> 0
  /\ Vector3.length (PhysicsObject.velocity o') = Rabs 15.
Proof.
  intros H o o'.
  assert (Hne : Vector3.length (Vector3.mk 0 3 4) <> 0).
  { intros Hz. apply length_zero_inv in Hz. apply (f_equal Vector3.y) in Hz.
    cbn in Hz. lra. }
  split; [exact Hne|].
  exact (proj2 (release_speed H (Vector3.mk 0 3 4) 15 (Host.mkCalls 0 0) o Hne)).
Defined.

(** The spin of a throw: with [Math.random()] in [[0, 1)], every component
    of the angular velocity [release] assigns lies in [[-2, 2)], and
    [release] draws exactly three random numbers. *)
Theorem release_spin_range (H : Host.t) (direction : Vector3.t) (force : R)
    (c : Host.calls) (o : PhysicsObject.t) :
  (forall k, 0 <= Host.Math_random H k < 1) ->
  let '(o', c') := PhysicsObject.release H direction force c o in
  -2 <= Vector3.x (PhysicsObject.angularVelocity o') < 2
  /\ -2 <= Vector3.y (PhysicsObject.angularVelocity o') < 2
  /\ -2 <= Vector3.z (PhysicsObject.angularVelocity o') < 2
  /\ Host.randomCalls c' = (3 + Host.randomCalls c)%nat
  /\ Host.nowCalls c' = Host.nowCalls c.
Proof.
  intros Hrange. cbn.
  pose proof (Hrange (Host.randomCalls c)).
  pose proof (Hrange (S (Host.randomCalls c))).
  pose proof (Hrange (S (S (Host.randomCalls c)))).
  repeat split; try lra.
Qed.

Lemma release_spin_range_witness :
  let H := Host.mk (fun _ => 0.75) (fun _ => 0) in
  let o := PhysicsObject.grab (ballAt (Vector3.mk 0 1 0) (Vector3.mk 0 0 0)) in
  (forall k, 0 <= Host.Math_random H k < 1)
  /\ let '(o', c') :=
       PhysicsObject.release H (Vector3.mk 0 0 1) 15 (Host.mkCalls 0 0) o in
     -2 <= Vector3.x (PhysicsObject.angularVelocity o') < 2.
Proof.
  intros H o.
  assert (Hrange : forall k, 0 <= Host.Math_random H k < 1) by (intros k; cbn; lra).
  split; [exact Hrange|].
  pose proof (release_spin_range H (Vector3.mk 0 0 1) 15 (Host.mkCalls 0 0) o Hrange)
    as Hspin.
  destruct (PhysicsObject.release H (Vector3.mk 0 0 1) 15 (Host.mkCalls 0 0) o)
    as [o' c'].
  exact (proj1 Hspin).
Defined.

(** [checkCollision] answers [true] exactly when neither object is held, at
    least 100 ms have passed since the receiver's last collision and the
    centres are nearer than the sum of the radii; it changes nothing but the
    receiver's collision time, which follows the answer; and it reads the
    clock only when neither object is held. *)
Theorem checkCollision_answer (H : Host.t) (c : Host.calls)
    (this other : PhysicsObject.t) :
  let '(hit, this', c') := PhysicsObject.checkCollision H c this other in
  let now := Host.performance_now H (Host.nowCalls c) in
  (hit = true <->
     PhysicsObject.isHeld this = false /\ PhysicsObject.isHeld other = false
     /\ 100 <= now - PhysicsObject.lastCollisionTime this
     /\ Vector3.distanceTo (PhysicsObject.position this)
          (PhysicsObject.position other)
        < PhysicsObject.radius this + PhysicsObject.radius other)
  /\ this' = (if hit then PhysicsObject.set_lastCollisionTime now this else this)
  /\ Host.nowCalls c'
     = (if PhysicsObject.isHeld this || PhysicsObject.isHeld other
        then Host.nowCalls c else S (Host.nowCalls c))
  /\ Host.randomCalls c' = Host.randomCalls c.
Proof.
  unfold PhysicsObject.checkCollision.
  assert (Hno : forall P : Prop, ~ P -> (false = true <-> P))
    by (intros P HP; split; [discriminate|intros HP'; contradiction]).
  destruct (PhysicsObject.isHeld this) eqn:Hthis; cbn.
  { split; [|repeat split; reflexivity].
    apply Hno. intros (Hf & _). discriminate. }
  destruct (PhysicsObject.isHeld other) eqn:Hother; cbn.
  { split; [|repeat split; reflexivity].
    apply Hno. intros (_ & Hf & _). discriminate. }
  destruct (Rlt_dec _ 100) as [Hearly|Hlate]; cbn.
  { split; [|repeat split; reflexivity].
    apply Hno. intros (_ & _ & Hl & _). lra. }
  destruct (Rlt_dec _ _) as [Hnear|Hfar]; cbn.
  - split; [|repeat split; reflexivity].
    split; [intros _; repeat split; [lra|assumption]|reflexivity].
  - split; [|repeat split; reflexivity].
    apply Hno. intros (_ & _ & _ & Hn). contradiction.
Qed.

(** Touching the ground while moving sideways: the object is put on the
    ground, its vertical velocity is reversed and halved, its horizontal
    velocity loses a tenth, and its spin becomes that of a rolling ball:
    horizontal, at a right angle to the velocity, of size speed / radius. *)
Theorem ground_contact_rolls (o : PhysicsObject.t) :
  Vector3.y (PhysicsObject.position o)
  < PhysicsObject.GROUND_Y + PhysicsObject.radius o ->
  Vector3.x (PhysicsObject.velocity o) <> 0
  \/ Vector3.z (PhysicsObject.velocity o) <> 0 ->
  0 < PhysicsObject.radius o ->
  let o' := PhysicsObject.groundBounce o in
  Vector3.y (PhysicsObject.position o')
  = PhysicsObject.GROUND_Y + PhysicsObject.radius o
  /\ PhysicsObject.velocity o'
     = Vector3.mk (Vector3.x (PhysicsObject.velocity o) * 0.9)
         (Vector3.y (PhysicsObject.velocity o) * -0.5)
         (Vector3.z (PhysicsObject.velocity o) * 0.9)
  /\ Vector3.y (PhysicsObject.angularVelocity o') = 0
  /\ Vector3.dot (PhysicsObject.angularVelocity o') (PhysicsObject.velocity o') = 0
  /\ Vector3.length (PhysicsObject.angularVelocity o') * PhysicsObject.radius o
     = Vector3.length (PhysicsObject.velocity o').
Proof.
  intros Hlow Hmoving Hr. unfold PhysicsObject.groundBounce. cbv zeta.
  destruct (Rlt_dec _ _) as [_|Hhigh]; [|contradiction].
  cbn [PhysicsObject.velocity PhysicsObject.set_velocity
       PhysicsObject.set_position PhysicsObject.radius].
  destruct (PhysicsObject.velocity o) as [vx vy vz] eqn:Hv. cbn in Hmoving.
  cbn [Vector3.x Vector3.y Vector3.z Vector3.setX Vector3.setY Vector3.setZ].
  set (axis := Vector3.mk (- (vz * 0.9)) 0 (vx * 0.9)).
  set (v' := Vector3.mk (vx * 0.9) (vy * -0.5) (vz * 0.9)).
  assert (Haxis : Vector3.length axis <> 0).
  { intros Hz. apply length_zero_inv in Hz. injection Hz as Hzx Hzz. lra. }
  pose proof (length_normalize _ Haxis) as Hunit.
  destruct (Rgt_dec _ 0.01) as [_|Hsmall]; [|lra].
  cbn [PhysicsObject.position PhysicsObject.velocity
       PhysicsObject.angularVelocity PhysicsObject.set_angularVelocity
       PhysicsObject.set_velocity PhysicsObject.set_position].
  split; [reflexivity|]. split; [reflexivity|].
  rewrite (normalize_nonzero _ Haxis) in *.
  pose proof (length_nonneg axis) as Hpos.
  pose proof (length_nonneg v') as Hpos'.
  split; [|split].
  - cbn. field. split; [lra|exact Haxis].
  - unfold Vector3.dot, Vector3.multiplyScalar, Vector3.divideScalar, axis, v'.
    cbn. fold axis v'. field. split; [lra|exact Haxis].
  - rewrite length_multiplyScalar, Hunit.
    rewrite Rabs_right
      by (apply Rle_ge, Rmult_le_pos;
          [exact Hpos'|left; apply Rinv_0_lt_compat; exact Hr]).
    field. lra.
Qed.

Lemma ground_contact_rolls_witness :
  let o := ballAt (Vector3.mk 0 0.1 0) (Vector3.mk 1 (-2) 0) in
  let o' := PhysicsObject.groundBounce o in
  Vector3.y (PhysicsObject.position o)
  < PhysicsObject.GROUND_Y + PhysicsObject.radius o
  /\ (Vector3.x (PhysicsObject.velocity o) <> 0
      \/ Vector3.z (PhysicsObject.velocity o) <> 0)
  /\ 0 < PhysicsObject.radius o
  /\ Vector3.dot (PhysicsObject.angularVelocity o') (PhysicsObject.velocity o') = 0.
Proof.
  intros o o'.
  assert (Hlow : Vector3.y (PhysicsObject.position o)
                 < PhysicsObject.GROUND_Y + PhysicsObject.radius o).
  { cbn. unfold PhysicsObject.GROUND_Y, PhysicsObject.BALL_RADIUS. lra. }
  assert (Hmoving : Vector3.x (PhysicsObject.velocity o) <> 0
                    \/ Vector3.z (PhysicsObject.velocity o) <> 0).
  { left. cbn. lra. }
  assert (Hr : 0 < PhysicsObject.radius o).
  { cbn. unfold PhysicsObject.BALL_RADIUS. lra. }
  split; [exact Hlow|]. split; [exact Hmoving|]. split; [exact Hr|].
  destruct (ground_contact_rolls o Hlow Hmoving Hr) as (_ & _ & _ & Hdot & _).
  exact Hdot.
Defined.

(** ** HandTracker *)

Lemma accumulate_succeeds lm ps :
  Forall (fun ij => is_Some (lm !! fst ij) /\ is_Some (lm !! snd ij)) ps ->
  forall acc, is_Some (fold_left (HandTracker.accumulate lm) ps (Some acc)).
Proof.
  induction 1 as [|ij ps [[p1 H1] [p2 H2]] _ IH]; intros [total count]; cbn.
  - eauto.
  - rewrite H1, H2. apply IH.
Qed.

Lemma avgSize_defined lm :
  (18 <= length lm)%nat -> is_Some (HandTracker.avgSize lm).
Proof.
  intros Hlen. unfold HandTracker.avgSize.
  destruct (accumulate_succeeds lm (HandTracker.pairsOf HandTracker.points))
    with (acc := (0, 0%nat)) as [[total count] ->]; [|eauto].
  cbn. repeat constructor; cbn; apply lookup_lt_is_Some_2; lia.
Qed.

(** [estimateDepth] throws exactly for landmark arrays of 5 to 17 entries:
    they pass the length check of line 111, and one of the landmarks 0, 5,
    9, 13, 17 is missing. *)
Theorem estimateDepth_throws (lm : list HandTracker.Landmark) :
  HandTracker.estimateDepth (Some lm) = None <-> (5 <= length lm < 18)%nat.
Proof.
  unfold HandTracker.estimateDepth.
  destruct (length lm <? 5)%nat eqn:Hshort.
  - apply Nat.ltb_lt in Hshort. split; [discriminate|lia].
  - apply Nat.ltb_ge in Hshort.
    destruct (HandTracker.avgSize lm) as [avg|] eqn:Havg.
    + apply avgSize_length in Havg. split; [discriminate|lia].
    + split; [intros _|reflexivity].
      destruct (le_lt_dec 18 (length lm)) as [Hlong|Hmid]; [|lia].
      destruct (avgSize_defined lm Hlong) as [avg Hsome]. congruence.
Qed.

Lemma estimateDepth_unit (landmarks : option (list HandTracker.Landmark))
    (depth : R) :
  HandTracker.estimateDepth landmarks = Some depth -> 0 <= depth <= 1.
Proof.
  unfold HandTracker.estimateDepth. destruct landmarks as [lm|].
  - destruct (length lm <? 5)%nat.
    + intros [= <-]. lra.
    + destruct (HandTracker.avgSize lm) as [avg|]; [|discriminate].
      cbv zeta. intros [= <-].
      set (n := (avg - 0.05) / (0.3 - 0.05)).
      pose proof (Rmax_l 0 (Rmin 1 n)). pose proof (Rmin_l 1 n).
      assert (Rmax 0 (Rmin 1 n) <= 1) by (apply Rmax_lub; lra).
      lra.
  - intros [= <-]. lra.
Qed.

(** The depth estimate lies in [[0, 1]]; it is 0.5 without landmarks or with
    fewer than five of them. *)
Theorem estimateDepth_range (landmarks : option (list HandTracker.Landmark))
    (depth : R) :
  HandTracker.estimateDepth landmarks = Some depth ->
  0 <= depth <= 1
  /\ (match landmarks with
      | None => depth = 0.5
      | Some lm => (length lm < 5)%nat -> depth = 0.5
      end).
Proof.
  intros Hdepth. split; [exact (estimateDepth_unit _ _ Hdepth)|].
  unfold HandTracker.estimateDepth in Hdepth. destruct landmarks as [lm|].
  - intros Hshort. apply Nat.ltb_lt in Hshort. rewrite Hshort in Hdepth.
    congruence.
  - congruence.
Qed.

Lemma estimateDepth_range_witness :
  HandTracker.estimateDepth None = Some 0.5 /\ 0 <= 0.5 <= 1.
Proof.
  split; [reflexivity|].
  exact (proj1 (estimateDepth_range None 0.5 eq_refl)).
Defined.

(** The shape of the estimate: 1 up to a hand size of 0.05, 0 from a hand
    size of 0.3 on, and falling linearly in between. *)
Theorem estimateDepth_shape (lm : list HandTracker.Landmark) (avg : R) :
  HandTracker.avgSize lm = Some avg ->
  HandTracker.estimateDepth (Some lm)
  = Some (if Rle_dec avg 0.05 then 1
          else if Rle_dec 0.3 avg then 0
          else (0.3 - avg) / 0.25).
Proof.
  intros Havg. pose proof (avgSize_length _ _ Havg) as Hlen.
  unfold HandTracker.estimateDepth. rewrite Havg.
  replace (length lm <? 5)%nat with false by (symmetry; apply Nat.ltb_ge; lia).
  cbv zeta. f_equal. replace (0.3 - 0.05) with 0.25 by lra.
  destruct (Rle_dec avg 0.05) as [Hsmall|Hnot].
  - rewrite Rmin_right by lra. rewrite Rmax_left by lra. lra.
  - destruct (Rle_dec 0.3 avg) as [Hbig|Hmid].
    + rewrite Rmin_left by lra. rewrite Rmax_right by lra. lra.
    + rewrite Rmin_right by lra. rewrite Rmax_right by lra. lra.
Qed.

Lemma estimateDepth_shape_witness :
  let origin := HandTracker.mkLandmark 0 0 0 in
  let lm := HandTracker.mkLandmark 1 0 0 :: replicate 17 origin in
  HandTracker.avgSize lm = Some 0.4
  /\ HandTracker.estimateDepth (Some lm) = Some 0.
Proof.
  intros origin lm.
  assert (Havg : HandTracker.avgSize lm = Some 0.4).
  { rewrite (avgSize_mean lm (HandTracker.mkLandmark 1 0 0) origin origin
               origin origin) by reflexivity.
    unfold origin. rewrite dist2D_unit, !dist2D_same. f_equal. lra. }
  split; [exact Havg|].
  rewrite (estimateDepth_shape lm 0.4 Havg).
  destruct (Rle_dec 0.4 0.05); [lra|]. destruct (Rle_dec 0.3 0.4); [reflexivity|lra].
Defined.

Lemma dist2D_moved dx dy newZ p q :
  HandTracker.dist2D (moved dx dy newZ p) (moved dx dy newZ q)
  = HandTracker.dist2D p q.
Proof. unfold HandTracker.dist2D, moved. cbn. f_equal. ring. Qed.

Lemma accumulate_moved dx dy newZ lm ps : forall acc,
  fold_left (HandTracker.accumulate (moved dx dy newZ <$> lm)) ps acc
  = fold_left (HandTracker.accumulate lm) ps acc.
Proof.
  induction ps as [|ij ps IH]; intros acc; [reflexivity|].
  cbn [fold_left]. rewrite IH. f_equal.
  unfold HandTracker.accumulate. destruct acc as [[total count]|]; [|reflexivity].
  rewrite !list_lookup_fmap.
  destruct (lm !! fst ij), (lm !! snd ij); cbn; try reflexivity.
  rewrite dist2D_moved. reflexivity.
Qed.

(** The estimate looks at the size of the hand only: moving all landmarks
    by the same offset in the image, and changing their depth coordinates
    in any way, leaves it as it is. *)
Theorem estimateDepth_moved (dx dy : R) (newZ : HandTracker.Landmark -> R)
    (lm : list HandTracker.Landmark) :
  HandTracker.estimateDepth (Some (moved dx dy newZ <$> lm))
  = HandTracker.estimateDepth (Some lm).
Proof.
  unfold HandTracker.estimateDepth, HandTracker.avgSize.
  rewrite length_fmap, accumulate_moved. reflexivity.
Qed.

Lemma pinch_threshold (s : R) :
  0 <= s -> (sqrt s < HandTracker.GRAB_GESTURE_THRESHOLD <-> s < 0.0049).
Proof.
  intros Hs. unfold HandTracker.GRAB_GESTURE_THRESHOLD.
  assert (Hroot : sqrt 0.0049 = 0.07) by (apply sqrt_of_square; lra).
  rewrite <- Hroot. split.
  - intros Hlt. apply sqrt_lt_0_alt. exact Hlt.
  - intros Hlt. apply sqrt_lt_1_alt. lra.
Qed.

Lemma update_hand_frame (H : Host.t) (c : Host.calls) (videoTime : R)
    (hand : list HandTracker.Landmark) (others : list (list HandTracker.Landmark))
    (this : HandTracker.t) (thumbTip indexTip : HandTracker.Landmark) :
  HandTracker.handLandmarker this = true ->
  videoTime <> HandTracker.lastVideoTime this ->
  hand !! 4%nat = Some thumbTip -> hand !! 8%nat = Some indexTip ->
  exists this' c',
    HandTracker.update H c videoTime (hand :: others) this = Some (this', c')
    /\ HandTracker.landmarks (HandTracker.handData this') = Some hand
    /\ HandTracker.screenPosition (HandTracker.handData this')
       = Vector2.mk (1 - HandTracker.x indexTip) (HandTracker.y indexTip)
    /\ HandTracker.prevScreenPosition this'
       = HandTracker.screenPosition (HandTracker.handData this)
    /\ HandTracker.handMovement this'
       = Vector2.mk
           (1 - HandTracker.x indexTip
            - Vector2.x (HandTracker.screenPosition (HandTracker.handData this)))
           (HandTracker.y indexTip
            - Vector2.y (HandTracker.screenPosition (HandTracker.handData this)))
    /\ (HandTracker.isGrabbing (HandTracker.handData this') = true <->
        (HandTracker.x thumbTip - HandTracker.x indexTip) ^ 2
        + (HandTracker.y thumbTip - HandTracker.y indexTip) ^ 2
        + (HandTracker.z thumbTip - HandTracker.z indexTip) ^ 2 < 0.0049)
    /\ HandTracker.lastVideoTime this' = videoTime.
Proof.
  intros Hready Hnew Hthumb Hindex. unfold HandTracker.update.
  rewrite Hready. cbn [negb].
  destruct (Req_dec_T _ _) as [Hsame|_]; [contradiction|].
  cbn [Host.now]. rewrite Hindex, Hthumb. cbv zeta.
  eexists _, _. split; [reflexivity|]. cbn.
  split; [reflexivity|]. split; [f_equal; lra|]. split; [reflexivity|].
  split; [f_equal; lra|]. split; [|reflexivity].
  unfold HandTracker.pinchDistance.
  set (s := (HandTracker.x thumbTip - HandTracker.x indexTip) ^ 2
            + (HandTracker.y thumbTip - HandTracker.y indexTip) ^ 2
            + (HandTracker.z thumbTip - HandTracker.z indexTip) ^ 2).
  match goal with |- _ <-> ?e < _ => replace e with s by (unfold s; ring) end.
  assert (Hs : 0 <= s)
    by (unfold s; repeat apply Rplus_le_le_0_compat; apply pow2_ge_0).
  destruct (Rlt_dec (sqrt s) _) as [Hlt|Hge].
  - split; [intros _; apply pinch_threshold; assumption|reflexivity].
  - split; [discriminate|]. intros Hlt. apply pinch_threshold in Hlt; tauto.
Qed.

(** A new video frame with a hand in it.  The screen position is the index
    finger tip, mirrored in x; the movement is its change since the last
    screen position, which becomes the previous one; and the hand is
    grabbing exactly when the squared distance of thumb tip and index
    finger tip, depth included, is below 0.07 squared. *)
Theorem update_sees_hand (H : Host.t) (c : Host.calls) (videoTime : R)
    (hand : list HandTracker.Landmark) (others : list (list HandTracker.Landmark))
    (this : HandTracker.t) (thumbTip indexTip : HandTracker.Landmark) :
  HandTracker.handLandmarker this = true ->
  videoTime <> HandTracker.lastVideoTime this ->
  hand !! 4%nat = Some thumbTip -> hand !! 8%nat = Some indexTip ->
  exists this' c',
    HandTracker.update H c videoTime (hand :: others) this = Some (this', c')
    /\ HandTracker.landmarks (HandTracker.handData this') = Some hand
    /\ HandTracker.screenPosition (HandTracker.handData this')
       = Vector2.mk (1 - HandTracker.x indexTip) (HandTracker.y indexTip)
    /\ HandTracker.prevScreenPosition this'
       = HandTracker.screenPosition (HandTracker.handData this)
    /\ HandTracker.handMovement this'
       = Vector2.mk
           (1 - HandTracker.x indexTip
            - Vector2.x (HandTracker.screenPosition (HandTracker.handData this)))
           (HandTracker.y indexTip
            - Vector2.y (HandTracker.screenPosition (HandTracker.handData this)))
    /\ (HandTracker.isGrabbing (HandTracker.handData this') = true <->
        (HandTracker.x thumbTip - HandTracker.x indexTip) ^ 2
        + (HandTracker.y thumbTip - HandTracker.y indexTip) ^ 2
        + (HandTracker.z thumbTip - HandTracker.z indexTip) ^ 2 < 0.0049)
    /\ HandTracker.lastVideoTime this' = videoTime.
Proof. exact (update_hand_frame H c videoTime hand others this thumbTip indexTip). Qed.

Lemma update_sees_hand_witness :
  let H := Host.mk (fun _ => 0.5) (fun _ => 0) in
  let tip := HandTracker.mkLandmark 0.5 0.5 0 in
  let hand := replicate 21 tip in
  let this := HandTracker.init HandTracker.constructor in
  HandTracker.handLandmarker this = true
  /\ 0 <> HandTracker.lastVideoTime this
  /\ hand !! 4%nat = Some tip /\ hand !! 8%nat = Some tip
  /\ exists this' c',
       HandTracker.update H (Host.mkCalls 0 0) 0 [hand] this = Some (this', c')
       /\ HandTracker.landmarks (HandTracker.handData this') = Some hand.
Proof.
  intros H tip hand this.
  assert (Hnew : 0 <> HandTracker.lastVideoTime this) by (cbn; lra).
  split; [reflexivity|]. split; [exact Hnew|].
  split; [reflexivity|]. split; [reflexivity|].
  destruct (update_sees_hand H (Host.mkCalls 0 0) 0 hand [] this tip tip
              eq_refl Hnew eq_refl eq_refl)
    as (this' & c' & Hupd & Hlm & _).
  exists this', c'. split; assumption.
Defined.

(** Video frames are taken once: an update that went through leaves a
    tracker on which a further update at the same video time changes
    nothing and reads no clock, whatever is detected. *)
Theorem update_once_per_video_frame (H : Host.t) (c c' c2 : Host.calls)
    (videoTime : R) (detected detected2 : list (list HandTracker.Landmark))
    (this this' : HandTracker.t) :
  HandTracker.update H c videoTime detected this = Some (this', c') ->
  HandTracker.handLandmarker this = true ->
  HandTracker.update H c2 videoTime detected2 this' = Some (this', c2).
Proof.
  intros Hupd Hready.
  assert (Hstate : HandTracker.handLandmarker this' = true
                   /\ HandTracker.lastVideoTime this' = videoTime).
  { unfold HandTracker.update in Hupd. rewrite Hready in Hupd. cbn [negb] in Hupd.
    destruct (Req_dec_T _ _) as [Hsame|Hnew].
    - injection Hupd as <- _. split; [exact Hready|congruence].
    - cbn [Host.now] in Hupd. destruct detected as [|hand rest].
      + injection Hupd as <- _. split; reflexivity.
      + destruct (hand !! 8%nat); [|discriminate].
        destruct (hand !! 4%nat); [|discriminate].
        cbv zeta in Hupd. injection Hupd as <- _. split; reflexivity. }
  destruct Hstate as [Hready' Hlast]. unfold HandTracker.update.
  rewrite Hready', Hlast. cbn [negb].
  destruct (Req_dec_T _ _) as [_|Hne]; [reflexivity|contradiction].
Qed.

Lemma update_once_per_video_frame_witness :
  let H := Host.mk (fun _ => 0.5) (fun _ => 0) in
  let this := HandTracker.init HandTracker.constructor in
  let this' :=
    HandTracker.mk true 0 (HandTracker.mkHandData None false (Vector2.mk 0.5 0.5))
      (Vector2.mk 0.5 0.5) (Vector2.mk 0 0) in
  HandTracker.update H (Host.mkCalls 0 0) 0 [] this = Some (this', Host.mkCalls 0 1)
  /\ HandTracker.handLandmarker this = true
  /\ HandTracker.update H (Host.mkCalls 0 1) 0 [] this' = Some (this', Host.mkCalls 0 1).
Proof.
  intros H this this'.
  assert (Hupd : HandTracker.update H (Host.mkCalls 0 0) 0 [] this
                 = Some (this', Host.mkCalls 0 1)).
  { unfold HandTracker.update. cbn [this HandTracker.init HandTracker.handLandmarker negb].
    destruct (Req_dec_T _ _) as [Hsame|_]; [cbn in Hsame; lra|]. reflexivity. }
  split; [exact Hupd|]. split; [reflexivity|].
  exact (update_once_per_video_frame H _ _ (Host.mkCalls 0 1) 0 [] [] this this'
           Hupd eq_refl).
Defined.

(** In every state of a tracker, a grabbing hand is a hand that is seen:
    [isGrabbing] comes with landmarks, at least nine of them. *)
Theorem grabbing_hand_is_seen (H : Host.t) (this : HandTracker.t) :
  tracking H this ->
  HandTracker.isGrabbing (HandTracker.handData this) = true ->
  exists hand,
    HandTracker.landmarks (HandTracker.handData this) = Some hand
    /\ (9 <= length hand)%nat.
Proof.
  induction 1 as [|s _ IH|s s' c c' videoTime detected _ IH Hupd]; cbn.
  - discriminate.
  - exact IH.
  - unfold HandTracker.update in Hupd.
    destruct (negb _); [injection Hupd as <- _; exact IH|].
    destruct (Req_dec_T _ _); [injection Hupd as <- _; exact IH|].
    cbn [Host.now] in Hupd. destruct detected as [|hand rest].
    + injection Hupd as <- _. cbn. discriminate.
    + destruct (hand !! 8%nat) eqn:Hindex; [|discriminate].
      destruct (hand !! 4%nat); [|discriminate].
      cbv zeta in Hupd. injection Hupd as <- _. cbn. intros _.
      exists hand. split; [reflexivity|].
      apply lookup_lt_Some in Hindex. lia.
Qed.

Lemma grabbing_hand_is_seen_witness :
  let H := Host.mk (fun _ => 0.5) (fun _ => 0) in
  let tip := HandTracker.mkLandmark 0.5 0.5 0 in
  let hand := replicate 21 tip in
  exists this c,
    HandTracker.update H (Host.mkCalls 0 0) 0 [hand]
      (HandTracker.init HandTracker.constructor) = Some (this, c)
    /\ tracking H this
    /\ HandTracker.isGrabbing (HandTracker.handData this) = true
    /\ exists seen,
         HandTracker.landmarks (HandTracker.handData this) = Some seen
         /\ (9 <= length seen)%nat.
Proof.
  intros H tip hand.
  assert (Hnew : 0 <> HandTracker.lastVideoTime
                        (HandTracker.init HandTracker.constructor))
    by (cbn; lra).
  destruct (update_hand_frame H (Host.mkCalls 0 0) 0 hand []
              (HandTracker.init HandTracker.constructor) tip tip
              eq_refl Hnew eq_refl eq_refl)
    as (this & c & Hupd & _ & _ & _ & _ & Hgrab & _).
  assert (Htracking : tracking H this).
  { eapply tracking_update; [apply tracking_init, tracking_new|exact Hupd]. }
  assert (Hpinch : HandTracker.isGrabbing (HandTracker.handData this) = true).
  { apply Hgrab. cbn. lra. }
  exists this, c. split; [exact Hupd|]. split; [exact Htracking|].
  split; [exact Hpinch|].
  exact (grabbing_hand_is_seen H this Htracking Hpinch).
Defined.

(** ** SceneManager *)

Lemma offset_length (p w : Vector3.t) :
  Vector3.distanceTo (Vector3.add p w) p = Vector3.length w.
Proof.
  unfold Vector3.distanceTo, Vector3.length. f_equal.
  destruct p as [a b c], w as [a' b' c'].
  unfold Vector3.distanceToSquared, Vector3.lengthSq, Vector3.add. cbn. ring.
Qed.

Lemma worldPosition_on_ray (camera : SceneManager.Camera)
    (screenPosition : Vector2.t) (distance depthFactor : R) :
  let ndc :=
    Vector3.mk (Vector2.x screenPosition * 2 - 1)
               (- (Vector2.y screenPosition * 2 - 1)) 0.5 in
  SceneManager.unproject camera ndc <> SceneManager.position camera ->
  0 <= depthFactor <= 1 ->
  let worldPos :=
    SceneManager.updateWorldPositionFromScreen camera screenPosition distance
      depthFactor in
  Vector3.distanceTo worldPos (SceneManager.position camera) = 2 + 5 * depthFactor
  /\ 2 <= Vector3.distanceTo worldPos (SceneManager.position camera) <= 7.
Proof.
  intros ndc Hray Hdepth worldPos.
  assert (Hdist : Vector3.distanceTo worldPos (SceneManager.position camera)
                  = 2 + 5 * depthFactor).
  { unfold worldPos, SceneManager.updateWorldPositionFromScreen. cbv zeta.
    fold ndc. rewrite offset_length, length_multiplyScalar.
    change (Vector3.sub (SceneManager.unproject camera ndc)
              (SceneManager.position camera))
      with (Vector3.subVectors (SceneManager.unproject camera ndc)
              (SceneManager.position camera)).
    rewrite (length_normalize _ (distinct_centres _ _ Hray)).
    rewrite Rabs_right by lra. lra. }
  split; [exact Hdist|]. rewrite Hdist. lra.
Qed.



(** The hand in the world: whenever a frame is made from hand data with
    landmarks, the hand position it carries lies between 2 and 7 units from
    the camera, provided the camera unprojects no point onto itself. *)
Theorem frameOf_hand_in_reach (camera : SceneManager.Camera) (deltaTime : R)
    (handData : HandTracker.HandData) (intersects : list (nat * R))
    (f : Game.Frame) (p : Vector3.t) :
  (forall ndc, SceneManager.unproject camera ndc <> SceneManager.position camera) ->
  Game.frameOf camera deltaTime handData intersects = Some f ->
  Game.hand f = Some p ->
  2 <= Vector3.distanceTo p (SceneManager.position camera) <= 7
  /\ Game.isGrabbing f = HandTracker.isGrabbing handData
  /\ HandTracker.landmarks handData <> None.
Proof.
  intros Hray Hframe Hhand. unfold Game.frameOf in Hframe.
  destruct (HandTracker.landmarks handData) as [lm|] eqn:Hlm.
  - destruct (HandTracker.estimateDepth (Some lm)) as [depth|] eqn:Hdepth;
      [|discriminate].
    injection Hframe as <-. cbn in Hhand. injection Hhand as <-.
    split; [|split; [reflexivity|discriminate]].
    apply worldPosition_on_ray; [apply Hray|].
    apply (estimateDepth_unit _ _ Hdepth).
  - injection Hframe as <-. discriminate.
Qed.

Lemma frameOf_hand_in_reach_witness :
  let camera :=
    SceneManager.mkCamera (Vector3.mk 0 2 4)
      (fun ndc => Vector3.mk (Vector3.x ndc) (Vector3.y ndc) 0) (Vector3.mk 0 0 (-1)) in
  let handData :=
    HandTracker.mkHandData (Some []) false (Vector2.mk 0.5 0.5) in
  let p :=
    SceneManager.updateWorldPositionFromScreen camera (Vector2.mk 0.5 0.5) 5 0.5 in
  let f := Game.mkFrame 0.016 (Some p) false [] (Vector3.mk 0 0 (-1)) in
  (forall ndc, SceneManager.unproject camera ndc <> SceneManager.position camera)
  /\ Game.frameOf camera 0.016 handData [] = Some f
  /\ 2 <= Vector3.distanceTo p (SceneManager.position camera) <= 7.
Proof.
  intros camera handData p f.
  assert (Hray : forall ndc,
             SceneManager.unproject camera ndc <> SceneManager.position camera).
  { intros ndc Heq. apply (f_equal Vector3.z) in Heq. cbn in Heq. lra. }
  assert (Hframe : Game.frameOf camera 0.016 handData [] = Some f) by reflexivity.
  split; [exact Hray|]. split; [exact Hframe|].
  exact (proj1 (frameOf_hand_in_reach camera 0.016 handData [] f p Hray Hframe
                  eq_refl)).
Defined.

(** ** Game: the throw *)

Lemma normalize_upward (v : Vector3.t) :
  0 < Vector3.y v -> 0 < Vector3.y (Vector3.normalize v).
Proof.
  intros Hy.
  assert (Hne : Vector3.length v <> 0).
  { intros Hz. apply length_zero_inv in Hz. rewrite Hz in Hy. cbn in Hy. lra. }
  rewrite (normalize_nonzero _ Hne). cbn.
  pose proof (length_nonneg v). apply Rdiv_lt_0_compat; lra.
Qed.

Lemma throwOf_spec (history : list Vector3.t) (deltaTime : R)
    (cameraDirection otherDirection : Vector3.t) :
  let '(throwDirection, throwForce) :=
    Game.throwOf history deltaTime cameraDirection in
  Vector3.length throwDirection = 1
  /\ 0 < Vector3.y throwDirection
  /\ 10.5 <= throwForce <= 22.5
  /\ Game.throwOf history deltaTime otherDirection = (throwDirection, throwForce).
Proof.
  assert (Hdefault : forall cam,
             (length history < 2)%nat
             \/ (forall startPos endPos,
                   head history = Some startPos -> last history = Some endPos ->
                   ~ Vector3.length (Vector3.subVectors endPos startPos) > 0.05) ->
             Game.throwOf history deltaTime cam
             = (Vector3.normalize (Vector3.mk 0 0.3 (-1)), Game.THROW_FORCE)).
  { intros cam [Hshort|Hstill]; [apply throwOf_short; exact Hshort|].
    unfold Game.throwOf. destruct (2 <=? length history)%nat.
    - destruct (head history) as [startPos|], (last history) as [endPos|];
        try (rewrite default_direction_length;
             destruct (Rlt_dec 1 0.1); [lra|reflexivity]).
      destruct (Rgt_dec _ 0.05) as [Hbig|_];
        [exfalso; exact (Hstill _ _ eq_refl eq_refl Hbig)|].
      rewrite default_direction_length.
      destruct (Rlt_dec 1 0.1); [lra|reflexivity].
    - rewrite default_direction_length.
      destruct (Rlt_dec 1 0.1); [lra|reflexivity]. }
  assert (Hcases :
            (forall cam, Game.throwOf history deltaTime cam
                         = (Vector3.normalize (Vector3.mk 0 0.3 (-1)),
                            Game.THROW_FORCE))
            \/ exists startPos endPos,
                 forall cam, Game.throwOf history deltaTime cam
                 = (Vector3.normalize (amplified (Vector3.subVectors endPos startPos)),
                    Rmin (Game.THROW_FORCE * 1.5)
                      (Rmax (Game.THROW_FORCE * 0.7)
                         (1 / (INR (length history) * deltaTime) * 5)))).
  { destruct (le_lt_dec 2 (length history)) as [Hlong|Hshort];
      [|left; intros cam; apply Hdefault; left; exact Hshort].
    destruct (head history) as [startPos|] eqn:Hhead;
      [|left; intros cam; apply Hdefault; right; intros ? ? [=]].
    destruct (last history) as [endPos|] eqn:Hlast;
      [|left; intros cam; apply Hdefault; right; intros ? ? _ [=]].
    destruct (Rgt_dec (Vector3.length (Vector3.subVectors endPos startPos)) 0.05)
      as [Hbig|Hsmall].
    - right. exists startPos, endPos. intros cam.
      apply throwOf_significant; assumption.
    - left. intros cam. apply Hdefault. right. intros s e [= <-] [= <-]. exact Hsmall. }
  destruct Hcases as [Hdef|(startPos & endPos & Hsig)].
  - rewrite Hdef. split; [apply default_direction_length|].
    split; [apply normalize_upward; cbn; lra|].
    split; [unfold Game.THROW_FORCE; lra|apply Hdef].
  - rewrite Hsig. split; [apply length_normalize, amplified_length|].
    split.
    { apply normalize_upward. unfold amplified. cbn [Vector3.y].
      apply Rlt_le_trans with 0.2; [lra|apply Rmax_l]. }
    split; [|apply Hsig].
    unfold Game.THROW_FORCE.
    set (speed := 1 / _ * 5).
    pose proof (Rmin_l (15 * 1.5) (Rmax (15 * 0.7) speed)).
    pose proof (Rmax_l (15 * 0.7) speed).
    assert (15 * 0.7 <= Rmin (15 * 1.5) (Rmax (15 * 0.7) speed))
      by (apply Rmin_glb; lra).
    lra.
Qed.

(** Every throw goes forward with the same rules: the direction is a unit
    vector that points upwards, the force lies between 0.7 and 1.5 times
    [THROW_FORCE], and the camera is never asked: the fallback of lines
    412-416 cannot be reached. *)
Theorem throwOf_bounds (history : list Vector3.t) (deltaTime : R)
    (cameraDirection otherDirection : Vector3.t) :
  let '(throwDirection, throwForce) :=
    Game.throwOf history deltaTime cameraDirection in
  Vector3.length throwDirection = 1
  /\ 0 < Vector3.y throwDirection
  /\ 10.5 <= throwForce <= 22.5
  /\ Game.throwOf history deltaTime otherDirection = (throwDirection, throwForce).
Proof. exact (throwOf_spec history deltaTime cameraDirection otherDirection). Qed.

(** A thrown object: the end of the pinch frees the held object with a
    speed between 10.5 and 22.5 and an upward velocity, puts the game back
    to holding nothing and empties the history. *)
Theorem throwHeld_launches (H : Host.t) (f : Game.Frame) (k : nat) (g : Game.t)
    (o : PhysicsObject.t) :
  Game.physicsObjects g !! k = Some o ->
  let g' := Game.throwHeld H f k g in
  Game.heldObject g' = None
  /\ Game.handPositionHistory g' = []
  /\ exists o', Game.physicsObjects g' !! k = Some o'
       /\ PhysicsObject.isHeld o' = false
       /\ 10.5 <= Vector3.length (PhysicsObject.velocity o') <= 22.5
       /\ 0 < Vector3.y (PhysicsObject.velocity o').
Proof.
  intros Hk. unfold Game.throwHeld.
  pose proof (throwOf_spec (Game.handPositionHistory g) (Game.deltaTime f)
                (Game.cameraDirection f) (Game.cameraDirection f)) as Hthrow.
  destruct (Game.throwOf _ _ _) as [throwDirection throwForce].
  destruct Hthrow as (Hunit & Hup & Hforce & _).
  rewrite list_lookup_alter_eq, Hk. cbn.
  split; [reflexivity|]. split; [reflexivity|]. eexists. split.
  - apply list_lookup_insert_eq. rewrite length_alter. eapply lookup_lt_Some, Hk.
  - cbn. split; [reflexivity|].
    rewrite normalize_unit by exact Hunit.
    rewrite length_multiplyScalar, Hunit. rewrite Rabs_right by lra.
    destruct (Req_dec_T 1 0); [lra|]. split; [lra|].
    apply Rmult_lt_0_compat; [|lra]. apply Rdiv_lt_0_compat; lra.
Qed.

Lemma throwHeld_launches_witness :
  let H := Host.mk (fun _ => 0.5) (fun _ => 0) in
  let o := PhysicsObject.grab (ballAt (Vector3.mk 0 1 0) (Vector3.mk 0 0 0)) in
  let g := Game.mk [o] (Some 0%nat) (Vector3.mk 0 1 0) true [] None (Host.mkCalls 0 0) in
  let f := Game.mkFrame 0.016 None false [] (Vector3.mk 0 0 (-1)) in
  Game.physicsObjects g !! 0%nat = Some o
  /\ Game.heldObject (Game.throwHeld H f 0 g) = None.
Proof.
  intros H o g f. split; [reflexivity|].
  exact (proj1 (throwHeld_launches H f 0 g o eq_refl)).
Defined.

(** ** Game: what a frame does to the objects, one by one *)

Section Pointwise.

Context (Q : PhysicsObject.t -> PhysicsObject.t -> Prop).
Hypothesis Q_refl : forall o, Q o o.
Hypothesis Q_trans : forall o1 o2 o3, Q o1 o2 -> Q o2 o3 -> Q o1 o3.

Lemma pointwise_refl (l : list PhysicsObject.t) : Forall2 Q l l.
Proof. induction l; constructor; auto. Qed.

Lemma pointwise_trans (l1 l2 l3 : list PhysicsObject.t) :
  Forall2 Q l1 l2 -> Forall2 Q l2 l3 -> Forall2 Q l1 l3.
Proof.
  intros H12. revert l3. induction H12; intros l3 H23; inversion H23; subst;
    constructor; eauto.
Qed.

Lemma pointwise_fmap (f : PhysicsObject.t -> PhysicsObject.t) l :
  (forall o, Q o (f o)) -> Forall2 Q l (f <$> l).
Proof. intros Hf. induction l; cbn; constructor; auto. Qed.

Lemma pointwise_alter (f : PhysicsObject.t -> PhysicsObject.t) (k : nat) l :
  (forall o, l !! k = Some o -> Q o (f o)) -> Forall2 Q l (alter f k l).
Proof.
  intros Hf. apply Forall2_alter_r; [apply pointwise_refl|].
  intros x y Hx Hy _. assert (x = y) by congruence. subst. apply Hf, Hy.
Qed.

Lemma pointwise_imap (f : nat -> PhysicsObject.t -> PhysicsObject.t) l :
  (forall i o, Q o (f i o)) -> Forall2 Q l (imap f l).
Proof.
  intros Hf. apply Forall2_same_length_lookup_2; [by rewrite length_imap|].
  intros i x y Hx. rewrite list_lookup_imap, Hx. cbn. intros [= <-]. apply Hf.
Qed.

Lemma pointwise_insert (k : nat) (o o' : PhysicsObject.t) l :
  l !! k = Some o -> Q o o' -> Forall2 Q l (<[k := o']> l).
Proof.
  intros Hk Ho. rewrite list_insert_alter. apply pointwise_alter.
  intros x Hx. assert (x = o) by congruence. subst. exact Ho.
Qed.

End Pointwise.

Lemma sameHeld_refl o : sameHeld o o.
Proof. reflexivity. Qed.

Lemma sameHeld_trans o1 o2 o3 : sameHeld o1 o2 -> sameHeld o2 o3 -> sameHeld o1 o3.
Proof. unfold sameHeld. congruence. Qed.

Lemma sameHeld_highlightIfFree e o : sameHeld o (Game.highlightIfFree e o).
Proof. unfold Game.highlightIfFree. destruct (negb _); reflexivity. Qed.

Lemma highlight_sameHeld f g :
  Forall2 sameHeld (Game.physicsObjects g)
    (Game.physicsObjects (Game.highlight f g)).
Proof.
  unfold Game.highlight.
  destruct (Game.hand f), (Game.handIndicatorVisible g), (Game.heldObject g);
    try apply (pointwise_refl _ sameHeld_refl).
  cbn. eapply (pointwise_trans _ sameHeld_trans);
    [|apply pointwise_fmap].
  - eapply (pointwise_trans _ sameHeld_trans);
      [apply (pointwise_fmap _ (Game.highlightIfFree 0)), sameHeld_highlightIfFree|].
    destruct (Game.intersects f) as [|[objIndex d] rest];
      [apply (pointwise_refl _ sameHeld_refl)|].
    apply (pointwise_alter _ sameHeld_refl). intros o _.
    apply sameHeld_highlightIfFree.
  - intros o. destruct (negb _); [|reflexivity].
    destruct (Rlt_dec _ _); reflexivity.
Qed.

Lemma stepObjects_sameHeld f g :
  Forall2 sameHeld (Game.physicsObjects g)
    (Game.physicsObjects (Game.stepObjects f g)).
Proof.
  unfold Game.stepObjects. cbn.
  eapply (pointwise_trans _ sameHeld_trans); [|apply pointwise_imap].
  - destruct (Game.heldObject g); [|apply (pointwise_refl _ sameHeld_refl)].
    apply (pointwise_alter _ sameHeld_refl). intros o _. apply isHeld_update.
  - intros i o. destruct (bool_decide _); [reflexivity|apply isHeld_update].
Qed.

(** One pair of the collision pass, in full: either nothing happens, or the
    check is positive and the collision of the two objects is resolved. *)
Lemma collidePair_inv H held objs c log i j objs' c' log' :
  Game.collidePair H held (objs, c, log) (i, j) = (objs', c', log') ->
  (objs' = objs /\ log' = log)
  \/ exists a b a1 c1 a' b',
       objs !! i = Some a /\ objs !! j = Some b
       /\ held <> Some i /\ held <> Some j
       /\ PhysicsObject.checkCollision H c a b = (true, a1, c1)
       /\ PhysicsObject.resolveCollision H c1 a1 b = (a', b', c')
       /\ objs' = <[j := b']> (<[i := a']> objs)
       /\ log' = log ++ [Game.mkCollision i j (PhysicsObject.lastCollisionTime a1)].
Proof.
  unfold Game.collidePair.
  destruct (objs !! i) as [a|] eqn:Hi; [|intros [= <- <- <-]; left; auto].
  destruct (objs !! j) as [b|] eqn:Hj; [|intros [= <- <- <-]; left; auto].
  destruct (bool_decide (held = Some i)) eqn:Hheldi;
    [intros [= <- <- <-]; left; auto|].
  destruct (bool_decide (held = Some j)) eqn:Hheldj;
    [intros [= <- <- <-]; left; auto|].
  apply bool_decide_eq_false in Hheldi, Hheldj. cbn.
  destruct (PhysicsObject.checkCollision H c a b) as [[hit a1] c1] eqn:Hcheck.
  destruct hit.
  - destruct (PhysicsObject.resolveCollision H c1 a1 b) as [[a' b'] c2] eqn:Hres.
    intros [= <- <- <-]. right. exists a, b, a1, c1, a', b'.
    rewrite list_insert_insert_eq. repeat split; assumption.
  - apply checkCollision_false in Hcheck as ->. intros [= <- <- <-].
    left. split; [apply list_insert_id; assumption|reflexivity].
Qed.

Lemma collidePair_sameHeld H held st ij :
  Forall2 sameHeld (fst (fst st)) (fst (fst (Game.collidePair H held st ij))).
Proof.
  destruct st as [[objs c] log], ij as [i j].
  destruct (Game.collidePair H held (objs, c, log) (i, j)) as [[objs' c'] log']
    eqn:Hpair.
  apply collidePair_inv in Hpair
    as [[-> _]|(a & b & a1 & c1 & a' & b' & Hi & Hj & _ & _ & Hcheck & Hres & -> & _)];
    cbn; [apply (pointwise_refl _ sameHeld_refl)|].
  apply checkCollision_true in Hcheck as (_ & _ & -> & _).
  apply resolveCollision_frame in Hres as (Ha' & Hb' & _).
  eapply (pointwise_trans _ sameHeld_trans).
  - apply (pointwise_insert _ sameHeld_refl i a a'); [exact Hi|exact Ha'].
  - destruct (decide (i = j)) as [->|Hij].
    + rewrite list_insert_insert_eq.
      rewrite <- (list_insert_insert_eq objs j b' a') at 1.
      apply (pointwise_insert _ sameHeld_refl j a' b').
      * apply list_lookup_insert_eq. eapply lookup_lt_Some, Hi.
      * unfold sameHeld. rewrite Hb', Ha'. cbn. congruence.
    + apply (pointwise_insert _ sameHeld_refl j b b');
        [rewrite list_lookup_insert_ne by exact Hij; exact Hj|exact Hb'].
Qed.

Lemma collide_sameHeld H g :
  Forall2 sameHeld (Game.physicsObjects g)
    (Game.physicsObjects (fst (Game.collide H g))).
Proof.
  rewrite collide_collideUpTo. unfold collideUpTo.
  apply (fold_left_invariant _
           (fun st => Forall2 sameHeld (Game.physicsObjects g) (fst (fst st)))
           (fun _ => True)).
  - intros st ij _ Hst. eapply (pointwise_trans _ sameHeld_trans);
      [exact Hst|apply collidePair_sameHeld].
  - apply Forall_true. auto.
  - apply (pointwise_refl _ sameHeld_refl).
Qed.

Lemma heldConsistent_sameHeld g g' :
  heldConsistent g ->
  Forall2 sameHeld (Game.physicsObjects g) (Game.physicsObjects g') ->
  Game.heldObject g' = Game.heldObject g ->
  heldConsistent g'.
Proof.
  intros Hg Hsame Hheld i o' Hi. rewrite Hheld.
  destruct (Forall2_lookup_r _ _ _ _ _ Hsame Hi) as (o & Ho & Heq).
  unfold sameHeld in Heq. rewrite Heq. apply Hg, Ho.
Qed.

(** ** Game: holding one object at a time *)

Lemma startGrab_consistent f g :
  heldConsistent g -> Game.heldObject g = None ->
  heldConsistent (Game.startGrab f g).
Proof.
  intros Hg Hnone i o' Hi.
  assert (Hfree : forall j o, Game.physicsObjects g !! j = Some o ->
                              PhysicsObject.isHeld o = false).
  { intros j o Hj. destruct (PhysicsObject.isHeld o) eqn:Hh; [|reflexivity].
    apply (Hg j o Hj) in Hh. congruence. }
  unfold Game.startGrab in *.
  destruct (Game.sortCandidates _) as [|c rest];
    cbn [Game.physicsObjects Game.heldObject] in *.
  - rewrite (Hfree i o' Hi). split; discriminate.
  - destruct (decide (Game.object c = i)) as [Heq|Hne].
    + subst i. rewrite list_lookup_alter_eq in Hi.
      destruct (Game.physicsObjects g !! Game.object c); [|discriminate].
      injection Hi as <-. split; reflexivity.
    + rewrite list_lookup_alter_ne in Hi by exact Hne.
      rewrite (Hfree i o' Hi). split; [discriminate|congruence].
Qed.

Lemma throwHeld_none H f k g :
  Game.heldObject (Game.throwHeld H f k g) = None
  /\ Game.handPositionHistory (Game.throwHeld H f k g) = [].
Proof.
  unfold Game.throwHeld. destruct (Game.throwOf _ _ _).
  destruct (_ !! k); [destruct (PhysicsObject.release _ _ _ _ _)|];
    split; reflexivity.
Qed.

Lemma throwHeld_objects H f k g i :
  Game.physicsObjects (Game.throwHeld H f k g) !! i
  = if decide (i = k)
    then (fun o =>
            fst (PhysicsObject.release H
                   (fst (Game.throwOf (Game.handPositionHistory g)
                           (Game.deltaTime f) (Game.cameraDirection f)))
                   (snd (Game.throwOf (Game.handPositionHistory g)
                           (Game.deltaTime f) (Game.cameraDirection f)))
                   (Game.calls g) (PhysicsObject.set_emissive 0 o)))
         <$> Game.physicsObjects g !! k
    else Game.physicsObjects g !! i.
Proof.
  unfold Game.throwHeld.
  destruct (Game.throwOf _ _ _) as [throwDirection throwForce]. cbn [fst snd].
  rewrite list_lookup_alter_eq.
  destruct (Game.physicsObjects g !! k) as [o|] eqn:Hk; cbn [fmap option_fmap option_map].
  - destruct (PhysicsObject.release _ _ _ _ _) as [released c'].
    cbn [Game.physicsObjects fst]. destruct (decide (i = k)) as [->|Hne].
    + apply list_lookup_insert_eq. rewrite length_alter. eapply lookup_lt_Some, Hk.
    + rewrite list_lookup_insert_ne, list_lookup_alter_ne by congruence. reflexivity.
  - cbn [Game.physicsObjects]. destruct (decide (i = k)) as [->|Hne].
    + rewrite list_lookup_alter_eq, Hk. reflexivity.
    + rewrite list_lookup_alter_ne by congruence. reflexivity.
Qed.

Lemma throwHeld_consistent H f k g :
  heldConsistent g -> Game.heldObject g = Some k ->
  heldConsistent (Game.throwHeld H f k g).
Proof.
  intros Hg Hheld i o' Hi.
  rewrite (proj1 (throwHeld_none H f k g)).
  rewrite throwHeld_objects in Hi.
  destruct (decide (i = k)) as [->|Hne].
  - destruct (Game.physicsObjects g !! k); [|discriminate].
    injection Hi as <-. cbn. split; discriminate.
  - destruct (PhysicsObject.isHeld o') eqn:Hh; [|split; discriminate].
    apply (Hg i o' Hi) in Hh. congruence.
Qed.

Lemma interact_consistent H f g :
  heldConsistent g -> heldConsistent (Game.interact H f g).
Proof.
  intros Hg. unfold Game.interact.
  destruct (Game.isGrabbing f), (Game.heldObject g) as [k|] eqn:Hheld.
  - unfold Game.keepHolding. destruct (last _); [|exact Hg].
    destruct (Rgt_dec _ _); [|exact Hg].
    intros i o Hi. cbn in *. rewrite Hheld. rewrite <- Hheld. apply Hg, Hi.
  - apply startGrab_consistent; assumption.
  - apply throwHeld_consistent; assumption.
  - exact Hg.
Qed.

Lemma update_consistent H f g :
  heldConsistent g -> heldConsistent (fst (Game.update H f g)).
Proof.
  intros Hg. unfold Game.update.
  assert (H1 : heldConsistent (Game.trackHand f g)).
  { intros i o. destruct (trackHand_frame f g) as (-> & -> & _). apply Hg. }
  assert (H2 : heldConsistent (Game.highlight f (Game.trackHand f g))).
  { eapply heldConsistent_sameHeld;
      [exact H1|apply highlight_sameHeld|apply highlight_frame]. }
  pose proof (interact_consistent H f _ H2) as H3.
  set (g3 := Game.interact H f _) in *.
  assert (H4 : heldConsistent (Game.stepObjects f g3)).
  { eapply heldConsistent_sameHeld;
      [exact H3|apply stepObjects_sameHeld|reflexivity]. }
  eapply heldConsistent_sameHeld;
    [exact H4|apply collide_sameHeld|apply collide_frame].
Qed.

Lemma reachable_consistent (H : Host.t) (g : Game.t) :
  reachable H g -> heldConsistent g.
Proof.
  induction 1 as [positions c|f g _ IH].
  - intros i o Hi. cbn in Hi. rewrite list_lookup_fmap in Hi.
    destruct (positions !! i); [|discriminate]. injection Hi as <-.
    cbn. split; discriminate.
  - apply update_consistent, IH.
Qed.

(** At most one object is held, and the game knows which: in every state
    the game reaches, an object's [isHeld] flag is set exactly when
    [heldObject] is that object. *)
Theorem one_object_held (H : Host.t) (g : Game.t) (i : nat) (o : PhysicsObject.t) :
  reachable H g ->
  Game.physicsObjects g !! i = Some o ->
  (PhysicsObject.isHeld o = true <-> Game.heldObject g = Some i).
Proof.
  intros Hreach. exact (reachable_consistent H g Hreach i o).
Qed.

Lemma one_object_held_witness :
  let H := Host.mk (fun _ => 0.5) (fun _ => 0) in
  let g := Game.create [Vector3.mk 0 1 0] (Host.mkCalls 0 0) in
  let o := PhysicsObject.constructor (Vector3.mk 0 1 0) in
  reachable H g
  /\ Game.physicsObjects g !! 0%nat = Some o
  /\ (PhysicsObject.isHeld o = true <-> Game.heldObject g = Some 0%nat).
Proof.
  intros H g o.
  split; [apply reachable_create|]. split; [reflexivity|].
  exact (one_object_held H g 0 o (reachable_create H _ _) eq_refl).
Defined.

(** The end of a pinch, or the loss of the hand, lets go at once: after a
    frame that is not grabbing nothing is held and no object is flagged as
    held; and if something was held, the history is empty. *)
Theorem release_when_pinch_ends (H : Host.t) (g : Game.t) (f : Game.Frame) :
  reachable H g ->
  Game.isGrabbing f = false ->
  let g' := fst (Game.update H f g) in
  Game.heldObject g' = None
  /\ Forall (fun o => PhysicsObject.isHeld o = false) (Game.physicsObjects g')
  /\ (Game.heldObject g <> None -> Game.handPositionHistory g' = []).
Proof.
  intros Hreach Hrelease g'.
  assert (Hnone : Game.heldObject g' = None
                  /\ (Game.heldObject g <> None -> Game.handPositionHistory g' = [])).
  { unfold g'. destruct (update_interaction H f g) as [-> ->].
    unfold Game.interact. rewrite Hrelease.
    destruct (highlight_frame f (Game.trackHand f g)) as (Hh & _).
    destruct (trackHand_frame f g) as (_ & Hh' & _).
    rewrite Hh' in Hh.
    destruct (Game.heldObject (Game.highlight f (Game.trackHand f g))) as [k|]
      eqn:Hheld.
    - split; [|intros _]; apply throwHeld_none.
    - split; [exact Hheld|]. intros Hsome. congruence. }
  split; [apply Hnone|]. split; [|apply Hnone].
  apply Forall_lookup_2. intros i o Hi.
  destruct (PhysicsObject.isHeld o) eqn:Hflag; [|reflexivity].
  apply (reachable_consistent H g' (reachable_update H f g Hreach) i o Hi) in Hflag.
  destruct Hnone as [Hnone _]. congruence.
Qed.

Lemma release_when_pinch_ends_witness :
  let H := Host.mk (fun _ => 0.5) (fun _ => 0) in
  let g := Game.create [Vector3.mk 0 1 0] (Host.mkCalls 0 0) in
  let f := Game.mkFrame 0.016 None false [] (Vector3.mk 0 0 (-1)) in
  reachable H g
  /\ Game.isGrabbing f = false
  /\ Game.heldObject (fst (Game.update H f g)) = None.
Proof.
  intros H g f. split; [apply reachable_create|]. split; [reflexivity|].
  exact (proj1 (release_when_pinch_ends H g f (reachable_create H _ _) eq_refl)).
Defined.

Lemma pushHistory_bounded history p :
  (length history <= Game.THROW_HISTORY_LENGTH)%nat ->
  (length (Game.pushHistory history p) <= Game.THROW_HISTORY_LENGTH)%nat.
Proof. intros Hlen. apply pushHistory_capacity, Hlen. Qed.

(** The history of hand positions never grows beyond
    [THROW_HISTORY_LENGTH] = 5 samples, in any state the game reaches. *)
Theorem history_bounded (H : Host.t) (g : Game.t) :
  reachable H g ->
  (length (Game.handPositionHistory g) <= Game.THROW_HISTORY_LENGTH)%nat.
Proof.
  induction 1 as [positions c|f g _ IH].
  - cbn. unfold Game.THROW_HISTORY_LENGTH. lia.
  - destruct (update_interaction H f g) as [_ ->].
    assert (H1 : (length (Game.handPositionHistory (Game.trackHand f g))
                  <= Game.THROW_HISTORY_LENGTH)%nat).
    { unfold Game.trackHand. destruct (Game.hand f); cbn;
        [apply pushHistory_bounded|]; exact IH. }
    destruct (highlight_frame f (Game.trackHand f g)) as (_ & Hhist & _).
    rewrite <- Hhist in H1. set (g2 := Game.highlight f _) in *. clearbody g2.
    unfold Game.interact.
    destruct (Game.isGrabbing f), (Game.heldObject g2) as [k|].
    + unfold Game.keepHolding. destruct (last _); [|exact H1].
      destruct (Rgt_dec _ _); [|exact H1]. cbn. apply pushHistory_bounded, H1.
    + rewrite startGrab_history. cbn. lia.
    + rewrite (proj2 (throwHeld_none H f k g2)). cbn. lia.
    + exact H1.
Qed.

Lemma history_bounded_witness :
  let H := Host.mk (fun _ => 0.5) (fun _ => 0) in
  let g := Game.create [Vector3.mk 0 1 0] (Host.mkCalls 0 0) in
  let f := Game.mkFrame 0.016 (Some (Vector3.mk 0 1 0)) false [] (Vector3.mk 0 0 (-1)) in
  reachable H (fst (Game.update H f g))
  /\ (length (Game.handPositionHistory (fst (Game.update H f g)))
      <= Game.THROW_HISTORY_LENGTH)%nat.
Proof.
  intros H g f.
  assert (Hreach : reachable H (fst (Game.update H f g)))
    by apply reachable_update, reachable_create.
  split; [exact Hreach|].
  exact (history_bounded H _ Hreach).
Defined.

(** ** Game: choosing what to grab *)

Lemma insertCandidate_elem c cs d :
  d ∈ Game.insertCandidate c cs <-> d = c \/ d ∈ cs.
Proof.
  induction cs as [|e cs IH]; cbn.
  - rewrite list_elem_of_singleton, elem_of_nil. tauto.
  - destruct (Rle_dec _ _).
    + rewrite !elem_of_cons. tauto.
    + rewrite !elem_of_cons, IH. tauto.
Qed.

Lemma sortCandidates_elem cs d : d ∈ Game.sortCandidates cs <-> d ∈ cs.
Proof.
  induction cs as [|c cs IH]; cbn; [tauto|].
  rewrite insertCandidate_elem, elem_of_cons, IH. tauto.
Qed.





Lemma nearCandidates_nil hand objs : forall k acc,
  Game.nearCandidates hand k objs acc = [] <->
  acc = []
  /\ Forall (fun o => PhysicsObject.isHeld o = false ->
                      ~ Vector3.distanceTo (PhysicsObject.position o) hand
                        < Game.GRAB_THRESHOLD) objs.
Proof.
  induction objs as [|o objs IH]; intros k acc; cbn.
  - split; [intros ->; split; [reflexivity|constructor]|tauto].
  - rewrite IH. rewrite Forall_cons.
    destruct (PhysicsObject.isHeld o); cbn.
    + split; [intros [-> Hrest]|intros [-> [_ Hrest]]];
        repeat split; try assumption. discriminate.
    + destruct (Rlt_dec _ _) as [Hnear|Hfar].
      * destruct (existsb _ acc) eqn:Hseen.
        -- split; [intros [-> _]; discriminate|intros [_ [Hno _]]].
           exfalso. exact (Hno eq_refl Hnear).
        -- split; [intros [Happ _]; destruct acc; discriminate
                  |intros [_ [Hno _]]; exfalso; exact (Hno eq_refl Hnear)].
      * split; [intros [-> Hrest]|intros [-> [_ Hrest]]];
          repeat split; try assumption. intros _. exact Hfar.
Qed.

Lemma rayCandidates_nil objs hits :
  Game.rayCandidates objs hits = [] <->
  Forall (fun hit => objs !! fst hit = None) hits.
Proof.
  induction hits as [|[objIndex d] hits IH]; cbn.
  - split; [constructor|reflexivity].
  - rewrite Forall_cons. cbn. destruct (objs !! objIndex).
    + split; [discriminate|intros [Hno _]; discriminate].
    + rewrite IH. tauto.
Qed.

(** A pinch grabs nothing exactly when the ray hits no object and no free
    object lies within [GRAB_THRESHOLD] = 1.2 of the hand. *)
Theorem startGrab_nothing_in_reach (f : Game.Frame) (g : Game.t) :
  Game.heldObject (Game.startGrab f g) = None <->
  Forall (fun hit => Game.physicsObjects g !! fst hit = None) (Game.intersects f)
  /\ Forall (fun o => PhysicsObject.isHeld o = false ->
                      ~ Vector3.distanceTo (PhysicsObject.position o)
                          (Game.handIndicatorPosition g) < 1.2)
       (Game.physicsObjects g).
Proof.
  rewrite <- rayCandidates_nil.
  change 1.2 with Game.GRAB_THRESHOLD.
  rewrite <- (nearCandidates_nil (Game.handIndicatorPosition g)
                (Game.physicsObjects g) 0).
  fold (grabCandidates f g).
  unfold Game.startGrab. fold (grabCandidates f g).
  pose proof (sortCandidates_elem (grabCandidates f g)) as Helem.
  destruct (Game.sortCandidates (grabCandidates f g)) as [|c rest]; cbn.
  - split; [intros _|reflexivity].
    destruct (grabCandidates f g) as [|d ds]; [reflexivity|].
    exfalso. apply (elem_of_nil d), Helem, list_elem_of_here.
  - split; [discriminate|]. intros Hnil. rewrite Hnil in Helem.
    exfalso. apply (elem_of_nil c), Helem, list_elem_of_here.
Qed.

(** ** Game: the collision pass *)

Lemma add_swap (p q r : Vector3.t) :
  Vector3.add (Vector3.add p q) r = Vector3.add p (Vector3.add q r).
Proof. unfold Vector3.add. apply vector3_eq; cbn; ring. Qed.

Lemma total_insert quantity objs : forall i a a',
  objs !! i = Some a ->
  Vector3.add (total quantity (<[i := a']> objs)) (quantity a)
  = Vector3.add (total quantity objs) (quantity a').
Proof.
  induction objs as [|o objs IH]; intros [|i] a a' Hi; try discriminate.
  - injection Hi as ->. cbn. unfold Vector3.add. apply vector3_eq; cbn; ring.
  - change (Vector3.add
              (Vector3.add (quantity o) (total quantity (<[i := a']> objs)))
              (quantity a)
            = Vector3.add (Vector3.add (quantity o) (total quantity objs))
                (quantity a')).
    rewrite !add_swap, (IH i a a' Hi). reflexivity.
Qed.

Lemma total_insert_pair quantity objs i j a b a' b' :
  i <> j -> objs !! i = Some a -> objs !! j = Some b ->
  Vector3.add (quantity a') (quantity b') = Vector3.add (quantity a) (quantity b) ->
  total quantity (<[j := b']> (<[i := a']> objs)) = total quantity objs.
Proof.
  intros Hij Hi Hj Hsum.
  pose proof (total_insert quantity objs i a a' Hi) as Ha.
  assert (Hj' : <[i := a']> objs !! j = Some b)
    by (rewrite list_lookup_insert_ne; assumption).
  pose proof (total_insert quantity _ j b b' Hj') as Hb.
  unfold Vector3.add in *.
  injection Ha as Hax Hay Haz. injection Hb as Hbx Hby Hbz.
  injection Hsum as Hsx Hsy Hsz.
  destruct (total quantity (<[j := b']> (<[i := a']> objs))) as [x2 y2 z2].
  destruct (total quantity objs) as [x0 y0 z0]. cbn in *.
  apply vector3_eq; lra.
Qed.

Lemma collidePair_total H held st ij :
  fst ij <> snd ij ->
  total PhysicsObject.velocity (fst (fst (Game.collidePair H held st ij)))
  = total PhysicsObject.velocity (fst (fst st))
  /\ total PhysicsObject.position (fst (fst (Game.collidePair H held st ij)))
     = total PhysicsObject.position (fst (fst st)).
Proof.
  destruct st as [[objs c] log], ij as [i j]. cbn [fst snd]. intros Hij.
  destruct (Game.collidePair H held (objs, c, log) (i, j)) as [[objs' c'] log']
    eqn:Hpair.
  apply collidePair_inv in Hpair
    as [[-> _]|(a & b & a1 & c1 & a' & b' & Hi & Hj & _ & _ & Hcheck & Hres & -> & _)];
    cbn [fst]; [split; reflexivity|].
  apply checkCollision_true in Hcheck as (_ & _ & -> & _).
  pose proof (resolveCollision_sums H c1
                (PhysicsObject.set_lastCollisionTime
                   (Host.performance_now H (Host.nowCalls c)) a) b) as Hcons.
  rewrite Hres in Hcons. destruct Hcons as [Hvel Hpos].
  split; eapply total_insert_pair; eassumption.
Qed.

(** The collision pass of a frame conserves the total momentum of the
    objects (their masses are equal) and the sum of their positions:
    collisions only pass velocity and displacement from one object to the
    other. *)
Theorem collide_conserves (H : Host.t) (g : Game.t) :
  total PhysicsObject.velocity (Game.physicsObjects (fst (Game.collide H g)))
  = total PhysicsObject.velocity (Game.physicsObjects g)
  /\ total PhysicsObject.position (Game.physicsObjects (fst (Game.collide H g)))
     = total PhysicsObject.position (Game.physicsObjects g).
Proof.
  unfold Game.collide.
  pose proof (fold_left_invariant (Game.collidePair H (Game.heldObject g))
                (fun st =>
                   total PhysicsObject.velocity (fst (fst st))
                   = total PhysicsObject.velocity (Game.physicsObjects g)
                   /\ total PhysicsObject.position (fst (fst st))
                      = total PhysicsObject.position (Game.physicsObjects g))
                (fun ij => fst ij <> snd ij)
                (Game.pairs (length (Game.physicsObjects g)))
                (Game.physicsObjects g, Game.calls g, [])) as Hfold.
  destruct (fold_left _ _ _) as [[objs c] log]. cbn [fst Game.physicsObjects] in *.
  apply Hfold.
  - intros st ij Hij [Hvel Hpos].
    destruct (collidePair_total H (Game.heldObject g) st ij Hij) as [Hv Hp].
    split; congruence.
  - eapply Forall_impl; [apply pairs_ordered|]. cbn. intros ij Hlt. lia.
  - split; reflexivity.
Qed.

Lemma pairs_in_range (n : nat) :
  Forall (fun ij => (fst ij < snd ij < n)%nat) (Game.pairs n).
Proof.
  apply Forall_forall. intros [i j] Hin. apply list_elem_of_In in Hin.
  unfold Game.pairs in Hin. apply in_flat_map in Hin as (i' & _ & Hin).
  apply in_map_iff in Hin as (j' & [= <- <-] & Hj). apply in_seq in Hj.
  cbn. lia.
Qed.

Lemma collidePair_log H held n st ij :
  (fst ij < snd ij < n)%nat ->
  Forall (fun e => (Game.objA e < Game.objB e < n)%nat
                   /\ held <> Some (Game.objA e) /\ held <> Some (Game.objB e))
         (snd st) ->
  Forall (fun e => (Game.objA e < Game.objB e < n)%nat
                   /\ held <> Some (Game.objA e) /\ held <> Some (Game.objB e))
         (snd (Game.collidePair H held st ij)).
Proof.
  destruct st as [[objs c] log], ij as [i j]. cbn [fst snd]. intros Hij Hlog.
  destruct (Game.collidePair H held (objs, c, log) (i, j)) as [[objs' c'] log']
    eqn:Hpair.
  apply collidePair_inv in Hpair
    as [[_ ->]|(a & b & a1 & c1 & a' & b' & _ & _ & Hi & Hj & _ & _ & _ & ->)];
    cbn [snd]; [exact Hlog|].
  apply Forall_app. split; [exact Hlog|]. constructor; [|constructor].
  cbn. repeat split; try assumption; lia.
Qed.

(** The collisions a frame resolves are between two different objects of
    the game, the one earlier in the list named first, and never involve
    the object the player holds after the frame. *)
Theorem collisions_spare_held_object (H : Host.t) (f : Game.Frame) (g : Game.t)
    (e : Game.Collision) :
  e ∈ snd (Game.update H f g) ->
  (Game.objA e < Game.objB e < length (Game.physicsObjects g))%nat
  /\ Game.heldObject (fst (Game.update H f g)) <> Some (Game.objA e)
  /\ Game.heldObject (fst (Game.update H f g)) <> Some (Game.objB e).
Proof.
  unfold Game.update.
  rewrite (Forall2_length _ _ _ (beforeCollide_evolves H f g)).
  set (g' := Game.stepObjects f _).
  destruct (collide_frame H g') as (-> & _).
  unfold Game.collide.
  pose proof (fold_left_invariant (Game.collidePair H (Game.heldObject g'))
                (fun st =>
                   Forall (fun e =>
                             (Game.objA e < Game.objB e
                              < length (Game.physicsObjects g'))%nat
                             /\ Game.heldObject g' <> Some (Game.objA e)
                             /\ Game.heldObject g' <> Some (Game.objB e))
                          (snd st))
                (fun ij => (fst ij < snd ij < length (Game.physicsObjects g'))%nat)
                (Game.pairs (length (Game.physicsObjects g')))
                (Game.physicsObjects g', Game.calls g', [])) as Hfold.
  destruct (fold_left _ _ _) as [[objs c] log]. cbn [fst snd] in *.
  intros He. revert e He. apply Forall_forall. apply Hfold.
  - intros st ij Hij Hst. apply collidePair_log; assumption.
  - apply pairs_in_range.
  - constructor.
Qed.

Lemma collisions_spare_held_object_witness :
  exists e, e ∈ snd (Game.update twinsHost idleFrame twins)
            /\ (Game.objA e < Game.objB e < 2)%nat.
Proof.
  assert (Hlate : 100 <= Host.performance_now twinsHost (Host.nowCalls (Host.mkCalls 0 0))
                         - PhysicsObject.lastCollisionTime
                             (PhysicsObject.constructor (Vector3.mk 0 1 0))).
  { simpl. lra. }
  destruct (idle_pair_collides twinsHost idleFrame
              (PhysicsObject.constructor (Vector3.mk 0 1 0))
              (PhysicsObject.constructor (Vector3.mk 0 1 0))
              Vector3.zero false [] None (Host.mkCalls 0 0)
              eq_refl eq_refl eq_refl eq_refl eq_refl eq_refl eq_refl eq_refl Hlate)
    as (a1 & b1 & c1 & Hupd & _).
  assert (He : Game.mkCollision 0 1
                 (Host.performance_now twinsHost (Host.nowCalls (Host.mkCalls 0 0)))
               ∈ snd (Game.update twinsHost idleFrame twins)).
  { unfold twins, Game.create.
    change (PhysicsObject.constructor <$> [Vector3.mk 0 1 0; Vector3.mk 0 1 0])
      with [PhysicsObject.constructor (Vector3.mk 0 1 0);
            PhysicsObject.constructor (Vector3.mk 0 1 0)].
    rewrite Hupd. apply list_elem_of_here. }
  eexists. split; [exact He|].
  exact (proj1 (collisions_spare_held_object twinsHost idleFrame twins _ He)).
Defined.

(** ** Game: the start positions *)

Lemma farFromAll_true p existing :
  Game.farFromAll p existing = true ->
  Forall (fun q => ~ Vector3.distanceTo p q < 0.8) existing.
Proof.
  induction existing as [|q existing IH]; cbn; [constructor|].
  destruct (Rlt_dec _ _) as [Hnear|Hfar]; [discriminate|].
  intros Hrest. constructor; [exact Hfar|apply IH, Hrest].
Qed.

Lemma tryPositions_spec H existing : forall attempts c,
  let '(found, c') := Game.tryPositions H attempts existing c in
  Host.nowCalls c' = Host.nowCalls c
  /\ (Host.randomCalls c <= Host.randomCalls c'
      <= Host.randomCalls c + 3 * attempts)%nat
  /\ (0 < attempts -> Host.randomCalls c + 3 <= Host.randomCalls c')%nat
  /\ match found with
     | Some p =>
         drawn H p /\ Forall (fun q => ~ Vector3.distanceTo p q < 0.8) existing
     | None => True
     end.
Proof.
  induction attempts as [|attempts IH]; intros c.
  - cbn. repeat split; lia.
  - cbn [Game.tryPositions Host.random]. cbv zeta.
    destruct (Game.farFromAll _ existing) eqn:Hfar.
    + cbn. repeat split; try lia.
      * eexists _, _, _. reflexivity.
      * apply farFromAll_true, Hfar.
    + match goal with |- context [Game.tryPositions H attempts existing ?c1] =>
        specialize (IH c1) end.
      destruct (Game.tryPositions _ _ _ _) as [found c'].
      cbn in IH. destruct IH as (Hnow & Hdraws & _ & Hfound).
      repeat split; try assumption; lia.
Qed.

Lemma placeObjects_spec H : forall count i existing c,
  length existing = i ->
  let '(positions, c') := Game.placeObjects H i count existing c in
  take i positions = existing
  /\ length positions = (i + count)%nat
  /\ Host.nowCalls c' = Host.nowCalls c
  /\ (Host.randomCalls c + 3 * count <= Host.randomCalls c'
      <= Host.randomCalls c + 60 * count)%nat
  /\ forall j p, (i <= j)%nat -> positions !! j = Some p -> placed H positions j p.
Proof.
  induction count as [|count IH]; intros i existing c Hlen.
  - cbn. rewrite <- Hlen, firstn_all. repeat split; try lia.
    intros j p Hj Hp. apply lookup_lt_Some in Hp. lia.
  - cbn [Game.placeObjects].
    pose proof (tryPositions_spec H existing 20 c) as Htry.
    destruct (Game.tryPositions H 20 existing c) as [found c1].
    destruct Htry as (Hnow1 & Hdraws1 & Hmin1 & Hfound).
    set (position := match found with
                     | Some position => position
                     | None => Game.fallbackPosition i
                     end).
    specialize (IH (S i) (existing ++ [position]) c1).
    destruct (Game.placeObjects H (S i) count (existing ++ [position]) c1)
      as [positions c'].
    destruct IH as (Htake & Hlength & Hnow & Hdraws & Hlater).
    { rewrite length_app. cbn. lia. }
    assert (Hexisting : take i positions = existing).
    { rewrite <- (take_app_length existing [position]), Hlen, <- Htake.
      rewrite take_take. f_equal. lia. }
    split; [exact Hexisting|]. split; [lia|]. split; [congruence|].
    split; [specialize (Hmin1 ltac:(lia)); lia|].
    intros j p Hj Hp.
    destruct (decide (j = i)) as [->|Hne]; [|apply Hlater; [lia|exact Hp]].
    assert (Hposition : p = position).
    { assert (Hi : take (S i) positions !! i = Some p)
        by (rewrite lookup_take_lt by lia; exact Hp).
      rewrite Htake, lookup_app_r, Hlen, Nat.sub_diag in Hi by lia.
      cbn in Hi. congruence. }
    subst p. unfold position. destruct found as [p|]; [|left; reflexivity].
    right. destruct Hfound as [Hdrawn Hfar]. split; [exact Hdrawn|].
    intros k q Hk Hq. rewrite Forall_forall in Hfar. apply Hfar.
    rewrite <- Hexisting. apply list_elem_of_lookup. exists k.
    rewrite lookup_take_lt by lia. exact Hq.
Qed.

Lemma fallbackPosition_inside (i : nat) :
  (i < 6)%nat ->
  -2 <= Vector3.x (Game.fallbackPosition i) <= 2
  /\ 0.5 <= Vector3.y (Game.fallbackPosition i) <= 1.5
  /\ Vector3.z (Game.fallbackPosition i) = -1.
Proof.
  intros Hi. unfold Game.fallbackPosition. cbn.
  assert (0 <= INR i <= 5).
  { split; [apply pos_INR|]. replace 5 with (INR 5) by (simpl; lra).
    apply le_INR. lia. }
  repeat split; lra.
Qed.

Lemma drawn_inside H p :
  (forall k, 0 <= Host.Math_random H k < 1) -> drawn H p ->
  -2 <= Vector3.x p < 2 /\ 0.5 <= Vector3.y p < 2 /\ -2 <= Vector3.z p < 0.
Proof.
  intros Hunit (k1 & k2 & k3 & ->). cbn.
  pose proof (Hunit k1). pose proof (Hunit k2). pose proof (Hunit k3).
  repeat split; lra.
Qed.

Lemma constructor_keeps (p : Vector3.t) :
  0.5 <= Vector3.y p ->
  PhysicsObject.position (PhysicsObject.constructor p) = p.
Proof.
  intros Hy. unfold PhysicsObject.constructor. cbv zeta.
  destruct (Rlt_dec _ _) as [Hlow|_]; [|reflexivity].
  unfold PhysicsObject.GROUND_Y, PhysicsObject.BALL_RADIUS in Hlow. cbn in Hlow. lra.
Qed.

Lemma createThrowableObjects_length (H : Host.t) (c : Host.calls) :
  length (Game.physicsObjects (Game.createThrowableObjects H c)) = 6%nat.
Proof.
  unfold Game.createThrowableObjects.
  pose proof (placeObjects_spec H 6 0 [] c eq_refl) as Hspec.
  destruct (Game.placeObjects H 0 6 [] c) as [positions c'].
  destruct Hspec as (_ & Hlength & _). cbn. rewrite length_fmap. exact Hlength.
Qed.

(** [_createThrowableObjects] makes six objects, all free and at rest,
    with nothing held.  It reads the clock never and draws between 18 and
    360 random numbers: three per attempt, at most twenty attempts per
    object. *)
Theorem createThrowableObjects_six (H : Host.t) (c : Host.calls) :
  let g := Game.createThrowableObjects H c in
  length (Game.physicsObjects g) = 6%nat
  /\ Game.heldObject g = None
  /\ Forall (fun o => PhysicsObject.isHeld o = false
                      /\ PhysicsObject.velocity o = Vector3.mk 0 0 0
                      /\ PhysicsObject.radius o = 0.25)
       (Game.physicsObjects g)
  /\ Host.nowCalls (Game.calls g) = Host.nowCalls c
  /\ (Host.randomCalls c + 18 <= Host.randomCalls (Game.calls g)
      <= Host.randomCalls c + 360)%nat
  /\ reachable H g.
Proof.
  unfold Game.createThrowableObjects.
  pose proof (placeObjects_spec H 6 0 [] c eq_refl) as Hspec.
  destruct (Game.placeObjects H 0 6 [] c) as [positions c'].
  destruct Hspec as (_ & Hlength & Hnow & Hdraws & _). cbn.
  rewrite length_fmap. split; [exact Hlength|]. split; [reflexivity|].
  split; [|split; [exact Hnow|split; [lia|constructor]]].
  apply Forall_fmap, Forall_true. intros p.
  unfold PhysicsObject.constructor. cbn. repeat split.
Qed.

(** With [Math.random()] in [0, 1), as specified, every object starts with
    its centre in the box -2 <= x <= 2, 0.5 <= y < 2, -2 <= z < 0: above
    the ground and inside the arena. *)
Theorem createThrowableObjects_inside (H : Host.t) (c : Host.calls) :
  (forall k, 0 <= Host.Math_random H k < 1) ->
  Forall (fun o =>
            -2 <= Vector3.x (PhysicsObject.position o) <= 2
            /\ 0.5 <= Vector3.y (PhysicsObject.position o) < 2
            /\ -2 <= Vector3.z (PhysicsObject.position o) < 0)
    (Game.physicsObjects (Game.createThrowableObjects H c)).
Proof.
  intros Hunit. unfold Game.createThrowableObjects.
  pose proof (placeObjects_spec H 6 0 [] c eq_refl) as Hspec.
  destruct (Game.placeObjects H 0 6 [] c) as [positions c'].
  destruct Hspec as (_ & Hlength & _ & _ & Hplaced). cbn.
  apply Forall_fmap, Forall_lookup. intros j p Hp. unfold compose.
  assert (Hbox : -2 <= Vector3.x p <= 2 /\ 0.5 <= Vector3.y p < 2
                 /\ -2 <= Vector3.z p < 0).
  { destruct (Hplaced j p ltac:(lia) Hp) as [->|[Hdrawn _]].
    - apply lookup_lt_Some in Hp.
      destruct (fallbackPosition_inside j ltac:(lia)) as (Hx & Hy & Hz).
      rewrite Hz. repeat split; lra.
    - destruct (drawn_inside H p Hunit Hdrawn) as (Hx & Hy & Hz).
      repeat split; lra. }
  rewrite constructor_keeps by lra. exact Hbox.
Qed.

Lemma createThrowableObjects_inside_witness :
  Forall (fun o => 0.5 <= Vector3.y (PhysicsObject.position o) < 2)
    (Game.physicsObjects
       (Game.createThrowableObjects (Host.mk (fun _ => 0.5) (fun _ => 0))
          (Host.mkCalls 0 0))).
Proof.
  assert (Hunit : forall k : nat,
             0 <= Host.Math_random (Host.mk (fun _ => 0.5) (fun _ => 0)) k < 1)
    by (intros k; simpl; lra).
  eapply Forall_impl;
    [exact (createThrowableObjects_inside _ (Host.mkCalls 0 0) Hunit)|].
  cbn. intros o (_ & Hy & _). exact Hy.
Defined.

(** With [Math.random()] in [0, 1), two objects start with their centres
    0.8 or more apart, more than the two radii, unless the later of the
    two had to take its place in the line-up after twenty failed
    attempts. *)
Theorem createThrowableObjects_spacing (H : Host.t) (c : Host.calls)
    (i j : nat) (a b : PhysicsObject.t) :
  (forall k, 0 <= Host.Math_random H k < 1) ->
  (i < j)%nat ->
  Game.physicsObjects (Game.createThrowableObjects H c) !! i = Some a ->
  Game.physicsObjects (Game.createThrowableObjects H c) !! j = Some b ->
  PhysicsObject.position b = Game.fallbackPosition j
  \/ 0.8 <= Vector3.distanceTo (PhysicsObject.position b) (PhysicsObject.position a).
Proof.
  intros Hunit Hij. unfold Game.createThrowableObjects.
  pose proof (placeObjects_spec H 6 0 [] c eq_refl) as Hspec.
  destruct (Game.placeObjects H 0 6 [] c) as [positions c'].
  destruct Hspec as (_ & Hlength & _ & _ & Hplaced). cbn.
  rewrite !list_lookup_fmap. intros Ha Hb.
  destruct (positions !! i) as [p|] eqn:Hp; [|discriminate].
  destruct (positions !! j) as [q|] eqn:Hq; [|discriminate].
  cbn in Ha, Hb. injection Ha as <-. injection Hb as <-.
  assert (Hkeep : forall k r, positions !! k = Some r ->
                    PhysicsObject.position (PhysicsObject.constructor r) = r).
  { intros k r Hr. apply constructor_keeps.
    destruct (Hplaced k r ltac:(lia) Hr) as [->|[Hdrawn _]].
    - apply lookup_lt_Some in Hr.
      destruct (fallbackPosition_inside k ltac:(lia)) as (_ & Hy & _). lra.
    - destruct (drawn_inside H r Hunit Hdrawn) as (_ & Hy & _). lra. }
  rewrite (Hkeep i p Hp), (Hkeep j q Hq).
  destruct (Hplaced j q ltac:(lia) Hq) as [->|[_ Hfar]]; [left; reflexivity|].
  right. specialize (Hfar i p Hij Hp). lra.
Qed.

Lemma createThrowableObjects_spacing_witness :
  let H := Host.mk (fun _ => 0.5) (fun _ => 0) in
  let g := Game.createThrowableObjects H (Host.mkCalls 0 0) in
  exists a b,
    Game.physicsObjects g !! 0%nat = Some a
    /\ Game.physicsObjects g !! 1%nat = Some b
    /\ (PhysicsObject.position b = Game.fallbackPosition 1
        \/ 0.8 <= Vector3.distanceTo (PhysicsObject.position b)
                    (PhysicsObject.position a)).
Proof.
  intros H g.
  assert (Hunit : forall k : nat, 0 <= Host.Math_random H k < 1)
    by (intros k; simpl; lra).
  pose proof (createThrowableObjects_length H (Host.mkCalls 0 0)) as Hsix.
  fold g in Hsix.
  destruct (lookup_lt_is_Some_2 (Game.physicsObjects g) 0) as [a Ha]; [lia|].
  destruct (lookup_lt_is_Some_2 (Game.physicsObjects g) 1) as [b Hb]; [lia|].
  exists a, b. split; [exact Ha|]. split; [exact Hb|].
  exact (createThrowableObjects_spacing H (Host.mkCalls 0 0) 0 1 a b Hunit
           (Nat.lt_0_succ 0) Ha Hb).
Defined.
